(** * Student dashboard: enrollment consistency and access control

    A shallow embedding of the request handlers of the student-dashboard
    backend and the properties its specification states about them.

    Two implementations live in the repository and both are embedded:

    - the database-backed routers ([routes/courses.js], [routes/students.js],
      [routes/admin.js]) over the Mongoose models [Course] and [User]:
      module [Db];
    - the stand-alone in-memory server with its [demoUsers] and
      [demoCourses] tables: module [Demo].

    Every [await] on the document store may throw; the handlers wrap their
    body in [try { ... } catch], so the embedding threads the store and a
    fault schedule through a small state-and-exception monad. *)

From Stdlib Require Import ZArith Ascii String List Bool Lia.
From stdpp Require Import base option list gmap strings sorting pretty.

Local Open Scope string_scope.
Set Warnings "-register-all".

(** ** JSON values

    Request bodies and the objects of the in-memory server are plain
    JavaScript objects: maps from property names to JSON values. *)

Inductive Value : Type :=
  | VUndefined
  | VNull
  | VBool (b : bool)
  | VNum (n : Z)
  | VStr (s : string)
  | VArr (l : list Value)
  | VObj (kvs : list (string * Value)).

Abbreviation Obj := (gmap string Value).

(** JavaScript truthiness ([!x], [x || y], [if (x)]). *)
Definition truthy (v : Value) : bool :=
  match v with
  | VUndefined | VNull => false
  | VBool b => b
  | VNum n => negb (n =? 0)%Z
  | VStr s => negb (String.eqb s "")
  | VArr _ | VObj _ => true
  end.

(** Property read: a missing property reads as [undefined]. *)
Definition prop (o : Obj) (k : string) : Value := default VUndefined (o !! k).

(** Strict equality [===] (and the [SameValueZero] of [Array.includes]) on
    JSON values.  Arrays and objects compare by reference; two array or
    object values met at different places are different references. *)
Definition strict_eq (a b : Value) : bool :=
  match a, b with
  | VUndefined, VUndefined => true
  | VNull, VNull => true
  | VBool x, VBool y => Bool.eqb x y
  | VNum x, VNum y => (x =? y)%Z
  | VStr x, VStr y => String.eqb x y
  | _, _ => false
  end.

(** [arr.includes(v)] *)
Definition includes (v : Value) (arr : list Value) : bool :=
  existsb (strict_eq v) arr.

(** ** HTTP responses

    [res.status(s).json({ success, message, ...payload })]; the status is
    200 unless set. *)

Record Response (P : Type) : Type := mkResponse {
  status : nat;
  success : bool;
  message : option string;
  payload : option P
}.
Arguments mkResponse {P} _ _ _ _.
Arguments status {P} _.
Arguments success {P} _.
Arguments message {P} _.
Arguments payload {P} _.

Definition failure {P} (s : nat) (msg : string) : Response P :=
  mkResponse s false (Some msg) None.

Definition ok {P} (msg : string) (p : option P) : Response P :=
  mkResponse 200 true (Some msg) p.

(** The error taxonomy of the specification, read off a response: the
    handlers answer most rejections with status 400 and tell them apart by
    the message. *)
Inductive ErrorKind : Type :=
  | NotFound | Conflict | CapacityExceeded | Forbidden
  | ValidationFailed | Inactive | Unauthorized | ServerFault.

Definition error_kind {P} (r : Response P) : option ErrorKind :=
  if success r then None else
  match status r, message r with
  | 404, _ => Some NotFound
  | 403, _ => Some Forbidden
  | 401, _ => Some Unauthorized
  | 500, _ => Some ServerFault
  | 400, Some m =>
      if String.eqb m "Course is not active" then Some Inactive
      else if String.eqb m "Already enrolled in this course" then Some Conflict
      else if String.eqb m "Not enrolled in this course" then Some Conflict
      else if String.eqb m "Course with this code already exists" then Some Conflict
      else if String.eqb m "User already exists with this email" then Some Conflict
      else if String.eqb m "Course is full" then Some CapacityExceeded
      else if String.eqb m "Cannot deactivate your own account" then Some Forbidden
      else if String.eqb m "Cannot change your own role" then Some Forbidden
      else if String.eqb m "Cannot delete your own account" then Some Forbidden
      else Some ValidationFailed
  | _, _ => Some ValidationFailed
  end.

(** ** Strings *)

(** [s.trim()] on the ASCII white space. *)
Definition is_space (c : ascii) : bool :=
  let n := nat_of_ascii c in
  (n =? 32)%nat || ((9 <=? n)%nat && (n <=? 13)%nat).

Fixpoint trim_start (s : string) : string :=
  match s with
  | String c r => if is_space c then trim_start r else s
  | EmptyString => EmptyString
  end.

Fixpoint trim_end (s : string) : string :=
  match s with
  | String c r =>
      match trim_end r with
      | EmptyString => if is_space c then EmptyString else String c EmptyString
      | r' => String c r'
      end
  | EmptyString => EmptyString
  end.

Definition trim (s : string) : string := trim_end (trim_start s).

(** [s.toUpperCase()] on ASCII letters. *)
Definition upper_char (c : ascii) : ascii :=
  let n := nat_of_ascii c in
  if ((97 <=? n)%nat && (n <=? 122)%nat) then ascii_of_nat (n - 32) else c.

Fixpoint uppercase (s : string) : string :=
  match s with
  | String c r => String (upper_char c) (uppercase r)
  | EmptyString => EmptyString
  end.

(** [s.split(sep)] for a one-character separator. *)
Fixpoint split (sep : ascii) (s : string) : list string :=
  match s with
  | EmptyString => [EmptyString]
  | String c r =>
      if Ascii.eqb c sep then EmptyString :: split sep r
      else match split sep r with
           | h :: t => String c h :: t
           | [] => [String c EmptyString]
           end
  end.

(** * The database-backed routers *)

Module Course.
(** [models/Course.js]: the paths of [CourseSchema] the handlers read or
    write.  The document's [_id] is its key in the collection. *)
Record t : Type := mk {
  courseCode : string;
  courseName : string;
  instructor : string;
  instructorId : option string;
  department : string;
  semester : Z;
  credits : Z;
  capacity : Z;
  enrolledStudents : list string;
  isActive : bool;
  updatedAt : Z
}.

(** [CourseSchema.virtual('enrolledCount')] *)
Definition enrolledCount (c : t) : Z := Z.of_nat (length (enrolledStudents c)).

(** [CourseSchema.virtual('availableSeats')] *)
Definition availableSeats (c : t) : Z :=
  (capacity c - Z.of_nat (length (enrolledStudents c)))%Z.

Definition set_enrolledStudents (l : list string) (c : t) : t :=
  mk (courseCode c) (courseName c) (instructor c) (instructorId c)
     (department c) (semester c) (credits c) (capacity c) l (isActive c)
     (updatedAt c).

Definition set_isActive (b : bool) (c : t) : t :=
  mk (courseCode c) (courseName c) (instructor c) (instructorId c)
     (department c) (semester c) (credits c) (capacity c)
     (enrolledStudents c) b (updatedAt c).

(** [CourseSchema.pre('save')]: [this.updatedAt = Date.now()] *)
Definition pre_save (now : Z) (c : t) : t :=
  mk (courseCode c) (courseName c) (instructor c) (instructorId c)
     (department c) (semester c) (credits c) (capacity c)
     (enrolledStudents c) (isActive c) now.
End Course.

Module User.
(** Modelled from the spec: [models/User.js] is not among the sources;
    the record has the fields the specification's data model lists
    (identity, role, student-only fields, enrolled-course references,
    active flag) under the names the handlers use.  [password] is [None]
    in a document read through [select('-password')]. *)
Record t : Type := mk {
  name : string;
  email : string;
  password : option string;
  role : string;
  studentId : option string;
  department : string;
  semester : Z;
  phone : option string;
  address : option string;
  profileImage : option string;
  enrolledCourses : list string;
  isActive : bool;
  createdAt : Z
}.

Definition set_password (p : option string) (u : t) : t :=
  mk (name u) (email u) p (role u) (studentId u) (department u)
     (semester u) (phone u) (address u) (profileImage u)
     (enrolledCourses u) (isActive u) (createdAt u).

Definition set_role (r : string) (u : t) : t :=
  mk (name u) (email u) (password u) r (studentId u) (department u)
     (semester u) (phone u) (address u) (profileImage u)
     (enrolledCourses u) (isActive u) (createdAt u).

Definition set_isActive (b : bool) (u : t) : t :=
  mk (name u) (email u) (password u) (role u) (studentId u) (department u)
     (semester u) (phone u) (address u) (profileImage u)
     (enrolledCourses u) b (createdAt u).

Definition set_enrolledCourses (l : list string) (u : t) : t :=
  mk (name u) (email u) (password u) (role u) (studentId u) (department u)
     (semester u) (phone u) (address u) (profileImage u) l (isActive u)
     (createdAt u).

(** The assignments of the dead branch of the role handler. *)
Definition clear_student_fields (u : t) : t :=
  mk (name u) (email u) (password u) (role u) None "General" 1
     (phone u) (address u) (profileImage u) (enrolledCourses u)
     (isActive u) (createdAt u).
End User.

Module Db.

(** The two collections, keyed by document id. *)
Record DB : Type := mkDB {
  courses : gmap string Course.t;
  users : gmap string User.t
}.

(** *** Store monad

    A computation reads the fault schedule (one boolean per store call
    still to come: [true] makes that call throw; an exhausted schedule
    means no more faults), and the database. *)
Inductive result (A : Type) : Type :=
  | Returned (a : A)
  | Thrown.
Arguments Returned {A} _.
Arguments Thrown {A}.

Definition Store (A : Type) : Type :=
  list bool -> DB -> result A * DB * list bool.

Definition ret {A} (a : A) : Store A := fun fs db => (Returned a, db, fs).

Definition bind {A B} (m : Store A) (k : A -> Store B) : Store B :=
  fun fs db =>
    match m fs db with
    | (Returned a, db', fs') => k a fs' db'
    | (Thrown, db', fs') => (Thrown, db', fs')
    end.

(** One call on the store: it throws when the schedule says so and
    otherwise runs atomically. *)
Definition call {A} (f : DB -> A * DB) : Store A :=
  fun fs db =>
    match fs with
    | true :: fs' => (Thrown, db, fs')
    | false :: fs' => let (a, db') := f db in (Returned a, db', fs')
    | [] => let (a, db') := f db in (Returned a, db', [])
    end.

Notation "'let*' x := m 'in' k" := (bind m (fun x => k))
  (at level 10, x name, m at level 100, k at level 200).

(** [try { body } catch (error) { res.status(500).json(...) }] *)
Definition try_catch {P} (body : Store (Response P)) (on_error : Response P)
    (fs : list bool) (db : DB) : Response P * DB :=
  match body fs db with
  | (Returned r, db', _) => (r, db')
  | (Thrown, db', _) => (on_error, db')
  end.

Definition throw {A} : Store A := fun fs db => (Thrown, db, fs).

(** *** Document ids

    The [_id] of a document is an ObjectId, written as a string of 24
    hexadecimal digits.  The keys of the two collections stand for the
    ids of their documents.  Mongoose casts the [id] of [findById] and of
    [findByIdAndUpdate] to an ObjectId before it asks the store: a string
    that is neither the id of a document of the collection nor 24
    hexadecimal digits is a [CastError], which the call throws.  The
    [req.user.id] of the caller is the id of the document that [protect]
    loaded and needs no such test. *)

Definition is_hex (c : ascii) : bool :=
  let n := nat_of_ascii c in
  ((48 <=? n)%nat && (n <=? 57)%nat)
  || ((65 <=? n)%nat && (n <=? 70)%nat)
  || ((97 <=? n)%nat && (n <=? 102)%nat).

Definition is_ObjectId (s : string) : bool :=
  (String.length s =? 24)%nat && forallb is_hex (list_ascii_of_string s).

Definition castable {A} (collection : gmap string A) (id : string) : bool :=
  is_ObjectId id || bool_decide (is_Some (collection !! id)).

(** *** Store calls used by the handlers *)

(** [Course.findById(id)] with the [id] of the request. *)
Definition Course_findById (id : string) : Store (option Course.t) :=
  fun fs db =>
    if castable (courses db) id
    then call (fun db => (courses db !! id, db)) fs db
    else throw fs db.

(** [course.save()]: runs the [pre('save')] hook and writes the document. *)
Definition Course_save (now : Z) (id : string) (c : Course.t) : Store Course.t :=
  call (fun db =>
    let c' := Course.pre_save now c in
    (c', mkDB (<[id := c']> (courses db)) (users db))).

(** [$addToSet]: append unless present. *)
Definition addToSet (x : string) (l : list string) : list string :=
  if bool_decide (x ∈ l) then l else l ++ [x].

(** [$pull]: remove every occurrence. *)
Definition pull (x : string) (l : list string) : list string :=
  filter (fun y => y ≠ x) l.

(** [User.findByIdAndUpdate(id, { $addToSet: { enrolledCourses: c } })];
    no document with that id: nothing is written. *)
Definition User_addToSet_enrolledCourses (id c : string) : Store unit :=
  call (fun db =>
    (tt, mkDB (courses db)
           (alter (fun u => User.set_enrolledCourses
                              (addToSet c (User.enrolledCourses u)) u)
                  id (users db)))).

(** [User.findByIdAndUpdate(id, { $pull: { enrolledCourses: c } })] *)
Definition User_pull_enrolledCourses (id c : string) : Store unit :=
  call (fun db =>
    (tt, mkDB (courses db)
           (alter (fun u => User.set_enrolledCourses
                              (pull c (User.enrolledCourses u)) u)
                  id (users db)))).

(** *** [routes/courses.js] *)

(** [POST /api/courses/:id/enroll], behind [protect] and
    [authorize('student')]; [user_id] is [req.user.id]. *)
Definition enroll_body (now : Z) (user_id id : string)
    : Store (Response Course.t) :=
  let* course := Course_findById id in
  match course with
  | None => ret (failure 404 "Course not found")
  | Some course =>
    if negb (Course.isActive course) then
      ret (failure 400 "Course is not active")
    else if bool_decide (user_id ∈ Course.enrolledStudents course) then
      ret (failure 400 "Already enrolled in this course")
    else if (Course.capacity course <=?
             Z.of_nat (length (Course.enrolledStudents course)))%Z then
      ret (failure 400 "Course is full")
    else
      let course :=
        Course.set_enrolledStudents
          (Course.enrolledStudents course ++ [user_id]) course in
      let* course := Course_save now id course in
      let* _ := User_addToSet_enrolledCourses user_id id in
      ret (ok "Successfully enrolled in course" (Some course))
  end.

Definition enroll (now : Z) (user_id id : string)
    : list bool -> DB -> Response Course.t * DB :=
  try_catch (enroll_body now user_id id)
            (failure 500 "Server error enrolling in course").

(** [POST /api/courses/:id/unenroll] *)
Definition unenroll_body (now : Z) (user_id id : string)
    : Store (Response unit) :=
  let* course := Course_findById id in
  match course with
  | None => ret (failure 404 "Course not found")
  | Some course =>
    if negb (bool_decide (user_id ∈ Course.enrolledStudents course)) then
      ret (failure 400 "Not enrolled in this course")
    else
      let course :=
        Course.set_enrolledStudents
          (filter (fun studentId => studentId ≠ user_id)
                  (Course.enrolledStudents course)) course in
      let* _ := Course_save now id course in
      let* _ := User_pull_enrolledCourses user_id id in
      ret (ok "Successfully unenrolled from course" None)
  end.

Definition unenroll (now : Z) (user_id id : string)
    : list bool -> DB -> Response unit * DB :=
  try_catch (unenroll_body now user_id id)
            (failure 500 "Server error unenrolling from course").

(** *** Updates through [findByIdAndUpdate(id, update, { new: true,
    runValidators: true })]

    Mongoose reads an update document as follows: a key that starts with
    [$] is an update operator, every other top-level key is sugar for an
    entry of [$set].  Of the operators only [$set] is modelled, and of
    the casts only the one of a value that has the JSON type of its
    schema path already: the result of an update with another operator
    ([$unset], [$rename], [$inc], ...) or with a value that Mongoose
    converts (the string ["5"] for a number) is outside this model, and
    no statement below rests on it.  A path outside the schema is
    dropped, and with [runValidators] the validators of the paths that
    are set run; a cast or validation error makes the call throw. *)

Definition is_operator (k : string) : bool := String.prefix "$" k.

(** An update document without operator. *)
Definition plain (update : Obj) : bool :=
  forallb (fun kv : string * Value => negb (is_operator kv.1))
          (map_to_list update).

Definition castUpdate (update : Obj) : Obj :=
  let plain := filter (fun kv => is_operator kv.1 = false) update in
  match update !! "$set" with
  | Some (VObj kvs) => plain ∪ list_to_map kvs
  | _ => plain
  end.

Definition cast_String (v : Value) : option string :=
  match v with VStr s => Some s | _ => None end.
Definition cast_Number (v : Value) : option Z :=
  match v with VNum n => Some n | _ => None end.
Definition cast_Boolean (v : Value) : option bool :=
  match v with VBool b => Some b | _ => None end.
Definition cast_ObjectId (v : Value) : option string :=
  match v with VStr s => Some s | _ => None end.
Definition cast_ObjectIds (v : Value) : option (list string) :=
  match v with VArr l => mapM cast_ObjectId l | _ => None end.

(** The new value of one path: the old one when the update does not
    name the path, the cast one when it does and [valid] accepts it. *)
Definition set_path {A} (sets : Obj) (k : string)
    (cast : Value -> option A) (valid : A -> bool) (old : A) : option A :=
  match sets !! k with
  | None => Some old
  | Some v => a ← cast v; if valid a then Some a else None
  end.

Definition any {A} (_ : A) : bool := true.
Definition between (lo hi n : Z) : bool := ((lo <=? n) && (n <=? hi))%Z.
Definition required (s : string) : bool := negb (String.eqb s "").
Definition maxlength (n : nat) (s : string) : bool :=
  (String.length s <=? n)%nat.

(** The paths of [CourseSchema] with their setters and validators. *)
Definition Course_applyUpdate (update : Obj) (c : Course.t)
    : option Course.t :=
  let sets := castUpdate update in
  courseCode ← set_path sets "courseCode"
                 (fun v => (fun s => uppercase (trim s)) <$> cast_String v)
                 required (Course.courseCode c);
  courseName ← set_path sets "courseName"
                 (fun v => trim <$> cast_String v)
                 (fun s => required s && maxlength 200 s)
                 (Course.courseName c);
  instructor ← set_path sets "instructor"
                 (fun v => trim <$> cast_String v) required
                 (Course.instructor c);
  instructorId ← set_path sets "instructorId"
                 (fun v => Some <$> cast_ObjectId v) any
                 (Course.instructorId c);
  department ← set_path sets "department"
                 (fun v => trim <$> cast_String v) required
                 (Course.department c);
  semester ← set_path sets "semester" cast_Number (between 1 8)
                 (Course.semester c);
  credits ← set_path sets "credits" cast_Number (between 1 5)
                 (Course.credits c);
  capacity ← set_path sets "capacity" cast_Number (fun n => (1 <=? n)%Z)
                 (Course.capacity c);
  enrolledStudents ← set_path sets "enrolledStudents" cast_ObjectIds any
                 (Course.enrolledStudents c);
  isActive ← set_path sets "isActive" cast_Boolean any
                 (Course.isActive c);
  updatedAt ← set_path sets "updatedAt" cast_Number any
                 (Course.updatedAt c);
  Some (Course.mk courseCode courseName instructor instructorId department
          semester credits capacity enrolledStudents isActive updatedAt).

Definition valid_role (r : string) : bool :=
  bool_decide (r ∈ ["student"; "admin"; "instructor"]).

(** The paths of the user schema; the role is an enumeration. *)
Definition User_applyUpdate (update : Obj) (u : User.t) : option User.t :=
  let sets := castUpdate update in
  name ← set_path sets "name" cast_String any (User.name u);
  email ← set_path sets "email" cast_String any (User.email u);
  password ← set_path sets "password" (fun v => Some <$> cast_String v)
               any (User.password u);
  role ← set_path sets "role" cast_String valid_role (User.role u);
  studentId ← set_path sets "studentId" (fun v => Some <$> cast_String v)
               any (User.studentId u);
  department ← set_path sets "department" cast_String any
               (User.department u);
  semester ← set_path sets "semester" cast_Number any (User.semester u);
  phone ← set_path sets "phone" (fun v => Some <$> cast_String v) any
               (User.phone u);
  address ← set_path sets "address" (fun v => Some <$> cast_String v) any
               (User.address u);
  profileImage ← set_path sets "profileImage"
               (fun v => Some <$> cast_String v) any (User.profileImage u);
  enrolledCourses ← set_path sets "enrolledCourses" cast_ObjectIds any
               (User.enrolledCourses u);
  isActive ← set_path sets "isActive" cast_Boolean any (User.isActive u);
  createdAt ← set_path sets "createdAt" cast_Number any (User.createdAt u);
  Some (User.mk name email password role studentId department semester
          phone address profileImage enrolledCourses isActive createdAt).

(** [Course.findByIdAndUpdate(id, update, { new: true, runValidators:
    true })] with the [id] of the request: the updated document, or
    [null] when there is none. *)
Definition Course_findByIdAndUpdate (id : string) (update : Obj)
    : Store (option Course.t) :=
  fun fs db =>
    match fs with
    | true :: fs' => (Thrown, db, fs')
    | _ =>
      match courses db !! id with
      | None =>
        if is_ObjectId id then (Returned None, db, tail fs)
        else (Thrown, db, tail fs)
      | Some c =>
        match Course_applyUpdate update c with
        | None => (Thrown, db, tail fs)
        | Some c' =>
          (Returned (Some c'), mkDB (<[id := c']> (courses db)) (users db),
           tail fs)
        end
      end
    end.

(** [User.findByIdAndUpdate(req.user.id, update, { new: true,
    runValidators: true })] *)
Definition User_findByIdAndUpdate (id : string) (update : Obj)
    : Store (option User.t) :=
  fun fs db =>
    match fs with
    | true :: fs' => (Thrown, db, fs')
    | _ =>
      match users db !! id with
      | None => (Returned None, db, tail fs)
      | Some u =>
        match User_applyUpdate update u with
        | None => (Thrown, db, tail fs)
        | Some u' =>
          (Returned (Some u'), mkDB (courses db) (<[id := u']> (users db)),
           tail fs)
        end
      end
    end.

(** The authenticated caller that [protect] stores in [req.user]. *)
Record Caller : Type := mkCaller { caller_id : string; caller_role : string }.

(** [PUT /api/courses/:id], behind [authorize('admin', 'instructor')].
    [course.instructorId.toString()] throws on a course without
    instructor reference. *)
Definition updateCourse_body (caller : Caller) (id : string) (body : Obj)
    : Store (Response Course.t) :=
  let* course := Course_findById id in
  match course with
  | None => ret (failure 404 "Course not found")
  | Some course =>
    let* own :=
      (if String.eqb (caller_role caller) "instructor" then
         match Course.instructorId course with
         | Some i => ret (String.eqb i (caller_id caller))
         | None => throw
         end
       else ret true) in
    if negb own then
      ret (failure 403 "Not authorized to update this course")
    else
      let* course := Course_findByIdAndUpdate id body in
      ret (ok "Course updated successfully" course)
  end.

Definition updateCourse (caller : Caller) (id : string) (body : Obj)
    : list bool -> DB -> Response Course.t * DB :=
  try_catch (updateCourse_body caller id body)
            (failure 500 "Server error updating course").

(** [DELETE /api/courses/:id]: soft delete. *)
Definition deleteCourse_body (now : Z) (id : string)
    : Store (Response unit) :=
  let* course := Course_findById id in
  match course with
  | None => ret (failure 404 "Course not found")
  | Some course =>
    let course := Course.set_isActive false course in
    let* _ := Course_save now id course in
    ret (ok "Course deleted successfully" None)
  end.

Definition deleteCourse (now : Z) (id : string)
    : list bool -> DB -> Response unit * DB :=
  try_catch (deleteCourse_body now id)
            (failure 500 "Server error deleting course").

(** *** [routes/admin.js] *)

(** [User.findById(id)] with the [id] of the request. *)
Definition User_findById (id : string) : Store (option User.t) :=
  fun fs db =>
    if castable (users db) id
    then call (fun db => (users db !! id, db)) fs db
    else throw fs db.

(** [user.save()] *)
Definition User_save (id : string) (u : User.t) : Store unit :=
  call (fun db => (tt, mkDB (courses db) (<[id := u]> (users db)))).

(** [Course.updateMany({ enrolledStudents: id },
                       { $pull: { enrolledStudents: id } })] *)
Definition Course_updateMany_pull (id : string) : Store unit :=
  call (fun db =>
    (tt, mkDB ((fun c =>
                  if bool_decide (id ∈ Course.enrolledStudents c) then
                    Course.set_enrolledStudents
                      (pull id (Course.enrolledStudents c)) c
                  else c) <$> courses db)
              (users db))).

(** [user.deleteOne()] *)
Definition User_deleteOne (id : string) : Store unit :=
  call (fun db => (tt, mkDB (courses db) (delete id (users db)))).

(** [PUT /api/admin/users/:id/status]; [me] is [req.user.id]. *)
Definition toggleStatus_body (me id : string) : Store (Response User.t) :=
  let* user := User_findById id in
  match user with
  | None => ret (failure 404 "User not found")
  | Some user =>
    if String.eqb id me then
      ret (failure 400 "Cannot deactivate your own account")
    else
      let user := User.set_isActive (negb (User.isActive user)) user in
      let* _ := User_save id user in
      ret (ok (String.append "User "
                (String.append
                   (if User.isActive user then "activated" else "deactivated")
                   " successfully"))
              (Some user))
  end.

Definition toggleStatus (me id : string)
    : list bool -> DB -> Response User.t * DB :=
  try_catch (toggleStatus_body me id)
            (failure 500 "Server error updating user status").

(** [PUT /api/admin/users/:id/role] *)
Definition updateRole_body (me id : string) (body : Obj)
    : Store (Response User.t) :=
  let role := prop body "role" in
  if negb (truthy role)
     || negb (includes role [VStr "student"; VStr "admin"; VStr "instructor"])
  then ret (failure 400 "Valid role is required")
  else
    let* user := User_findById id in
    match user with
    | None => ret (failure 404 "User not found")
    | Some user =>
      if String.eqb id me then
        ret (failure 400 "Cannot change your own role")
      else
        match role with
        | VStr r =>
          let user := User.set_role r user in
          let user :=
            if String.eqb (User.role user) "student"
               && negb (strict_eq role (VStr "student"))
            then User.clear_student_fields user
            else user in
          let* _ := User_save id user in
          ret (ok (String.append "User role updated to " r) (Some user))
        | _ => throw
        end
    end.

Definition updateRole (me id : string) (body : Obj)
    : list bool -> DB -> Response User.t * DB :=
  try_catch (updateRole_body me id body)
            (failure 500 "Server error updating user role").

(** [DELETE /api/admin/users/:id] *)
Definition deleteUser_body (me id : string) : Store (Response unit) :=
  let* user := User_findById id in
  match user with
  | None => ret (failure 404 "User not found")
  | Some user =>
    if String.eqb id me then
      ret (failure 400 "Cannot delete your own account")
    else
      let* _ := Course_updateMany_pull id in
      let* _ := User_deleteOne id in
      ret (ok "User deleted successfully" None)
  end.

Definition deleteUser (me id : string)
    : list bool -> DB -> Response unit * DB :=
  try_catch (deleteUser_body me id)
            (failure 500 "Server error deleting user").

(** The body of [GET /api/admin/users]. *)
Record UserList : Type := mkUserList {
  count : nat;
  users_of : list (string * User.t);
  source : option string
}.

Definition newer (a b : string * User.t) : Prop :=
  (User.createdAt b.2 <= User.createdAt a.2)%Z.

#[global] Instance newer_dec a b : Decision (newer a b) :=
  decide (User.createdAt b.2 <= User.createdAt a.2)%Z.

(** [User.find().select('-password').sort({ createdAt: -1 })] *)
Definition User_find_all : Store (list (string * User.t)) :=
  call (fun db =>
    (merge_sort newer
       (prod_map id (User.set_password None) <$> map_to_list (users db)),
     db)).

Definition demo_user (name email role : string) (studentId : option string)
    (department : string) (semester : Z) (now : Z) : User.t :=
  User.mk name email None role studentId department semester None None None
          [] true now.

(** The hard-coded table the handler answers with when the store fails;
    a path that an entry leaves out has the empty value of its type. *)
Definition fallback_users (now : Z) : list (string * User.t) :=
  [ ("1", demo_user "John Student" "student@test.com" "student"
            (Some "S123456") "Computer Science" 2 now);
    ("2", demo_user "Admin User" "admin@test.com" "admin" None "" 0 now);
    ("3", demo_user "Jane Student" "jane@test.com" "student"
            (Some "S123457") "Mathematics" 3 now) ].

Definition listUsers_body : Store (Response UserList) :=
  let* users := User_find_all in
  ret (mkResponse 200 true None
         (Some (mkUserList (length users) users None))).

Definition listUsers (now : Z) : list bool -> DB -> Response UserList * DB :=
  try_catch listUsers_body
    (let users := fallback_users now in
     mkResponse 200 true None
       (Some (mkUserList (length users) users (Some "demo")))).

(** *** [routes/students.js] *)

(** A populated profile: the user document and, for each reference of
    [enrolledCourses] that resolves, the selected course paths. *)
Record CourseRef : Type := mkCourseRef {
  ref_id : string;
  ref_courseCode : string;
  ref_courseName : string;
  ref_instructor : string;
  ref_credits : Z
}.

Record Profile : Type := mkProfile {
  profile_user : User.t;
  profile_courses : list CourseRef
}.

Definition populate (cs : gmap string Course.t) (ids : list string)
    : list CourseRef :=
  omap (fun i => (fun c => mkCourseRef i (Course.courseCode c)
                             (Course.courseName c) (Course.instructor c)
                             (Course.credits c)) <$> cs !! i) ids.

(** [User.findById(id).select('-password').populate('enrolledCourses',
    ...)] *)
Definition User_findProfile (id : string) : Store (option Profile) :=
  call (fun db =>
    ((fun u => mkProfile (User.set_password None u)
                 (populate (courses db) (User.enrolledCourses u)))
       <$> users db !! id, db)).

(** [GET /api/students/profile] *)
Definition getProfile_body (me : string) : Store (Response Profile) :=
  let* user := User_findProfile me in
  match user with
  | None => ret (failure 404 "User not found")
  | Some user => ret (mkResponse 200 true None (Some user))
  end.

Definition getProfile (me : string)
    : list bool -> DB -> Response Profile * DB :=
  try_catch (getProfile_body me) (failure 500 "Server error getting profile").

Section PutProfile.
(** The express-validator chain of the route runs before the handler:
    it sanitises [req.body] and records the validation errors.  It is
    outside the sources and taken as a parameter: the sanitised body
    and whether the error list is empty. *)
Variable validationResult : Obj -> Obj * bool.

(** [PUT /api/students/profile] *)
Definition putProfile_body (me : string) (body : Obj)
    : Store (Response User.t) :=
  let (body, isEmpty) := validationResult body in
  if negb isEmpty then ret (mkResponse 400 false None None)
  else
    let updates := body in
    let updates := delete "email" updates in
    let updates := delete "role" updates in
    let updates := delete "password" updates in
    let updates := delete "studentId" updates in
    let* user := User_findByIdAndUpdate me updates in
    let user := User.set_password None <$> user in
    ret (ok "Profile updated successfully" user).

Definition putProfile (me : string) (body : Obj)
    : list bool -> DB -> Response User.t * DB :=
  try_catch (putProfile_body me body)
            (failure 500 "Server error updating profile").
End PutProfile.

(** *** Requests

    The state-changing requests of the routers and the database a
    sequence of them leaves, each with the fault schedule of its run. *)
Inductive Request : Type :=
  | Enroll (now : Z) (user_id id : string)
  | Unenroll (now : Z) (user_id id : string)
  | UpdateCourse (caller : Caller) (id : string) (body : Obj)
  | DeleteCourse (now : Z) (id : string)
  | ToggleStatus (me id : string)
  | UpdateRole (me id : string) (body : Obj)
  | DeleteUser (me id : string)
  | PutProfile (me : string) (body : Obj).

Definition serve (validationResult : Obj -> Obj * bool) (req : Request)
    (fs : list bool) (db : DB) : DB :=
  match req with
  | Enroll now user_id id => (enroll now user_id id fs db).2
  | Unenroll now user_id id => (unenroll now user_id id fs db).2
  | UpdateCourse caller id body => (updateCourse caller id body fs db).2
  | DeleteCourse now id => (deleteCourse now id fs db).2
  | ToggleStatus me id => (toggleStatus me id fs db).2
  | UpdateRole me id body => (updateRole me id body fs db).2
  | DeleteUser me id => (deleteUser me id fs db).2
  | PutProfile me body => (putProfile validationResult me body fs db).2
  end.

Definition run (validationResult : Obj -> Obj * bool)
    (reqs : list (Request * list bool)) (db : DB) : DB :=
  foldl (fun db rq => serve validationResult rq.1 rq.2 db) db reqs.

Definition is_UpdateCourse (req : Request) : bool :=
  match req with UpdateCourse _ _ _ => true | _ => false end.

(** *** Invariants *)

(** Roster size within capacity, for every course. *)
Definition within_capacity (db : DB) : Prop :=
  forall id c, courses db !! id = Some c ->
    (Course.enrolledCount c <= Course.capacity c)%Z.

(** Bidirectional consistency of rosters and enrolled lists. *)
Definition consistent (db : DB) : Prop :=
  forall s u c co,
    users db !! s = Some u -> courses db !! c = Some co ->
    (s ∈ Course.enrolledStudents co <-> c ∈ User.enrolledCourses u).

(** *** The reading routes of [routes/courses.js] and [routes/admin.js] *)

(** A reference that [populate] resolved: the selected paths of the user. *)
Record StudentRef : Type := mkStudentRef {
  sref_id : string;
  sref_name : string;
  sref_email : string;
  sref_studentId : option string;
  sref_department : option string
}.

Record InstructorRef : Type := mkInstructorRef {
  iref_id : string;
  iref_name : string;
  iref_email : string
}.

(** [populate('enrolledStudents', 'name email studentId')], with the
    department when [department] is selected too: a reference without
    document is dropped. *)
Definition populate_students (department : bool) (us : gmap string User.t)
    (ids : list string) : list StudentRef :=
  omap (fun i => (fun u => mkStudentRef i (User.name u) (User.email u)
                             (User.studentId u)
                             (if department then Some (User.department u)
                              else None)) <$> us !! i) ids.

(** [populate('instructorId', 'name email')] *)
Definition populate_instructor (us : gmap string User.t) (c : Course.t)
    : option InstructorRef :=
  i ← Course.instructorId c;
  (fun u => mkInstructorRef i (User.name u) (User.email u)) <$> us !! i.

(** A course in an answer: a document of the collection with its populated
    references, or an entry of a hard-coded table (with the counts the
    table states). *)
Inductive CourseEntry : Type :=
  | Document (id : string) (c : Course.t) (students : list StudentRef)
             (instructor : option InstructorRef)
  | Fixed (id courseCode courseName instructor department : string)
          (semester credits enrolledCount availableSeats : Z).

Definition entry_id (e : CourseEntry) : string :=
  match e with
  | Document id _ _ _ => id
  | Fixed id _ _ _ _ _ _ _ _ => id
  end.

Record CourseList : Type := mkCourseList {
  list_count : nat;
  list_courses : list CourseEntry;
  list_source : option string
}.

(** [sort({ semester: 1, courseCode: 1 })] *)
Definition course_order (a b : string * Course.t) : Prop :=
  (Course.semester a.2 < Course.semester b.2)%Z \/
  (Course.semester a.2 = Course.semester b.2 /\
   String.leb (Course.courseCode a.2) (Course.courseCode b.2) = true).

#[global] Instance course_order_dec a b : Decision (course_order a b) :=
  or_dec
    (decide (Course.semester a.2 < Course.semester b.2)%Z)
    (and_dec
       (decide (Course.semester a.2 = Course.semester b.2))
       (decide (String.leb (Course.courseCode a.2) (Course.courseCode b.2)
                = true))).

(** [Course.find({ isActive: true }).populate('enrolledStudents', ...)
    .sort(...)] *)
Definition Course_find_active : Store (list CourseEntry) :=
  call (fun db =>
    ((fun ic : string * Course.t =>
        Document ic.1 ic.2
          (populate_students false (users db) (Course.enrolledStudents ic.2)) None)
       <$> merge_sort course_order
             (filter (fun ic : string * Course.t => Course.isActive ic.2 = true)
                     (map_to_list (courses db))),
     db)).

(** [Course.find().populate('enrolledStudents', ...)
    .populate('instructorId', ...).sort(...)] *)
Definition Course_find_all : Store (list CourseEntry) :=
  call (fun db =>
    ((fun ic : string * Course.t =>
        Document ic.1 ic.2
          (populate_students false (users db) (Course.enrolledStudents ic.2))
          (populate_instructor (users db) ic.2))
       <$> merge_sort course_order (map_to_list (courses db)),
     db)).

(** The table [GET /api/courses] answers with when the store fails. *)
Definition fallback_courses : list CourseEntry :=
  [ Fixed "1" "CS101" "Introduction to Computer Science" "Dr. Smith"
      "Computer Science" 1 3 25 5;
    Fixed "2" "MATH201" "Calculus I" "Dr. Johnson" "Mathematics" 1 4 30 0;
    Fixed "3" "ENG102" "English Composition" "Prof. Davis" "English"
      1 3 20 10 ].

(** [GET /api/courses] *)
Definition listCourses_body : Store (Response CourseList) :=
  let* courses := Course_find_active in
  ret (mkResponse 200 true None
         (Some (mkCourseList (length courses) courses None))).

Definition listCourses : list bool -> DB -> Response CourseList * DB :=
  try_catch listCourses_body
    (mkResponse 200 true None
       (Some (mkCourseList (length fallback_courses) fallback_courses
                (Some "demo")))).

(** [GET /api/admin/courses] *)
Definition adminCourses_body : Store (Response CourseList) :=
  let* courses := Course_find_all in
  ret (mkResponse 200 true None
         (Some (mkCourseList (length courses) courses None))).

Definition adminCourses : list bool -> DB -> Response CourseList * DB :=
  try_catch adminCourses_body (failure 500 "Server error getting courses").

(** [Course.findById(id).populate('enrolledStudents', 'name email studentId
    department').populate('instructorId', 'name email')] *)
Definition Course_findById_populated (id : string)
    : Store (option CourseEntry) :=
  fun fs db =>
    if castable (courses db) id
    then call (fun db =>
           ((fun c => Document id c
                        (populate_students true (users db)
                           (Course.enrolledStudents c))
                        (populate_instructor (users db) c))
              <$> courses db !! id, db)) fs db
    else throw fs db.

(** [GET /api/courses/:id] *)
Definition getCourse_body (id : string) : Store (Response CourseEntry) :=
  let* course := Course_findById_populated id in
  match course with
  | None => ret (failure 404 "Course not found")
  | Some course => ret (mkResponse 200 true None (Some course))
  end.

Definition getCourse (id : string)
    : list bool -> DB -> Response CourseEntry * DB :=
  try_catch (getCourse_body id) (failure 500 "Server error").

(** The numbers of [GET /api/admin/statistics]. *)
Record Statistics : Type := mkStatistics {
  totalUsers : nat;
  totalStudents : nat;
  totalAdmins : nat;
  totalCourses : nat;
  activeCourses : nat;
  recentRegistrations : nat
}.

(** [User.countDocuments(filter)] *)
Definition User_countDocuments (P : User.t -> bool) : Store nat :=
  call (fun db => (size (filter (fun iu => P iu.2 = true) (users db)), db)).

(** [Course.countDocuments(filter)] *)
Definition Course_countDocuments (P : Course.t -> bool) : Store nat :=
  call (fun db => (size (filter (fun ic => P ic.2 = true) (courses db)), db)).

(** [GET /api/admin/statistics]; [sevenDaysAgo] is the date the handler
    computes from the clock. *)
Definition statistics_body (sevenDaysAgo : Z)
    : Store (Response (Statistics * option string)) :=
  let* totalUsers := User_countDocuments (fun _ => true) in
  let* totalStudents :=
    User_countDocuments (fun u => String.eqb (User.role u) "student") in
  let* totalAdmins :=
    User_countDocuments (fun u => String.eqb (User.role u) "admin") in
  let* totalCourses := Course_countDocuments (fun _ => true) in
  let* activeCourses := Course_countDocuments Course.isActive in
  let* recentRegistrations :=
    User_countDocuments (fun u => (sevenDaysAgo <=? User.createdAt u)%Z) in
  ret (mkResponse 200 true None
         (Some (mkStatistics totalUsers totalStudents totalAdmins
                  totalCourses activeCourses recentRegistrations, None))).

Definition statistics (sevenDaysAgo : Z)
    : list bool -> DB -> Response (Statistics * option string) * DB :=
  try_catch (statistics_body sevenDaysAgo)
    (mkResponse 200 true None
       (Some (mkStatistics 150 145 5 25 20 12, Some "demo"))).

(** *** The course list of [routes/students.js] *)

(** The paths [GET /api/students/courses] selects (schedule and
    description apart). *)
Record CourseInfo : Type := mkCourseInfo {
  info_id : string;
  info_courseCode : string;
  info_courseName : string;
  info_instructor : string;
  info_department : string;
  info_semester : Z;
  info_credits : Z
}.

(** [populate({ path: 'enrolledCourses', select: ..., match: { isActive:
    true } })]: a reference without document, or whose document does not
    match, is dropped. *)
Definition populate_active (cs : gmap string Course.t) (ids : list string)
    : list CourseInfo :=
  omap (fun i =>
          c ← cs !! i;
          if Course.isActive c then
            Some (mkCourseInfo i (Course.courseCode c) (Course.courseName c)
                    (Course.instructor c) (Course.department c)
                    (Course.semester c) (Course.credits c))
          else None) ids.

Definition User_findById_courses (id : string)
    : Store (option (list CourseInfo)) :=
  call (fun db =>
    ((fun u => populate_active (courses db) (User.enrolledCourses u))
       <$> users db !! id, db)).

Definition fallback_student_courses : list CourseInfo :=
  [ mkCourseInfo "1" "CS101" "Introduction to Computer Science" "Dr. Smith"
      "Computer Science" 1 3;
    mkCourseInfo "2" "MATH201" "Calculus I" "Dr. Johnson" "Mathematics" 1 4 ].

(** [GET /api/students/courses]: count, courses and source. *)
Definition studentCourses_body (me : string)
    : Store (Response (nat * list CourseInfo * option string)) :=
  let* user := User_findById_courses me in
  match user with
  | None => ret (failure 404 "User not found")
  | Some courses =>
    ret (mkResponse 200 true None (Some (length courses, courses, None)))
  end.

Definition studentCourses (me : string)
    : list bool -> DB
      -> Response (nat * list CourseInfo * option string) * DB :=
  try_catch (studentCourses_body me)
    (mkResponse 200 true None
       (Some (length fallback_student_courses, fallback_student_courses,
              Some "demo"))).

(** The body of a dashboard answer.  A due date is a time stamp in an
    answer made from the database and a string in the built-in one. *)
Record DueItem : Type := mkDueItem {
  due_title : string;
  due_course : string;
  due_date : Z + string;
  due_type : string
}.

Record DashboardUser : Type := mkDashboardUser {
  du_name : string;
  du_email : string;
  du_department : string;
  du_semester : Z;
  du_studentId : option string
}.

Record DashboardData : Type := mkDashboardData {
  dash_enrolledCourses : nat;
  dash_upcomingClasses : nat;
  dash_pendingAssignments : nat;
  dash_averageGrade : string;
  dash_recentCourses : list (string * string * string);
  dash_upcomingDeadlines : list DueItem;
  dash_user : DashboardUser;
  dash_source : option string
}.

(** [GET /api/students/dashboard]; [today] is the time of [new Date()].
    The handler reads the length of the populated [enrolledCourses] and
    the name, code and instructor of its first three entries. *)
Definition dashboard_body (me : string) (today : Z)
    : Store (Response DashboardData) :=
  let* user := User_findProfile me in
  match user with
  | None => ret (failure 404 "User not found")
  | Some user =>
    let enrolledCourses := length (profile_courses user) in
    let upcomingClasses := enrolledCourses * 2 in
    let recentCourses :=
      (fun course => (ref_courseName course, ref_courseCode course,
                      ref_instructor course))
        <$> take 3 (profile_courses user) in
    let upcomingDeadlines :=
      [ mkDueItem "CS101 Assignment 1" "CS101"
          (inl (today + 2 * 24 * 60 * 60 * 1000)%Z) "assignment";
        mkDueItem "MATH201 Quiz 2" "MATH201"
          (inl (today + 4 * 24 * 60 * 60 * 1000)%Z) "quiz" ] in
    let u := profile_user user in
    ret (mkResponse 200 true None
           (Some (mkDashboardData enrolledCourses upcomingClasses 3 "A-"
                    recentCourses upcomingDeadlines
                    (mkDashboardUser (User.name u) (User.email u)
                       (User.department u) (User.semester u)
                       (User.studentId u))
                    None)))
  end.

(** [req.user?.name || fallback] *)
Definition or_default (v : option string) (fallback : string) : string :=
  match v with
  | Some s => if String.eqb s "" then fallback else s
  | None => fallback
  end.

(** The answer of the [catch] branch; [name] and [email] are
    [req.user?.name] and [req.user?.email]. *)
Definition fallback_dashboard (name email : option string) : DashboardData :=
  mkDashboardData 4 3 2 "A-"
    [ ("Computer Science 101", "CS101", "Dr. Smith");
      ("Mathematics 201", "MATH201", "Dr. Johnson") ]
    [ mkDueItem "CS101 Assignment 1" "CS101" (inr "2024-12-10") "assignment";
      mkDueItem "MATH201 Quiz 2" "MATH201" (inr "2024-12-12") "quiz" ]
    (mkDashboardUser (or_default name "John Student")
       (or_default email "student@test.com") "Computer Science" 2
       (Some "S123456"))
    (Some "demo").

Definition dashboard (me : string) (name email : option string) (today : Z)
    : list bool -> DB -> Response DashboardData * DB :=
  try_catch (dashboard_body me today)
    (mkResponse 200 true None (Some (fallback_dashboard name email))).

(** *** Answers of the state-changing requests *)

(** Status and success flag of the answer to a request. *)
Definition answer (validationResult : Obj -> Obj * bool) (req : Request)
    (fs : list bool) (db : DB) : nat * bool :=
  match req with
  | Enroll now user_id id =>
      let r := (enroll now user_id id fs db).1 in (status r, success r)
  | Unenroll now user_id id =>
      let r := (unenroll now user_id id fs db).1 in (status r, success r)
  | UpdateCourse caller id body =>
      let r := (updateCourse caller id body fs db).1 in (status r, success r)
  | DeleteCourse now id =>
      let r := (deleteCourse now id fs db).1 in (status r, success r)
  | ToggleStatus me id =>
      let r := (toggleStatus me id fs db).1 in (status r, success r)
  | UpdateRole me id body =>
      let r := (updateRole me id body fs db).1 in (status r, success r)
  | DeleteUser me id =>
      let r := (deleteUser me id fs db).1 in (status r, success r)
  | PutProfile me body =>
      let r := (putProfile validationResult me body fs db).1 in
      (status r, success r)
  end.

(** The bounds of [CourseSchema]: semester 1 to 8, credits 1 to 5,
    capacity at least 1. *)
Definition in_bounds (c : Course.t) : Prop :=
  (1 <= Course.semester c <= 8)%Z /\ (1 <= Course.credits c <= 5)%Z /\
  (1 <= Course.capacity c)%Z.

Definition all_in_bounds (db : DB) : Prop :=
  forall id c, courses db !! id = Some c -> in_bounds c.

End Db.


(** * The in-memory server *)

(** [String(v)], as in a template literal or a property key.  A number is
    printed as the decimal digits of an integer: this is [String(n)] for
    the integers that a double holds exactly (those up to 2^53 in absolute
    value); larger numbers and fractions are outside this model. *)
Fixpoint to_string (v : Value) : string :=
  match v with
  | VUndefined => "undefined"
  | VNull => "null"
  | VBool b => if b then "true" else "false"
  | VNum n => pretty n
  | VStr s => s
  | VArr l =>
      (fix join (l : list Value) : string :=
         match l with
         | [] => ""
         | x :: r =>
             let e := match x with
                      | VUndefined | VNull => ""
                      | _ => to_string x
                      end in
             match r with
             | [] => e
             | _ => String.append e (String.append "," (join r))
             end
         end) l
  | VObj _ => "[object Object]"
  end.

Module Demo.

Module Course.
(** An entry of [demoCourses] (without schedule and description, which
    no handler reads).  The entries have neither a capacity nor an
    active flag. *)
Record t : Type := mk {
  id : string;
  courseCode : string;
  courseName : string;
  instructor : string;
  department : string;
  semester : Z;
  credits : Z;
  enrolledStudents : list Value
}.

Definition set_enrolledStudents (l : list Value) (c : t) : t :=
  mk (id c) (courseCode c) (courseName c) (instructor c) (department c)
     (semester c) (credits c) l.
End Course.

(** [demoUsers] is an object keyed by e-mail address whose values are
    user objects; [demoCourses] is an array.  Objects are maps of their
    own properties: what a JavaScript object inherits from its prototype
    is not part of them. *)
Record State : Type := mkState {
  demoUsers : gmap string Obj;
  demoCourses : list Course.t
}.

Definition initialUsers : gmap string Obj :=
  {[ "student@test.com" :=
       list_to_map
         [ ("id", VStr "1"); ("name", VStr "John Student");
           ("email", VStr "student@test.com");
           ("password", VStr "password123"); ("role", VStr "student");
           ("studentId", VStr "S123456");
           ("department", VStr "Computer Science"); ("semester", VNum 2);
           ("profileImage", VStr "https://via.placeholder.com/150");
           ("enrolledCourses", VArr [VStr "1"; VStr "2"]) ];
     "admin@test.com" :=
       list_to_map
         [ ("id", VStr "2"); ("name", VStr "Admin User");
           ("email", VStr "admin@test.com");
           ("password", VStr "password123"); ("role", VStr "admin");
           ("profileImage", VStr "https://via.placeholder.com/150") ] ]}.

Definition initialCourses : list Course.t :=
  [ Course.mk "1" "CS101" "Introduction to Computer Science" "Dr. Smith"
      "Computer Science" 1 3 [VStr "1"];
    Course.mk "2" "MATH201" "Calculus I" "Dr. Johnson" "Mathematics" 1 4
      [VStr "1"];
    Course.mk "3" "ENG102" "English Composition" "Prof. Davis" "English"
      1 3 [];
    Course.mk "4" "PHY101" "Physics I" "Dr. Wilson" "Physics" 2 4 [];
    Course.mk "5" "CS201" "Data Structures" "Dr. Brown" "Computer Science"
      2 3 [] ].

Definition initial : State := mkState initialUsers initialCourses.

(** [generateSimpleToken]; [now] is [Date.now()]. *)
Definition generateSimpleToken (user : Obj) (now : Z) : string :=
  String.append "demo-token-"
    (String.append (to_string (prop user "id"))
       (String.append "-" (pretty now))).

(** [validateSimpleToken]: the e-mail key of the user the token stands
    for, and that user object. *)
Definition validateSimpleToken (users : gmap string Obj) (token : string)
    : option (string * Obj) :=
  if negb (String.prefix "demo-token-" token) then None
  else
    let parts := split "-" token in
    if (length parts <? 3)%nat then None
    else
      let userId := nth 2 parts "" in
      let email :=
        if String.eqb userId "1" then "student@test.com"
        else "admin@test.com" in
      (fun u => (email, u)) <$> users !! email.

(** [req.headers.authorization?.split(' ')[1]], with [!token] folded in:
    a missing header, a missing second word and an empty one all count
    as no token. *)
Definition bearer (authorization : option string) : option string :=
  h ← authorization;
  t ← split " " h !! 1%nat;
  if String.eqb t "" then None else Some t.

(** The caller of a request, or the message of the 401 rejection. *)
Definition authenticate (st : State) (authorization : option string)
    : string + string * Obj :=
  match bearer authorization with
  | None => inl "No token provided"
  | Some token =>
    match validateSimpleToken (demoUsers st) token with
    | None => inl "Invalid token"
    | Some user => inr user
    end
  end.

(** Writes to the first entry [demoCourses.find] returns. *)
Fixpoint update_first (p : Course.t -> bool) (f : Course.t -> Course.t)
    (l : list Course.t) : list Course.t :=
  match l with
  | [] => []
  | c :: r => if p c then f c :: r else c :: update_first p f r
  end.

Definition has_id (i : string) (c : Course.t) : bool :=
  String.eqb (Course.id c) i.

(** The answer of Express to an exception thrown by a handler. *)
Definition uncaught {P} : Response P := mkResponse 500 false None None.

(** [POST /api/courses/:id/enroll] *)
Definition enroll (authorization : option string) (id : string)
    (st : State) : Response Course.t * State :=
  match authenticate st authorization with
  | inl msg => (failure 401 msg, st)
  | inr (email, user) =>
    if negb (strict_eq (prop user "role") (VStr "student")) then
      (failure 403 "Only students can enroll in courses", st)
    else
      match find (has_id id) (demoCourses st) with
      | None => (failure 404 "Course not found", st)
      | Some course =>
        if includes (prop user "id") (Course.enrolledStudents course) then
          (failure 400 "Already enrolled in this course", st)
        else
          let push_student c :=
            Course.set_enrolledStudents
              (Course.enrolledStudents c ++ [prop user "id"]) c in
          let courses := update_first (has_id id) push_student
                           (demoCourses st) in
          let user :=
            if negb (truthy (prop user "enrolledCourses"))
            then <["enrolledCourses" := VArr []]> user else user in
          match prop user "enrolledCourses" with
          | VArr l =>
            let user :=
              <["enrolledCourses" := VArr (l ++ [VStr (Course.id course)])]>
                user in
            (ok "Successfully enrolled in course"
                (Some (push_student course)),
             mkState (<[email := user]> (demoUsers st)) courses)
          | _ =>
            (uncaught, mkState (<[email := user]> (demoUsers st)) courses)
          end
      end
  end.

(** [POST /api/courses/:id/unenroll] *)
Definition unenroll (authorization : option string) (id : string)
    (st : State) : Response unit * State :=
  match authenticate st authorization with
  | inl msg => (failure 401 msg, st)
  | inr (email, user) =>
    match find (has_id id) (demoCourses st) with
    | None => (failure 404 "Course not found", st)
    | Some course =>
      if negb (includes (prop user "id") (Course.enrolledStudents course))
      then (failure 400 "Not enrolled in this course", st)
      else
        let remove_student c :=
          Course.set_enrolledStudents
            (List.filter (fun i => negb (strict_eq i (prop user "id")))
                         (Course.enrolledStudents c)) c in
        let courses := update_first (has_id id) remove_student
                         (demoCourses st) in
        match prop user "enrolledCourses" with
        | VArr l =>
          let user :=
            <["enrolledCourses" :=
                VArr (List.filter
                        (fun i => negb (strict_eq i (VStr (Course.id course))))
                        l)]> user in
          (ok "Successfully unenrolled from course" None,
           mkState (<[email := user]> (demoUsers st)) courses)
        | _ => (uncaught, mkState (demoUsers st) courses)
        end
    end
  end.

(** [const userResponse = { ...user }; delete userResponse.password;] *)
Definition userResponse (user : Obj) : Obj := delete "password" user.

(** The body of a login or registration answer. *)
Record Session : Type := mkSession { token : string; session_user : Obj }.

(** [POST /api/auth/login] *)
Definition login (body : Obj) (now : Z) (st : State)
    : Response Session * State :=
  let email := prop body "email" in
  let password := prop body "password" in
  if negb (truthy email) || negb (truthy password) then
    (failure 400 "Please provide email and password", st)
  else
    match demoUsers st !! to_string email with
    | None => (failure 401 "Invalid credentials", st)
    | Some user =>
      if negb (strict_eq (prop user "password") password) then
        (failure 401 "Invalid credentials", st)
      else
        let token := generateSimpleToken user now in
        (ok "Login successful" (Some (mkSession token (userResponse user))),
         st)
    end.

(** [POST /api/auth/register]; the [Date] of [createdAt] is kept as its
    time stamp. *)
Definition register (body : Obj) (now : Z) (st : State)
    : Response Session * State :=
  let name := prop body "name" in
  let email := prop body "email" in
  let password := prop body "password" in
  let role := match prop body "role" with
              | VUndefined => VStr "student"
              | r => r
              end in
  let studentId := prop body "studentId" in
  if negb (truthy name) || negb (truthy email) || negb (truthy password) then
    (failure 400 "Please provide name, email, and password", st)
  else
    match demoUsers st !! to_string email with
    | Some _ => (failure 400 "User already exists with this email", st)
    | None =>
      let newUserId := (Z.of_nat (size (demoUsers st)) + 1)%Z in
      let newUser : Obj :=
        list_to_map
          [ ("id", VStr (pretty newUserId)); ("name", name);
            ("email", email); ("password", password); ("role", role);
            ("studentId",
             if strict_eq role (VStr "student") then studentId
             else VUndefined);
            ("department", VStr "General"); ("semester", VNum 1);
            ("profileImage", VStr "https://via.placeholder.com/150");
            ("enrolledCourses", VArr []); ("createdAt", VNum now) ] in
      let token := generateSimpleToken newUser now in
      (mkResponse 201 true (Some "Registration successful")
         (Some (mkSession token (userResponse newUser))),
       mkState (<[to_string email := newUser]> (demoUsers st))
               (demoCourses st))
    end.

(** [GET /api/auth/me] *)
Definition me (authorization : option string) (st : State)
    : Response Obj * State :=
  match authenticate st authorization with
  | inl msg => (failure 401 msg, st)
  | inr (_, user) =>
    (mkResponse 200 true None (Some (userResponse user)), st)
  end.

(** [GET /api/students/profile] *)
Definition getProfile (authorization : option string) (st : State)
    : Response Obj * State :=
  match authenticate st authorization with
  | inl msg => (failure 401 msg, st)
  | inr (_, user) =>
    if negb (strict_eq (prop user "role") (VStr "student")) then
      (failure 403 "Only students can access this endpoint", st)
    else (mkResponse 200 true None (Some (userResponse user)), st)
  end.

(** One round of the [forEach] of the profile update. *)
Definition assign (key : string) (v : Value) (user : Obj) : Obj :=
  if negb (String.eqb key "email") && negb (String.eqb key "password")
     && negb (String.eqb key "role")
  then <[key := v]> user else user.

(** [PUT /api/students/profile] *)
Definition putProfile (authorization : option string) (body : Obj)
    (st : State) : Response Obj * State :=
  match authenticate st authorization with
  | inl msg => (failure 401 msg, st)
  | inr (email, user) =>
    let updates := body in
    let user := map_fold assign user updates in
    (ok "Profile updated successfully" (Some (userResponse user)),
     mkState (<[email := user]> (demoUsers st)) (demoCourses st))
  end.

(** The body of [GET /api/admin/users]. *)
Record UserList : Type := mkUserList { count : nat; users_of : list Obj }.

(** [GET /api/admin/users].  The users are listed in the order of the keys
    of the map; the order of insertion, in which [Object.values] lists
    them, is not modelled. *)
Definition listUsers (authorization : option string) (st : State)
    : Response UserList * State :=
  match bearer authorization with
  | None => (failure 401 "No token provided", st)
  | Some token =>
    match validateSimpleToken (demoUsers st) token with
    | None => (failure 403 "Access denied. Admin only.", st)
    | Some (_, user) =>
      if negb (strict_eq (prop user "role") (VStr "admin")) then
        (failure 403 "Access denied. Admin only.", st)
      else
        let users :=
          (fun u => delete "password" u) <$> (map_to_list (demoUsers st)).*2 in
        (mkResponse 200 true None (Some (mkUserList (length users) users)),
         st)
    end
  end.

(** *** Invariants *)

(** [user.enrolledCourses] read as an array. *)
Definition enrolled (user : Obj) : list Value :=
  match prop user "enrolledCourses" with VArr l => l | _ => [] end.

(** Bidirectional consistency of rosters and enrolled lists. *)
Definition consistent (st : State) : Prop :=
  forall email user c,
    demoUsers st !! email = Some user -> c ∈ demoCourses st ->
    (includes (prop user "id") (Course.enrolledStudents c) = true <->
     includes (VStr (Course.id c)) (enrolled user) = true).

(** The same as a test that runs on the tables. *)
Definition consistent_check (st : State) : bool :=
  forallb (fun eu : string * Obj =>
    forallb (fun c =>
      Bool.eqb (includes (prop eu.2 "id") (Course.enrolledStudents c))
               (includes (VStr (Course.id c)) (enrolled eu.2)))
      (demoCourses st)) (map_to_list (demoUsers st)).

(** The shape of the tables the server starts from and registration
    keeps: course ids are unique, a user has a string id of its own and
    its [enrolledCourses] is an array when present. *)
Definition well_formed_user (user : Obj) : Prop :=
  (exists i, user !! "id" = Some (VStr i)) /\
  (user !! "enrolledCourses" = None \/
   exists l, user !! "enrolledCourses" = Some (VArr l)).

Definition well_formed (st : State) : Prop :=
  NoDup (Course.id <$> demoCourses st) /\
  (forall email user,
     demoUsers st !! email = Some user -> well_formed_user user) /\
  (forall e1 e2 u1 u2,
     demoUsers st !! e1 = Some u1 -> demoUsers st !! e2 = Some u2 ->
     e1 <> e2 -> prop u1 "id" <> prop u2 "id").

(** *** The reading routes *)

(** [GET /api/courses]: count and courses. *)
Definition listCourses (st : State) : Response (nat * list Course.t) * State :=
  (mkResponse 200 true None (Some (length (demoCourses st), demoCourses st)),
   st).

(** [GET /api/courses/:id] *)
Definition getCourse (id : string) (st : State) : Response Course.t * State :=
  match find (has_id id) (demoCourses st) with
  | None => (failure 404 "Course not found", st)
  | Some course => (mkResponse 200 true None (Some course), st)
  end.

(** The numbers of [GET /api/admin/statistics]. *)
Record Statistics : Type := mkStatistics {
  totalUsers : nat;
  totalStudents : nat;
  totalAdmins : nat;
  totalCourses : nat;
  activeCourses : nat;
  recentRegistrations : nat
}.

Definition is_student (user : Obj) : bool :=
  strict_eq (prop user "role") (VStr "student").

(** [GET /api/admin/statistics] *)
Definition statistics (authorization : option string) (st : State)
    : Response Statistics * State :=
  match bearer authorization with
  | None => (failure 401 "No token provided", st)
  | Some token =>
    match validateSimpleToken (demoUsers st) token with
    | None => (failure 403 "Access denied. Admin only.", st)
    | Some (_, user) =>
      if negb (strict_eq (prop user "role") (VStr "admin")) then
        (failure 403 "Access denied. Admin only.", st)
      else
        let totalUsers := size (demoUsers st) in
        let totalStudents :=
          length (List.filter is_student (map_to_list (demoUsers st)).*2) in
        let totalCourses := length (demoCourses st) in
        (mkResponse 200 true None
           (Some (mkStatistics totalUsers totalStudents
                    (totalUsers - totalStudents) totalCourses
                    (length (demoCourses st)) 0)),
         st)
    end
  end.

(** [user.enrolledCourses && user.enrolledCourses.includes(course.id)] as
    the test of a [filter]: [None] when it throws (a truthy value that is
    neither an array nor a string has no [includes]). *)
Definition on_list (user : Obj) (course : Course.t) : option bool :=
  match prop user "enrolledCourses" with
  | VArr l => Some (includes (VStr (Course.id course)) l)
  | VStr s =>
      if String.eqb s "" then Some false
      else Some (bool_decide (is_Some (String.index 0 (Course.id course) s)))
  | v => if truthy v then None else Some false
  end.

(** [demoCourses.filter(course => ...)] with a test that may throw. *)
Fixpoint filter_courses (user : Obj) (courses : list Course.t)
    : option (list Course.t) :=
  match courses with
  | [] => Some []
  | c :: r =>
    match on_list user c, filter_courses user r with
    | Some true, Some r' => Some (c :: r')
    | Some false, Some r' => Some r'
    | _, _ => None
    end
  end.

Record Deadline : Type := mkDeadline {
  deadline_title : string;
  deadline_course : string;
  dueDate : Z;
  deadline_type : string
}.

(** The body of a dashboard answer; the due dates are kept as time
    stamps. *)
Record Dashboard : Type := mkDashboard {
  enrolledCourses : nat;
  upcomingClasses : nat;
  pendingAssignments : nat;
  averageGrade : string;
  recentCourses : list (string * string * string);
  upcomingDeadlines : list Deadline;
  dashboard_user : Obj
}.

(** [a || b] *)
Definition or_else (a b : Value) : Value := if truthy a then a else b.

(** [GET /api/students/dashboard]; [now] is [Date.now()].  Without a valid
    token the handler takes the built-in student; reading a property of a
    user that is not there throws. *)
Definition dashboard (authorization : option string) (now : Z) (st : State)
    : Response Dashboard * State :=
  let user :=
    match bearer authorization with
    | Some token => snd <$> validateSimpleToken (demoUsers st) token
    | None => None
    end in
  let user :=
    match user with
    | Some user => Some user
    | None => demoUsers st !! "student@test.com"
    end in
  match user with
  | None => (uncaught, st)
  | Some user =>
    match filter_courses user (demoCourses st) with
    | None => (uncaught, st)
    | Some userCourses =>
      (mkResponse 200 true None
         (Some (mkDashboard
            (length userCourses) (length userCourses * 2) 3 "A-"
            ((fun c => (Course.courseName c, Course.courseCode c,
                        Course.instructor c)) <$> take 3 userCourses)
            [ mkDeadline "CS101 Assignment 1" "CS101"
                (now + 2 * 24 * 60 * 60 * 1000) "assignment";
              mkDeadline "MATH201 Quiz 2" "MATH201"
                (now + 4 * 24 * 60 * 60 * 1000) "quiz" ]
            (list_to_map
               [ ("name", prop user "name"); ("email", prop user "email");
                 ("role", prop user "role");
                 ("studentId", prop user "studentId");
                 ("department",
                  or_else (prop user "department") (VStr "Computer Science"));
                 ("semester", or_else (prop user "semester") (VNum 2));
                 ("profileImage", prop user "profileImage") ]))),
       st)
    end
  end.

End Demo.

(** * The outcomes the specification gives a request *)



(** The same on the in-memory server, whose courses have neither an active
    flag nor a capacity. *)
Definition demo_enroll_outcome_spec (st : Demo.State) (student : Value)
    (course : string) : option ErrorKind :=
  match find (Demo.has_id course) (Demo.demoCourses st) with
  | None => Some NotFound
  | Some c =>
    if includes student (Demo.Course.enrolledStudents c) then Some Conflict
    else None
  end.

(** * The documents a request writes

    The course and the user as Enroll and Unenroll write them, and the
    conditions under which they do. *)

Definition enrolled_course (now : Z) (student : string) (c : Course.t)
    : Course.t :=
  Course.pre_save now
    (Course.set_enrolledStudents (Course.enrolledStudents c ++ [student]) c).

Definition enrolled_user (course : string) (u : User.t) : User.t :=
  User.set_enrolledCourses (Db.addToSet course (User.enrolledCourses u)) u.

Definition unenrolled_course (now : Z) (student : string) (c : Course.t)
    : Course.t :=
  Course.pre_save now
    (Course.set_enrolledStudents
       (filter (fun i => i ≠ student) (Course.enrolledStudents c)) c).

Definition unenrolled_user (course : string) (u : User.t) : User.t :=
  User.set_enrolledCourses (Db.pull course (User.enrolledCourses u)) u.

(** Enroll is accepted: the course is there, active, without the student
    and with a free seat. *)
Definition can_enroll (db : Db.DB) (student course : string) (c : Course.t)
    : Prop :=
  Db.courses db !! course = Some c /\ Course.isActive c = true /\
  (student ∉ Course.enrolledStudents c) /\
  (Course.enrolledCount c < Course.capacity c)%Z.

Definition can_unenroll (db : Db.DB) (student course : string) (c : Course.t)
    : Prop :=
  Db.courses db !! course = Some c /\ (student ∈ Course.enrolledStudents c).




(** The student's object once the course has been pushed on its list. *)
Definition demo_enrolled_user (course : string) (user : Obj) : Obj :=
  <["enrolledCourses" := VArr (Demo.enrolled user ++ [VStr course])]> user.

Definition demo_enrolled_course (user : Obj) (c : Demo.Course.t)
    : Demo.Course.t :=
  Demo.Course.set_enrolledStudents
    (Demo.Course.enrolledStudents c ++ [prop user "id"]) c.

Definition demo_unenrolled_user (course : string) (user : Obj) : Obj :=
  <["enrolledCourses" :=
      VArr (List.filter (fun i => negb (strict_eq i (VStr course)))
              (Demo.enrolled user))]> user.

Definition demo_unenrolled_course (user : Obj) (c : Demo.Course.t)
    : Demo.Course.t :=
  Demo.Course.set_enrolledStudents
    (List.filter (fun i => negb (strict_eq i (prop user "id")))
       (Demo.Course.enrolledStudents c)) c.

(** * Example data *)

Definition sample_user (name role : string) (courses : list string)
    : User.t :=
  User.mk name (String.append name "@test.com") (Some "hash") role
    (Some "S123456") "Computer Science" 2 None None None courses true 0.

Definition sample_course (capacity : Z) (roster : list string) : Course.t :=
  Course.mk "CS101" "Introduction to Computer Science" "Dr. Smith" None
    "Computer Science" 1 3 capacity roster true 0.

(** One empty course and two students. *)
Definition fresh_db : Db.DB :=
  Db.mkDB {[ "c1" := sample_course 30 [] ]}
          {[ "alice" := sample_user "alice" "student" [];
             "bob" := sample_user "bob" "student" [] ]}.

(** A course of capacity 1 that Alice fills. *)
Definition full_db : Db.DB :=
  Db.mkDB {[ "c1" := sample_course 1 ["alice"] ]}
          {[ "alice" := sample_user "alice" "student" ["c1"];
             "bob" := sample_user "bob" "student" [] ]}.

(** A course of capacity 2 with both students on the roster. *)
Definition pair_db : Db.DB :=
  Db.mkDB {[ "c1" := sample_course 2 ["alice"; "bob"] ]}
          {[ "alice" := sample_user "alice" "student" ["c1"];
             "bob" := sample_user "bob" "student" ["c1"] ]}.

Definition root : Db.Caller := Db.mkCaller "root" "admin".

(** A validator chain that finds nothing to object to or to sanitise. *)
Definition accept : Obj -> Obj * bool := fun body => (body, true).

(** [{ "capacity": 1 }] *)
Definition shrink_body : Obj := {[ "capacity" := VNum 1 ]}.

(** [{ "$set": { "role": "admin" } }] *)
Definition promote_body : Obj := {[ "$set" := VObj [("role", VStr "admin")] ]}.

(** [Authorization: Bearer demo-token-1-0] *)
Definition student_header : option string := Some "Bearer demo-token-1-0".
Definition admin_header : option string := Some "Bearer demo-token-2-0".

(** An administrator and a student. *)
Definition staff_db : Db.DB :=
  Db.mkDB {[ "c1" := sample_course 30 ["alice"] ]}
          {[ "root" := sample_user "root" "admin" [];
             "alice" := sample_user "alice" "student" ["c1"] ]}.

(** [{ "role": "instructor" }] *)
Definition instructor_body : Obj := {[ "role" := VStr "instructor" ]}.

(** [{ "email": "student@test.com", "password": "password123" }] *)
Definition credentials : Obj :=
  {[ "email" := VStr "student@test.com"; "password" := VStr "password123" ]}.

(** * Notions of the further properties *)

(** The database [db'] has the courses of [db], no user that [db] has
    not, and courses within the schema bounds if those of [db] are. *)
Definition evolves (db db' : Db.DB) : Prop :=
  dom (Db.courses db') = dom (Db.courses db) /\
  dom (Db.users db') ⊆ dom (Db.users db) /\
  (Db.all_in_bounds db -> Db.all_in_bounds db').

(** A course after [Course.updateMany] with [$pull] of [id]: only a
    document that matches the filter is written. *)
Definition pulled (id : string) (c : Course.t) : Course.t :=
  if bool_decide (id ∈ Course.enrolledStudents c) then
    Course.set_enrolledStudents (Db.pull id (Course.enrolledStudents c)) c
  else c.

(** The order of the documents in a list of courses. *)
Definition entry_order (a b : Db.CourseEntry) : Prop :=
  match a, b with
  | Db.Document i c _ _, Db.Document j d _ _ => Db.course_order (i, c) (j, d)
  | _, _ => True
  end.

(** The keys the profile update never writes. *)
Definition protected (k : string) : bool :=
  String.eqb k "email" || String.eqb k "password" || String.eqb k "role".

(** No ['-'] in the string. *)
Fixpoint dash_free (s : string) : bool :=
  match s with
  | EmptyString => true
  | String c r => negb (Ascii.eqb c "-") && dash_free r
  end.

(** The names of the properties every object inherits from
    [Object.prototype].  Reading one of them from an object without such
    a property of its own finds the inherited value; the maps of this
    development hold the own properties only, so that a statement about
    a key taken from a request excludes these names. *)
Definition inherited (k : string) : bool :=
  bool_decide (k ∈ [ "constructor"; "hasOwnProperty"; "isPrototypeOf";
                     "propertyIsEnumerable"; "toLocaleString"; "toString";
                     "valueOf"; "__proto__"; "__defineGetter__";
                     "__defineSetter__"; "__lookupGetter__";
                     "__lookupSetter__" ]).

(** The user object that registration stores. *)
Definition registered (body : Obj) (now : Z) (st : Demo.State) : Obj :=
  let role := match prop body "role" with
              | VUndefined => VStr "student"
              | r => r
              end in
  list_to_map
    [ ("id", VStr (pretty (Z.of_nat (size (Demo.demoUsers st)) + 1)%Z));
      ("name", prop body "name"); ("email", prop body "email");
      ("password", prop body "password"); ("role", role);
      ("studentId",
       if strict_eq role (VStr "student") then prop body "studentId"
       else VUndefined);
      ("department", VStr "General"); ("semester", VNum 1);
      ("profileImage", VStr "https://via.placeholder.com/150");
      ("enrolledCourses", VArr []); ("createdAt", VNum now) ].

(** * Further example data *)

(** [{ "name": "Alice", "role": "admin", "studentId": "S1" }] *)
Definition rename_body : Obj :=
  {[ "name" := VStr "Alice"; "role" := VStr "admin";
     "studentId" := VStr "S1" ]}.

(** [{ "id": "7", "role": "admin", "phone": "555" }] *)
Definition relabel_body : Obj :=
  {[ "id" := VStr "7"; "role" := VStr "admin"; "phone" := VStr "555" ]}.

(** [{ "name": "Eve", "email": "eve@test.com", "password": "pw" }] *)
Definition eve_body : Obj :=
  {[ "name" := VStr "Eve"; "email" := VStr "eve@test.com";
     "password" := VStr "pw" ]}.

(** [{ "id": "3" }] *)
Definition share_body : Obj := {[ "id" := VStr "3" ]}.

(** The tables after Eve has registered and the built-in student has left
    both courses and taken "3", Eve's id, as id: two students share an
    id. *)
Definition shared_id : Demo.State :=
  (Demo.putProfile student_header share_body
     (Demo.unenroll student_header "2"
        (Demo.unenroll student_header "1"
           (Demo.register eve_body 1 Demo.initial).2).2).2).2.



(** * Properties *)

(** ** The store monad without faults *)

Lemma call_no_fault {A} (f : Db.DB -> A * Db.DB) db :
  Db.call f [] db = (Db.Returned (f db).1, (f db).2, []).
Proof. unfold Db.call. by destruct (f db). Qed.

Lemma castable_found {A} (m : gmap string A) id a :
  m !! id = Some a -> Db.castable m id = true.
Proof.
  intros H. unfold Db.castable. rewrite H.
  by rewrite bool_decide_true, orb_true_r.
Qed.

Lemma castable_missing {A} (m : gmap string A) id :
  m !! id = None -> Db.castable m id = Db.is_ObjectId id.
Proof.
  intros H. unfold Db.castable. rewrite H.
  rewrite bool_decide_false by by intros [? ?]. apply orb_false_r.
Qed.

(** A look-up by id either finds the document, or finds none under an
    ObjectId, or fails to cast the id. *)
Ltac find_by_id m id c H :=
  destruct (m !! id) as [c|] eqn:H;
  [rewrite (castable_found _ _ _ H)
  |rewrite (castable_missing _ _ H); destruct (Db.is_ObjectId id)].

Ltac find_by_id' m id c H fs :=
  find_by_id m id c H;
  [|solve [destruct fs as [|[] ?]; simpl; auto
          |destruct fs as [|[] ?]; by simpl]
   |solve [simpl; auto|by simpl]].

Lemma strict_eq_VStr a b : strict_eq (VStr a) (VStr b) = bool_decide (a = b).
Proof.
  simpl. destruct (String.eqb_spec a b).
  - by rewrite bool_decide_true.
  - by rewrite bool_decide_false.
Qed.

(** ** The course handlers, run

    What a run of Enroll and Unenroll returns and leaves behind, first
    without faults and then under an arbitrary fault schedule. *)

Lemma enroll_no_fault now student course db :
  Db.enroll now student course [] db =
  match Db.courses db !! course with
  | None =>
    (if Db.is_ObjectId course then failure 404 "Course not found"
     else failure 500 "Server error enrolling in course", db)
  | Some c =>
    if negb (Course.isActive c) then (failure 400 "Course is not active", db)
    else if bool_decide (student ∈ Course.enrolledStudents c) then
      (failure 400 "Already enrolled in this course", db)
    else if (Course.capacity c <=? Course.enrolledCount c)%Z then
      (failure 400 "Course is full", db)
    else
      (ok "Successfully enrolled in course"
          (Some (enrolled_course now student c)),
       Db.mkDB (<[course := enrolled_course now student c]> (Db.courses db))
               (alter (enrolled_user course) student (Db.users db)))
  end.
Proof.
  unfold Db.enroll, Db.try_catch, Db.enroll_body, Db.bind, Db.Course_findById,
    Db.throw, Course.enrolledCount.
  find_by_id (Db.courses db) course c Hc; [|by rewrite call_no_fault; simpl; rewrite Hc|done].
  rewrite call_no_fault; simpl. rewrite Hc.
  destruct (Course.isActive c); simpl; [|done].
  case_bool_decide; [done|].
  by destruct (_ <=? _)%Z.
Qed.

Lemma unenroll_no_fault now student course db :
  Db.unenroll now student course [] db =
  match Db.courses db !! course with
  | None =>
    (if Db.is_ObjectId course then failure 404 "Course not found"
     else failure 500 "Server error unenrolling from course", db)
  | Some c =>
    if bool_decide (student ∈ Course.enrolledStudents c) then
      (ok "Successfully unenrolled from course" None,
       Db.mkDB (<[course := unenrolled_course now student c]> (Db.courses db))
               (alter (unenrolled_user course) student (Db.users db)))
    else (failure 400 "Not enrolled in this course", db)
  end.
Proof.
  unfold Db.unenroll, Db.try_catch, Db.unenroll_body, Db.bind,
    Db.Course_findById, Db.throw.
  find_by_id (Db.courses db) course c Hc; [|by rewrite call_no_fault; simpl; rewrite Hc|done].
  rewrite call_no_fault; simpl. rewrite Hc.
  by case_bool_decide.
Qed.

(** Under any fault schedule a run of Enroll ends in one of four ways. *)
Lemma enroll_cases now student course fs db :
  let r := (Db.enroll now student course fs db).1 in
  let db' := (Db.enroll now student course fs db).2 in
  (db' = db /\ success r = false) \/
  exists c, can_enroll db student course c /\
    ((db' = Db.mkDB (<[course := enrolled_course now student c]> (Db.courses db))
                    (Db.users db)
      /\ r = failure 500 "Server error enrolling in course") \/
     (db' = Db.mkDB (<[course := enrolled_course now student c]> (Db.courses db))
                    (alter (enrolled_user course) student (Db.users db))
      /\ r = ok "Successfully enrolled in course"
                (Some (enrolled_course now student c)))).
Proof.
  unfold Db.enroll, Db.try_catch, Db.enroll_body, Db.bind, Db.Course_findById,
    Db.Course_save, Db.User_addToSet_enrolledCourses, Db.call, Db.ret,
    Db.throw, can_enroll, Course.enrolledCount.
  find_by_id (Db.courses db) course c Hc;
    [|by destruct fs as [|[] fs]; simpl; auto|by simpl; auto].
  destruct fs as [|[] fs]; simpl; auto;
    (destruct (Course.isActive c) eqn:Ha; simpl; [|by auto]);
    (case_bool_decide; simpl; [by auto|]);
    (destruct (Z.leb_spec (Course.capacity c)
                 (Z.of_nat (length (Course.enrolledStudents c))));
       simpl; [by auto|]).
  - right. exists c. split; [done|]. by right.
  - destruct fs as [|[] fs]; simpl; auto.
    + right. exists c. split; [done|]. by right.
    + right. exists c. split; [done|].
      destruct fs as [|[] fs]; simpl; auto.
Qed.

Lemma unenroll_cases now student course fs db :
  let r := (Db.unenroll now student course fs db).1 in
  let db' := (Db.unenroll now student course fs db).2 in
  (db' = db /\ success r = false) \/
  exists c, can_unenroll db student course c /\
    ((db' = Db.mkDB (<[course := unenrolled_course now student c]> (Db.courses db))
                    (Db.users db)
      /\ r = failure 500 "Server error unenrolling from course") \/
     (db' = Db.mkDB (<[course := unenrolled_course now student c]> (Db.courses db))
                    (alter (unenrolled_user course) student (Db.users db))
      /\ r = ok "Successfully unenrolled from course" None)).
Proof.
  unfold Db.unenroll, Db.try_catch, Db.unenroll_body, Db.bind,
    Db.Course_findById, Db.Course_save, Db.User_pull_enrolledCourses, Db.call,
    Db.ret, Db.throw, can_unenroll.
  find_by_id (Db.courses db) course c Hc;
    [|by destruct fs as [|[] fs]; simpl; auto|by simpl; auto].
  destruct fs as [|[] fs]; simpl; auto;
    (case_bool_decide; simpl; [|by auto]).
  - right. exists c. split; [done|]. by right.
  - destruct fs as [|[] fs]; simpl; auto.
    + right. exists c. split; [done|]. by right.
    + right. exists c. split; [done|].
      destruct fs as [|[] fs]; simpl; auto.
Qed.

(** ** Lists as sets *)

Lemma elem_of_addToSet (x c : string) l : x ∈ Db.addToSet c l <-> x = c \/ x ∈ l.
Proof.
  unfold Db.addToSet. case_bool_decide.
  - split; [by right|]. by intros [->|].
  - rewrite elem_of_app, list_elem_of_singleton. tauto.
Qed.

Lemma elem_of_pull (x c : string) l : x ∈ Db.pull c l <-> x <> c /\ x ∈ l.
Proof. unfold Db.pull. by rewrite list_elem_of_filter. Qed.

Lemma length_pull (c : string) l : length (Db.pull c l) <= length l.
Proof. unfold Db.pull. apply length_filter. Qed.

(** ** Roster size within capacity *)

Lemma within_capacity_insert db id c users' :
  Db.within_capacity db ->
  (Course.enrolledCount c <= Course.capacity c)%Z ->
  Db.within_capacity (Db.mkDB (<[id := c]> (Db.courses db)) users').
Proof.
  intros Hinv Hc id' c'. simpl. rewrite lookup_insert.
  case_decide; [by intros [= <-]|]. apply Hinv.
Qed.

Lemma within_capacity_users db users' :
  Db.within_capacity db ->
  Db.within_capacity (Db.mkDB (Db.courses db) users').
Proof. intros Hinv id c. apply Hinv. Qed.

Lemma enroll_within_capacity now student course fs db :
  Db.within_capacity db ->
  Db.within_capacity (Db.enroll now student course fs db).2.
Proof.
  intros Hinv.
  destruct (enroll_cases now student course fs db)
    as [[-> _]|(c & (Hc & _ & _ & Hfree) & [[-> _]|[-> _]])]; [done| |];
    (apply within_capacity_insert; [done|]);
    unfold Course.enrolledCount in *; simpl; rewrite length_app; simpl; lia.
Qed.

Lemma unenroll_within_capacity now student course fs db :
  Db.within_capacity db ->
  Db.within_capacity (Db.unenroll now student course fs db).2.
Proof.
  intros Hinv.
  destruct (unenroll_cases now student course fs db)
    as [[-> _]|(c & (Hc & _) & [[-> _]|[-> _]])]; [done| |];
    (apply within_capacity_insert; [done|]);
    specialize (Hinv _ _ Hc); unfold Course.enrolledCount in *; simpl;
    pose proof (length_filter (fun i => i ≠ student) (Course.enrolledStudents c));
    lia.
Qed.

Lemma deleteCourse_within_capacity now id fs db :
  Db.within_capacity db ->
  Db.within_capacity (Db.deleteCourse now id fs db).2.
Proof.
  intros Hinv.
  unfold Db.deleteCourse, Db.try_catch, Db.deleteCourse_body, Db.bind,
    Db.Course_findById, Db.Course_save, Db.call, Db.ret, Db.throw.
  find_by_id' (Db.courses db) id c Hc fs.
  destruct fs as [|[] fs]; simpl; auto.
  - apply within_capacity_insert; [done|]. apply (Hinv _ _ Hc).
  - destruct fs as [|[] fs]; simpl; auto;
      (apply within_capacity_insert; [done|]); apply (Hinv _ _ Hc).
Qed.

Lemma toggleStatus_courses me id fs db :
  Db.courses (Db.toggleStatus me id fs db).2 = Db.courses db.
Proof.
  unfold Db.toggleStatus, Db.try_catch, Db.toggleStatus_body, Db.bind,
    Db.User_findById, Db.User_save, Db.call, Db.ret, Db.throw.
  find_by_id' (Db.users db) id u Hu fs.
  destruct fs as [|[] fs]; simpl; auto;
    (destruct (String.eqb id me); simpl; [done|]); [done|].
  destruct fs as [|[] fs]; simpl; auto.
Qed.

Lemma updateRole_courses me id body fs db :
  Db.courses (Db.updateRole me id body fs db).2 = Db.courses db.
Proof.
  unfold Db.updateRole, Db.try_catch, Db.updateRole_body, Db.bind,
    Db.User_findById, Db.User_save, Db.call, Db.ret, Db.throw.
  destruct (_ || _); [done|].
  find_by_id' (Db.users db) id u Hu fs.
  destruct fs as [|[] fs]; simpl; auto;
    (destruct (String.eqb id me); simpl; [done|]);
    (destruct (prop body "role"); simpl; try done).
  destruct fs as [|[] fs]; simpl; auto.
Qed.

Lemma putProfile_courses vr me body fs db :
  Db.courses (Db.putProfile vr me body fs db).2 = Db.courses db.
Proof.
  unfold Db.putProfile, Db.try_catch, Db.putProfile_body, Db.bind,
    Db.User_findByIdAndUpdate, Db.ret.
  destruct (vr body) as [b []]; simpl; [|done].
  destruct fs as [|[] fs]; simpl; auto;
    (destruct (Db.users db !! me) as [u|]; simpl; [|done]);
    by destruct (Db.User_applyUpdate _ u).
Qed.

Lemma deleteUser_within_capacity me id fs db :
  Db.within_capacity db ->
  Db.within_capacity (Db.deleteUser me id fs db).2.
Proof.
  intros Hinv.
  assert (Hpull : forall users',
    Db.within_capacity
      (Db.mkDB ((fun c => if bool_decide (id ∈ Course.enrolledStudents c)
                          then Course.set_enrolledStudents
                                 (Db.pull id (Course.enrolledStudents c)) c
                          else c) <$> Db.courses db) users')).
  { intros users' i c. simpl. rewrite lookup_fmap.
    destruct (Db.courses db !! i) as [c0|] eqn:Hc; [|done].
    intros [= <-]. specialize (Hinv _ _ Hc).
    case_bool_decide; [|done].
    unfold Course.enrolledCount in *. simpl.
    pose proof (length_pull id (Course.enrolledStudents c0)). lia. }
  unfold Db.deleteUser, Db.try_catch, Db.deleteUser_body, Db.bind,
    Db.User_findById, Db.Course_updateMany_pull, Db.User_deleteOne, Db.call,
    Db.ret, Db.throw.
  find_by_id' (Db.users db) id u Hu fs.
  destruct fs as [|[] fs]; simpl; auto;
    (destruct (String.eqb id me); simpl; [done|]); [done|].
  destruct fs as [|[] fs]; simpl; auto.
  destruct fs as [|[] fs]; simpl; auto.
Qed.

Lemma serve_within_capacity vr req fs db :
  Db.is_UpdateCourse req = false ->
  Db.within_capacity db -> Db.within_capacity (Db.serve vr req fs db).
Proof.
  intros Hreq Hinv. destruct req; simpl; try done.
  - by apply enroll_within_capacity.
  - by apply unenroll_within_capacity.
  - by apply deleteCourse_within_capacity.
  - intros i c. rewrite toggleStatus_courses. apply Hinv.
  - intros i c. rewrite updateRole_courses. apply Hinv.
  - by apply deleteUser_within_capacity.
  - intros i c. rewrite putProfile_courses. apply Hinv.
Qed.

Lemma run_within_capacity vr reqs db :
  Forall (fun rq => Db.is_UpdateCourse rq.1 = false) reqs ->
  Db.within_capacity db -> Db.within_capacity (Db.run vr reqs db).
Proof.
  unfold Db.run. intros Hreqs. revert db.
  induction Hreqs as [|[req fs] reqs Hreq _ IH]; intros db Hinv; simpl; [done|].
  apply IH. by apply serve_within_capacity.
Qed.

(** ** Bidirectional consistency *)

Lemma consistent_enrolled now student course c db :
  can_enroll db student course c -> Db.consistent db ->
  Db.consistent
    (Db.mkDB (<[course := enrolled_course now student c]> (Db.courses db))
             (alter (enrolled_user course) student (Db.users db))).
Proof.
  intros (Hc & _ & Hnew & _) Hinv s u c' co. simpl.
  rewrite lookup_insert.
  destruct (decide (s = student)) as [->|Hs].
  - rewrite lookup_alter_eq.
    destruct (Db.users db !! student) as [u0|] eqn:Hu; simpl; [|done].
    intros [= <-]. case_decide as Hco; simpl.
    + intros [= <-]. subst c'. simpl.
      rewrite elem_of_app, list_elem_of_singleton, elem_of_addToSet. tauto.
    + intros Hco'. rewrite elem_of_addToSet, (Hinv _ _ _ _ Hu Hco').
      intuition congruence.
  - rewrite lookup_alter_ne by done. intros Hu.
    case_decide as Hco; simpl.
    + intros [= <-]. subst c'. simpl.
      rewrite elem_of_app, list_elem_of_singleton, (Hinv _ _ _ _ Hu Hc).
      intuition congruence.
    + intros Hco'. by apply Hinv.
Qed.

Lemma consistent_unenrolled now student course c db :
  can_unenroll db student course c -> Db.consistent db ->
  Db.consistent
    (Db.mkDB (<[course := unenrolled_course now student c]> (Db.courses db))
             (alter (unenrolled_user course) student (Db.users db))).
Proof.
  intros (Hc & _) Hinv s u c' co. simpl.
  rewrite lookup_insert.
  destruct (decide (s = student)) as [->|Hs].
  - rewrite lookup_alter_eq.
    destruct (Db.users db !! student) as [u0|] eqn:Hu; simpl; [|done].
    intros [= <-]. case_decide as Hco; simpl.
    + intros [= <-]. subst c'. simpl.
      rewrite list_elem_of_filter, elem_of_pull. intuition congruence.
    + intros Hco'. rewrite elem_of_pull, (Hinv _ _ _ _ Hu Hco').
      intuition congruence.
  - rewrite lookup_alter_ne by done. intros Hu.
    case_decide as Hco; simpl.
    + intros [= <-]. subst c'. simpl.
      rewrite list_elem_of_filter, (Hinv _ _ _ _ Hu Hc). intuition congruence.
    + intros Hco'. by apply Hinv.
Qed.

Lemma enroll_consistent now student course fs db :
  status (Db.enroll now student course fs db).1 <> 500 ->
  Db.consistent db ->
  Db.consistent (Db.enroll now student course fs db).2.
Proof.
  intros Hr Hinv.
  destruct (enroll_cases now student course fs db)
    as [[-> _]|(c & Hc & [[_ Hr']|[-> _]])]; [done| |].
  - by rewrite Hr' in Hr.
  - by apply consistent_enrolled.
Qed.

Lemma unenroll_consistent now student course fs db :
  status (Db.unenroll now student course fs db).1 <> 500 ->
  Db.consistent db ->
  Db.consistent (Db.unenroll now student course fs db).2.
Proof.
  intros Hr Hinv.
  destruct (unenroll_cases now student course fs db)
    as [[-> _]|(c & Hc & [[_ Hr']|[-> _]])]; [done| |].
  - by rewrite Hr' in Hr.
  - by apply consistent_unenrolled.
Qed.

(** ** The administrator's handlers *)

Lemma valid_role_cases r :
  Db.valid_role r = true -> r = "student" \/ r = "admin" \/ r = "instructor".
Proof.
  unfold Db.valid_role. intros H%bool_decide_eq_true.
  rewrite !elem_of_cons in H. rewrite elem_of_nil in H. tauto.
Qed.

Lemma role_accepted body r :
  prop body "role" = VStr r -> Db.valid_role r = true ->
  negb (truthy (prop body "role"))
  || negb (includes (prop body "role")
             [VStr "student"; VStr "admin"; VStr "instructor"]) = false.
Proof.
  intros -> [->|[->| ->]]%valid_role_cases; reflexivity.
Qed.

(** The guard of the branch that would clear the student-only fields reads
    the role after the assignment: it never holds. *)
Lemma clear_branch_dead r u :
  String.eqb (User.role (User.set_role r u)) "student"
  && negb (strict_eq (VStr r) (VStr "student")) = false.
Proof. simpl. apply andb_negb_r. Qed.

Lemma toggleStatus_self_unchanged me fs db :
  (Db.toggleStatus me me fs db).2 = db.
Proof.
  unfold Db.toggleStatus, Db.try_catch, Db.toggleStatus_body, Db.bind,
    Db.User_findById, Db.call, Db.ret, Db.throw.
  rewrite String.eqb_refl.
  find_by_id' (Db.users db) me u Hu fs.
  destruct fs as [|[] fs]; simpl; auto.
Qed.

Lemma toggleStatus_self me u db :
  Db.users db !! me = Some u ->
  Db.toggleStatus me me [] db
  = (failure 400 "Cannot deactivate your own account", db).
Proof.
  intros Hu.
  unfold Db.toggleStatus, Db.try_catch, Db.toggleStatus_body, Db.bind,
    Db.User_findById.
  rewrite (castable_found _ _ _ Hu).
  rewrite call_no_fault; simpl. by rewrite Hu, String.eqb_refl.
Qed.

Lemma updateRole_self_unchanged me body fs db :
  (Db.updateRole me me body fs db).2 = db.
Proof.
  unfold Db.updateRole, Db.try_catch, Db.updateRole_body, Db.bind,
    Db.User_findById, Db.call, Db.ret, Db.throw.
  rewrite String.eqb_refl. destruct (_ || _); [done|].
  find_by_id' (Db.users db) me u Hu fs.
  destruct fs as [|[] fs]; simpl; auto.
Qed.

Lemma updateRole_self me u body r db :
  Db.users db !! me = Some u ->
  prop body "role" = VStr r -> Db.valid_role r = true ->
  Db.updateRole me me body [] db
  = (failure 400 "Cannot change your own role", db).
Proof.
  intros Hu Hr Hv.
  unfold Db.updateRole, Db.try_catch, Db.updateRole_body, Db.bind,
    Db.User_findById.
  rewrite (role_accepted _ _ Hr Hv). cbv beta iota.
  rewrite (castable_found _ _ _ Hu), call_no_fault; simpl.
  by rewrite Hu, String.eqb_refl.
Qed.

Lemma updateRole_run me id body r u db :
  Db.users db !! id = Some u -> id <> me ->
  prop body "role" = VStr r -> Db.valid_role r = true ->
  Db.updateRole me id body [] db
  = (ok (String.append "User role updated to " r) (Some (User.set_role r u)),
     Db.mkDB (Db.courses db) (<[id := User.set_role r u]> (Db.users db))).
Proof.
  intros Hu Hne Hr Hv.
  unfold Db.updateRole, Db.try_catch, Db.updateRole_body, Db.bind,
    Db.User_findById, Db.User_save.
  rewrite (role_accepted _ _ Hr Hv). cbv beta iota.
  rewrite (castable_found _ _ _ Hu), call_no_fault; simpl.
  rewrite Hu. apply String.eqb_neq in Hne. rewrite Hne, Hr.
  rewrite call_no_fault; simpl. by rewrite andb_negb_r.
Qed.

(** Whatever the body and the faults, the role handler leaves the
    database as it was or writes the user back with the new role. *)
Lemma updateRole_cases me id body fs db u :
  Db.users db !! id = Some u ->
  (Db.updateRole me id body fs db).2 = db \/
  exists r, (Db.updateRole me id body fs db).2
            = Db.mkDB (Db.courses db) (<[id := User.set_role r u]> (Db.users db)).
Proof.
  intros Hu.
  unfold Db.updateRole, Db.try_catch, Db.updateRole_body, Db.bind,
    Db.User_findById, Db.User_save, Db.call, Db.ret, Db.throw.
  destruct (_ || _); cbv beta iota; [by left|].
  rewrite (castable_found _ _ _ Hu).
  destruct fs as [|[] fs]; simpl; try (by left); rewrite Hu;
    (destruct (String.eqb id me); simpl; [by left|]);
    (destruct (prop body "role") as [| | | |r| |]; simpl; try (by left));
    rewrite andb_negb_r.
  - right. by exists r.
  - destruct fs as [|[] fs]; simpl; try (by left); right; by exists r.
Qed.

Lemma updateRole_frame me id body fs db u u' :
  Db.users db !! id = Some u ->
  Db.users (Db.updateRole me id body fs db).2 !! id = Some u' ->
  u' = User.set_role (User.role u') u.
Proof.
  intros Hu.
  destruct (updateRole_cases me id body fs db u Hu) as [->|[r ->]]; simpl.
  - rewrite Hu. intros [= <-]. by destruct u.
  - rewrite lookup_insert_eq. by intros [= <-].
Qed.




(** ** No password in the answers of the routers *)

Lemma getProfile_no_password me fs db p :
  payload (Db.getProfile me fs db).1 = Some p ->
  User.password (Db.profile_user p) = None.
Proof.
  unfold Db.getProfile, Db.try_catch, Db.getProfile_body, Db.bind,
    Db.User_findProfile, Db.call, Db.ret.
  destruct fs as [|[] fs]; simpl; try done;
    (destruct (Db.users db !! me) as [u|]; simpl; [|done]);
    by intros [= <-].
Qed.

Lemma listUsers_no_password now fs db l :
  payload (Db.listUsers now fs db).1 = Some l ->
  Forall (fun x => User.password x.2 = None) (Db.users_of l).
Proof.
  assert (Hsorted : forall us : list (string * User.t),
    Forall (fun x => User.password x.2 = None)
      (merge_sort Db.newer (prod_map id (User.set_password None) <$> us))).
  { intros us. rewrite merge_sort_Permutation. apply Forall_fmap.
    by apply Forall_forall; intros [i u] _. }
  unfold Db.listUsers, Db.try_catch, Db.listUsers_body, Db.bind,
    Db.User_find_all, Db.call, Db.ret.
  destruct fs as [|[] fs]; simpl; intros [= <-]; simpl; try apply Hsorted.
  by repeat constructor.
Qed.

(** ** The profile update of the student router *)

Lemma set_path_absent {A} (sets : Obj) k (cast : Value -> option A) valid old :
  sets !! k = None -> Db.set_path sets k cast valid old = Some old.
Proof. unfold Db.set_path. by intros ->. Qed.

(** An update without [$set] operator sets exactly its plain keys. *)
Lemma castUpdate_absent (update : Obj) k :
  update !! "$set" = None -> update !! k = None ->
  Db.castUpdate update !! k = None.
Proof.
  unfold Db.castUpdate. intros -> Hk.
  apply map_lookup_filter_None_2. by left.
Qed.

Lemma applyUpdate_identity (update : Obj) u u' :
  Db.castUpdate update !! "email" = None ->
  Db.castUpdate update !! "role" = None ->
  Db.castUpdate update !! "password" = None ->
  Db.User_applyUpdate update u = Some u' ->
  User.email u' = User.email u /\ User.role u' = User.role u /\
  User.password u' = User.password u.
Proof.
  intros He Hr Hp. unfold Db.User_applyUpdate.
  rewrite (set_path_absent _ "email") by done.
  rewrite (set_path_absent _ "role") by done.
  rewrite (set_path_absent _ "password") by done.
  intros H. simplify_option_eq. done.
Qed.

Lemma plain_no_operator (update : Obj) k :
  Db.plain update = true -> Db.is_operator k = true -> update !! k = None.
Proof.
  unfold Db.plain. rewrite forallb_forall. intros H Hk.
  destruct (update !! k) as [v|] eqn:Hv; [|done].
  apply elem_of_map_to_list, list_elem_of_In, H in Hv. simpl in Hv.
  by rewrite Hk in Hv.
Qed.

(** For a body without update operator the profile update leaves the
    identity fields of the stored user alone. *)
Lemma putProfile_plain_body vr me body fs db u u' :
  Db.plain (vr body).1 = true ->
  Db.users db !! me = Some u ->
  Db.users (Db.putProfile vr me body fs db).2 !! me = Some u' ->
  User.email u' = User.email u /\ User.role u' = User.role u /\
  User.password u' = User.password u.
Proof.
  intros Hplain%(plain_no_operator _ "$set") Hu; [|done].
  unfold Db.putProfile, Db.try_catch, Db.putProfile_body, Db.bind,
    Db.User_findByIdAndUpdate, Db.ret.
  destruct (vr body) as [b []]; simpl in *;
    [|by rewrite Hu; intros [= <-]].
  set (updates := delete "studentId" _).
  assert (Hset : updates !! "$set" = None).
  { unfold updates. by do 4 (rewrite lookup_delete_ne by done). }
  assert (forall u', Db.User_applyUpdate updates u = Some u' ->
    User.email u' = User.email u /\ User.role u' = User.role u /\
    User.password u' = User.password u) as Happ.
  { intros u0. apply applyUpdate_identity; apply castUpdate_absent; try done;
      unfold updates.
    - do 3 (rewrite lookup_delete_ne by done). apply lookup_delete_eq.
    - do 2 (rewrite lookup_delete_ne by done). apply lookup_delete_eq.
    - rewrite lookup_delete_ne by done. apply lookup_delete_eq. }
  destruct fs as [|[] fs]; simpl; rewrite ?Hu; try (by intros [= <-]);
    (destruct (Db.User_applyUpdate updates u) as [u0|] eqn:Hu0; simpl;
       rewrite ?Hu; [|by intros [= <-]]);
    rewrite lookup_insert_eq; intros [= <-]; by apply Happ.
Qed.

(** ** The in-memory server: callers, profiles and passwords *)

Lemma authenticate_lookup st authorization email user :
  Demo.authenticate st authorization = inr (email, user) ->
  Demo.demoUsers st !! email = Some user.
Proof.
  unfold Demo.authenticate, Demo.validateSimpleToken.
  destruct (Demo.bearer authorization) as [token|]; [|done].
  destruct (negb _); [done|]. destruct (_ <? _)%nat; [done|].
  destruct (String.eqb _ "1");
    (destruct (Demo.demoUsers st !! _) as [u|] eqn:Hu; simpl; [|done]);
    by intros [= <- <-].
Qed.

Lemma userResponse_no_password user :
  Demo.userResponse user !! "password" = None.
Proof. apply lookup_delete_eq. Qed.

Lemma assign_identity key v user k :
  k ∈ ["email"; "password"; "role"] ->
  Demo.assign key v user !! k = user !! k.
Proof.
  intros Hk. unfold Demo.assign.
  destruct (String.eqb_spec key "email") as [->|He]; simpl; [done|].
  destruct (String.eqb_spec key "password") as [->|Hp]; simpl; [done|].
  destruct (String.eqb_spec key "role") as [->|Hr]; simpl; [done|].
  apply lookup_insert_ne. intros ->.
  rewrite !elem_of_cons, elem_of_nil in Hk. tauto.
Qed.

(** The [forEach] of the profile update never writes an identity field. *)
Lemma forEach_assign_identity (updates user : Obj) k :
  k ∈ ["email"; "password"; "role"] ->
  map_fold Demo.assign user updates !! k = user !! k.
Proof.
  intros Hk.
  apply (map_fold_weak_ind (fun r (_ : Obj) => r !! k = user !! k)); [done|].
  intros i x m r _ IH. by rewrite assign_identity.
Qed.

Lemma demo_putProfile_identity authorization body st email user user' k :
  k ∈ ["email"; "password"; "role"] ->
  Demo.demoUsers st !! email = Some user ->
  Demo.demoUsers (Demo.putProfile authorization body st).2 !! email
    = Some user' ->
  user' !! k = user !! k.
Proof.
  intros Hk Hu. unfold Demo.putProfile.
  destruct (Demo.authenticate st authorization) as [msg|[e caller]] eqn:Ha;
    simpl; [by rewrite Hu; intros [= <-]|].
  apply authenticate_lookup in Ha.
  rewrite lookup_insert. case_decide as He.
  - subst e. intros [= <-]. rewrite forEach_assign_identity by done.
    congruence.
  - rewrite Hu. by intros [= <-].
Qed.

Lemma demo_login_no_password body now st s :
  payload (Demo.login body now st).1 = Some s ->
  Demo.session_user s !! "password" = None.
Proof.
  unfold Demo.login. destruct (_ || _); [done|].
  destruct (Demo.demoUsers st !! _) as [user|]; [|done].
  destruct (negb _); [done|]. simpl. intros [= <-].
  apply userResponse_no_password.
Qed.

Lemma demo_register_no_password body now st s :
  payload (Demo.register body now st).1 = Some s ->
  Demo.session_user s !! "password" = None.
Proof.
  unfold Demo.register. destruct (_ || _); [done|].
  destruct (Demo.demoUsers st !! _) as [user|]; [done|].
  simpl. intros [= <-]. apply userResponse_no_password.
Qed.

Lemma demo_me_no_password authorization st user :
  payload (Demo.me authorization st).1 = Some user ->
  user !! "password" = None.
Proof.
  unfold Demo.me. destruct (Demo.authenticate _ _) as [msg|[e u]]; [done|].
  simpl. intros [= <-]. apply userResponse_no_password.
Qed.

Lemma demo_getProfile_no_password authorization st user :
  payload (Demo.getProfile authorization st).1 = Some user ->
  user !! "password" = None.
Proof.
  unfold Demo.getProfile.
  destruct (Demo.authenticate _ _) as [msg|[e u]]; [done|].
  destruct (negb _); [done|].
  simpl. intros [= <-]. apply userResponse_no_password.
Qed.

Lemma demo_putProfile_no_password authorization body st user :
  payload (Demo.putProfile authorization body st).1 = Some user ->
  user !! "password" = None.
Proof.
  unfold Demo.putProfile.
  destruct (Demo.authenticate _ _) as [msg|[e u]]; [done|].
  simpl. intros [= <-]. apply userResponse_no_password.
Qed.

Lemma demo_listUsers_no_password authorization st l :
  payload (Demo.listUsers authorization st).1 = Some l ->
  Forall (fun user : Obj => user !! "password" = None) (Demo.users_of l).
Proof.
  unfold Demo.listUsers. destruct (Demo.bearer _) as [token|]; [|done].
  destruct (Demo.validateSimpleToken _ _) as [[e u]|]; [|done].
  destruct (negb _); [done|]. simpl. intros [= <-]. simpl.
  apply Forall_fmap, Forall_forall. intros u' _. apply lookup_delete_eq.
Qed.

(** ** The in-memory server: enrollment *)

Lemma strict_eq_VStr_l a v : strict_eq (VStr a) v = true <-> v = VStr a.
Proof.
  destruct v; simpl; try (split; [done|by intros [=]]).
  destruct (String.eqb_spec a s); split; try done; try congruence.
Qed.

Lemma strict_eq_VStr_refl a : strict_eq (VStr a) (VStr a) = true.
Proof. simpl. apply String.eqb_refl. Qed.

Lemma includes_app v l1 l2 :
  includes v (l1 ++ l2) = includes v l1 || includes v l2.
Proof. apply existsb_app. Qed.

Lemma includes_filter a b l :
  includes (VStr a) (List.filter (fun i => negb (strict_eq i (VStr b))) l)
  = includes (VStr a) l && negb (String.eqb a b).
Proof.
  induction l as [|x l IH]; [done|].
  destruct x as [| | | |s| |]; simpl; try apply IH.
  destruct (String.eqb_spec s b) as [->|Hsb]; simpl;
    destruct (String.eqb_spec a b) as [->|Hab]; simpl.
  - rewrite IH. by rewrite andb_false_r.
  - exact IH.
  - apply not_eq_sym, String.eqb_neq in Hsb. rewrite Hsb, IH. simpl.
    by rewrite !andb_false_r.
  - rewrite IH. simpl. by rewrite !andb_true_r.
Qed.

Lemma find_has_id i l c :
  find (Demo.has_id i) l = Some c -> c ∈ l /\ Demo.Course.id c = i.
Proof.
  intros [Hin Hid]%find_some. split; [by apply list_elem_of_In|].
  by apply String.eqb_eq.
Qed.

(** With unique course ids a write through [find] replaces the course
    found and touches no other. *)
Lemma elem_of_update_first i f l c x :
  NoDup (Demo.Course.id <$> l) ->
  find (Demo.has_id i) l = Some c ->
  x ∈ Demo.update_first (Demo.has_id i) f l <->
  x = f c \/ (x ∈ l /\ Demo.Course.id x <> i).
Proof.
  induction l as [|c0 l IH]; simpl; [done|].
  rewrite NoDup_cons. intros [Hc0 Hl].
  unfold Demo.has_id at 1 3.
  destruct (String.eqb_spec (Demo.Course.id c0) i) as [Hi|Hi].
  - intros [= <-]. rewrite !elem_of_cons. split.
    + intros [->|Hx]; [by left|]. right. split; [by right|].
      intros Hxi. apply Hc0. rewrite Hi, <- Hxi.
      by apply list_elem_of_fmap_2.
    + intros [->|[[->|Hx] Hxi]]; [by left|congruence|by right].
  - intros Hfind. rewrite !elem_of_cons, (IH Hl Hfind). split.
    + intros [->|[->|[Hx Hxi]]]; [by right; split; [left|]|by left|].
      right. split; [by right|done].
    + intros [->|[[->|Hx] Hxi]]; [by right; left|by left|].
      right. right. done.
Qed.

Lemma update_first_ids p f l :
  (forall c, Demo.Course.id (f c) = Demo.Course.id c) ->
  Demo.Course.id <$> Demo.update_first p f l = Demo.Course.id <$> l.
Proof.
  intros Hf. induction l as [|c l IH]; [done|].
  simpl. destruct (p c); csimpl; [by rewrite Hf|by rewrite IH].
Qed.

Lemma demo_enroll_run authorization id st email user c :
  Demo.authenticate st authorization = inr (email, user) ->
  prop user "role" = VStr "student" ->
  Demo.well_formed_user user ->
  find (Demo.has_id id) (Demo.demoCourses st) = Some c ->
  includes (prop user "id") (Demo.Course.enrolledStudents c) = false ->
  Demo.enroll authorization id st
  = (ok "Successfully enrolled in course"
        (Some (demo_enrolled_course user c)),
     Demo.mkState
       (<[email := demo_enrolled_user (Demo.Course.id c) user]>
          (Demo.demoUsers st))
       (Demo.update_first (Demo.has_id id) (demo_enrolled_course user)
          (Demo.demoCourses st))).
Proof.
  intros Ha Hrole (_ & Hlist) Hc Hnew.
  unfold Demo.enroll, demo_enrolled_user, Demo.enrolled.
  rewrite Ha, Hrole, Hc, Hnew. simpl.
  destruct Hlist as [Hl|[l Hl]]; unfold prop; rewrite Hl; simpl.
  - rewrite lookup_insert_eq. simpl. by rewrite insert_insert_eq.
  - by rewrite Hl.
Qed.

Lemma demo_unenroll_run authorization id st email user c l :
  Demo.authenticate st authorization = inr (email, user) ->
  user !! "enrolledCourses" = Some (VArr l) ->
  find (Demo.has_id id) (Demo.demoCourses st) = Some c ->
  includes (prop user "id") (Demo.Course.enrolledStudents c) = true ->
  Demo.unenroll authorization id st
  = (ok "Successfully unenrolled from course" None,
     Demo.mkState
       (<[email := demo_unenrolled_user (Demo.Course.id c) user]>
          (Demo.demoUsers st))
       (Demo.update_first (Demo.has_id id) (demo_unenrolled_course user)
          (Demo.demoCourses st))).
Proof.
  intros Ha Hl Hc Hin.
  unfold Demo.unenroll, demo_unenrolled_user, Demo.enrolled.
  rewrite Ha, Hc, Hin. simpl. unfold prop. by rewrite Hl.
Qed.

Lemma demo_enroll_outcome authorization id st email user :
  Demo.authenticate st authorization = inr (email, user) ->
  prop user "role" = VStr "student" ->
  Demo.well_formed_user user ->
  error_kind (Demo.enroll authorization id st).1
  = demo_enroll_outcome_spec st (prop user "id") id.
Proof.
  intros Ha Hrole Hwf. unfold demo_enroll_outcome_spec.
  destruct (find (Demo.has_id id) (Demo.demoCourses st)) as [c|] eqn:Hc.
  - destruct (includes (prop user "id") (Demo.Course.enrolledStudents c))
      eqn:Hin.
    + unfold Demo.enroll. by rewrite Ha, Hrole, Hc, Hin.
    + by rewrite (demo_enroll_run _ _ _ _ _ _ Ha Hrole Hwf Hc Hin).
  - unfold Demo.enroll. by rewrite Ha, Hrole, Hc.
Qed.

Lemma strict_eq_VStr_r v a : strict_eq v (VStr a) = true -> v = VStr a.
Proof.
  destruct v; simpl; try done. by intros ->%String.eqb_eq.
Qed.

Lemma prop_lookup (o : Obj) k v : o !! k = Some v -> prop o k = v.
Proof. unfold prop. by intros ->. Qed.

Lemma demo_enrolled_user_id course user :
  prop (demo_enrolled_user course user) "id" = prop user "id".
Proof. unfold prop, demo_enrolled_user. by rewrite lookup_insert_ne. Qed.

Lemma demo_enrolled_user_list course user :
  Demo.enrolled (demo_enrolled_user course user)
  = (Demo.enrolled user ++ [VStr course])%list.
Proof.
  unfold Demo.enrolled at 1, prop, demo_enrolled_user.
  by rewrite lookup_insert_eq.
Qed.

Lemma demo_unenrolled_user_id course user :
  prop (demo_unenrolled_user course user) "id" = prop user "id".
Proof. unfold prop, demo_unenrolled_user. by rewrite lookup_insert_ne. Qed.

Lemma demo_unenrolled_user_list course user :
  Demo.enrolled (demo_unenrolled_user course user)
  = List.filter (fun i => negb (strict_eq i (VStr course)))
      (Demo.enrolled user).
Proof.
  unfold Demo.enrolled at 1, prop, demo_unenrolled_user.
  by rewrite lookup_insert_eq.
Qed.

(** Replacing a user by one with the same id and an array of courses
    keeps the tables well formed, whatever [f] writes on a roster. *)
Lemma well_formed_update st email user user' i f :
  Demo.well_formed st ->
  Demo.demoUsers st !! email = Some user ->
  prop user' "id" = prop user "id" ->
  Demo.well_formed_user user' ->
  (forall c, Demo.Course.id (f c) = Demo.Course.id c) ->
  Demo.well_formed
    (Demo.mkState (<[email := user']> (Demo.demoUsers st))
       (Demo.update_first (Demo.has_id i) f (Demo.demoCourses st))).
Proof.
  intros (Hnd & Hwf & Hids) Hu Hid Hwf' Hf. split; [|split]; simpl.
  - by rewrite update_first_ids.
  - intros e u. rewrite lookup_insert. case_decide; [by intros [= <-]|].
    apply Hwf.
  - intros e1 e2 u1 u2. rewrite !lookup_insert.
    destruct (decide (email = e1)) as [<-|H1];
      destruct (decide (email = e2)) as [<-|H2].
    + done.
    + intros [= <-] H2' _. rewrite Hid. by apply (Hids email e2).
    + intros H1' [= <-] _. rewrite Hid. by apply (Hids e1 email).
    + apply Hids.
Qed.

Lemma demo_enrolled_consistent st email user c i :
  Demo.well_formed st -> Demo.consistent st ->
  Demo.demoUsers st !! email = Some user ->
  find (Demo.has_id i) (Demo.demoCourses st) = Some c ->
  Demo.consistent
    (Demo.mkState
       (<[email := demo_enrolled_user (Demo.Course.id c) user]>
          (Demo.demoUsers st))
       (Demo.update_first (Demo.has_id i) (demo_enrolled_course user)
          (Demo.demoCourses st))).
Proof.
  intros (Hnd & Hwf & Hids) Hcons Hu Hc e u x. simpl.
  destruct (find_has_id _ _ _ Hc) as [Hin Hci].
  destruct (Hwf _ _ Hu) as [[uid Huid%prop_lookup] _].
  rewrite (elem_of_update_first _ _ _ _ _ Hnd Hc), lookup_insert.
  case_decide as He.
  - subst e. intros [= <-].
    rewrite demo_enrolled_user_id, demo_enrolled_user_list, includes_app.
    intros [->|[Hx Hxi]]; simpl.
    + rewrite includes_app, Huid. simpl.
      by rewrite !String.eqb_refl, !orb_true_r.
    + apply String.eqb_neq in Hxi. rewrite <- Hci in Hxi at 1.
      rewrite Hxi, !orb_false_r. exact (Hcons _ _ _ Hu Hx).
  - intros Hu' [->|[Hx Hxi]]; [|exact (Hcons _ _ _ Hu' Hx)].
    simpl. rewrite includes_app, Huid.
    destruct (Hwf _ _ Hu') as [[uid' Huid'%prop_lookup] _].
    assert (uid' <> uid) as Hne%String.eqb_neq.
    { intros ->. apply (Hids e email u user Hu' Hu); congruence. }
    rewrite Huid'. simpl. rewrite Hne, !orb_false_r.
    rewrite <- Huid'. exact (Hcons _ _ _ Hu' Hin).
Qed.

Lemma demo_unenrolled_consistent st email user c i :
  Demo.well_formed st -> Demo.consistent st ->
  Demo.demoUsers st !! email = Some user ->
  find (Demo.has_id i) (Demo.demoCourses st) = Some c ->
  Demo.consistent
    (Demo.mkState
       (<[email := demo_unenrolled_user (Demo.Course.id c) user]>
          (Demo.demoUsers st))
       (Demo.update_first (Demo.has_id i) (demo_unenrolled_course user)
          (Demo.demoCourses st))).
Proof.
  intros (Hnd & Hwf & Hids) Hcons Hu Hc e u x. simpl.
  destruct (find_has_id _ _ _ Hc) as [Hin Hci].
  destruct (Hwf _ _ Hu) as [[uid Huid%prop_lookup] _].
  rewrite (elem_of_update_first _ _ _ _ _ Hnd Hc), lookup_insert.
  unfold demo_unenrolled_course. rewrite Huid.
  case_decide as He.
  - subst e. intros [= <-].
    rewrite demo_unenrolled_user_id, demo_unenrolled_user_list, Huid.
    intros [->|[Hx Hxi]]; simpl.
    + by rewrite !includes_filter, !String.eqb_refl, !andb_false_r.
    + apply String.eqb_neq in Hxi. rewrite <- Hci in Hxi at 1.
      rewrite includes_filter, Hxi, andb_true_r, <- Huid.
      exact (Hcons _ _ _ Hu Hx).
  - intros Hu' [->|[Hx Hxi]]; [|exact (Hcons _ _ _ Hu' Hx)].
    simpl.
    destruct (Hwf _ _ Hu') as [[uid' Huid'%prop_lookup] _].
    assert (uid' <> uid) as Hne%String.eqb_neq.
    { intros ->. apply (Hids e email u user Hu' Hu); congruence. }
    rewrite Huid', includes_filter, Hne, andb_true_r.
    rewrite <- Huid'. exact (Hcons _ _ _ Hu' Hin).
Qed.

Lemma demo_enroll_preserves authorization id st :
  Demo.well_formed st -> Demo.consistent st ->
  Demo.well_formed (Demo.enroll authorization id st).2 /\
  Demo.consistent (Demo.enroll authorization id st).2.
Proof.
  intros Hwf Hcons.
  destruct (Demo.authenticate st authorization) as [msg|[email user]] eqn:Ha;
    [by unfold Demo.enroll; rewrite Ha|].
  pose proof (authenticate_lookup _ _ _ _ Ha) as Hu.
  destruct (strict_eq (prop user "role") (VStr "student")) eqn:Hrole;
    [|by unfold Demo.enroll; rewrite Ha, Hrole].
  apply strict_eq_VStr_r in Hrole.
  destruct (find (Demo.has_id id) (Demo.demoCourses st)) as [c|] eqn:Hc;
    [|by unfold Demo.enroll; rewrite Ha, Hrole, Hc].
  destruct (includes (prop user "id") (Demo.Course.enrolledStudents c))
    eqn:Hin; [by unfold Demo.enroll; rewrite Ha, Hrole, Hc, Hin|].
  assert (Demo.well_formed_user user) as Hwfu by (by eapply Hwf).
  rewrite (demo_enroll_run _ _ _ _ _ _ Ha Hrole Hwfu Hc Hin). simpl. split.
  - apply well_formed_update with (user := user); try done.
    + apply demo_enrolled_user_id.
    + destruct Hwfu as [[uid Huid] _]. split.
      * exists uid. unfold demo_enrolled_user. by rewrite lookup_insert_ne.
      * right. eexists. apply lookup_insert_eq.
  - by apply demo_enrolled_consistent.
Qed.

(** In consistent tables a student found on a roster has an array of
    enrolled courses. *)
Lemma enrolled_is_array st email user c :
  Demo.well_formed st -> Demo.consistent st ->
  Demo.demoUsers st !! email = Some user ->
  c ∈ Demo.demoCourses st ->
  includes (prop user "id") (Demo.Course.enrolledStudents c) = true ->
  exists l, user !! "enrolledCourses" = Some (VArr l).
Proof.
  intros (_ & Hwf & _) Hcons Hu Hc Hin.
  apply (Hcons _ _ _ Hu Hc) in Hin.
  destruct (Hwf _ _ Hu) as [_ [Hnone|Hl]]; [|done].
  unfold Demo.enrolled, prop in Hin. by rewrite Hnone in Hin.
Qed.

Lemma demo_unenroll_preserves authorization id st :
  Demo.well_formed st -> Demo.consistent st ->
  Demo.well_formed (Demo.unenroll authorization id st).2 /\
  Demo.consistent (Demo.unenroll authorization id st).2.
Proof.
  intros Hwf Hcons.
  destruct (Demo.authenticate st authorization) as [msg|[email user]] eqn:Ha;
    [by unfold Demo.unenroll; rewrite Ha|].
  pose proof (authenticate_lookup _ _ _ _ Ha) as Hu.
  destruct (find (Demo.has_id id) (Demo.demoCourses st)) as [c|] eqn:Hc;
    [|by unfold Demo.unenroll; rewrite Ha, Hc].
  destruct (includes (prop user "id") (Demo.Course.enrolledStudents c))
    eqn:Hin; [|by unfold Demo.unenroll; rewrite Ha, Hc, Hin].
  destruct (find_has_id _ _ _ Hc) as [Hcin _].
  destruct (enrolled_is_array _ _ _ _ Hwf Hcons Hu Hcin Hin) as [l Hl].
  assert (Demo.well_formed_user user) as Hwfu by (by eapply Hwf).
  rewrite (demo_unenroll_run _ _ _ _ _ _ _ Ha Hl Hc Hin). simpl. split.
  - apply well_formed_update with (user := user); try done.
    + apply demo_unenrolled_user_id.
    + destruct Hwfu as [[uid Huid] _]. split.
      * exists uid. unfold demo_unenrolled_user. by rewrite lookup_insert_ne.
      * right. eexists. apply lookup_insert_eq.
  - by apply demo_unenrolled_consistent.
Qed.

Example full_db_values :
  Db.enroll 5 "bob" "c1" [] full_db = (failure 400 "Course is full", full_db)
  /\ (Db.enroll 5 "alice" "c1" [] full_db).1
     = failure 400 "Already enrolled in this course"
  /\ Course.enrolledStudents <$>
       Db.courses (Db.updateCourse root "c1" shrink_body [] pair_db).2 !! "c1"
     = Some ["alice"; "bob"]
  /\ Course.capacity <$>
       Db.courses (Db.updateCourse root "c1" shrink_body [] pair_db).2 !! "c1"
     = Some 1%Z
  /\ User.role <$>
       Db.users (Db.putProfile accept "alice" promote_body [] fresh_db).2
         !! "alice"
     = Some "admin"
  /\ (Demo.enroll student_header "3" Demo.initial).1.(status) = 200%nat
  /\ (Demo.enroll student_header "1" Demo.initial).1
     = failure 400 "Already enrolled in this course"
  /\ (Demo.enroll admin_header "3" Demo.initial).1.(status) = 403%nat.
Proof. repeat split; vm_compute; reflexivity. Qed.

Lemma fresh_db_consistent : Db.consistent fresh_db.
Proof.
  intros s u c co Hu Hc. simpl in Hu, Hc.
  apply lookup_singleton_Some in Hc as [<- <-].
  apply lookup_insert_Some in Hu as [[<- <-]|[_ Hu]].
  - simpl. by rewrite !elem_of_nil.
  - apply lookup_singleton_Some in Hu as [<- <-]. simpl.
    by rewrite !elem_of_nil.
Qed.

Lemma fresh_db_within_capacity : Db.within_capacity fresh_db.
Proof.
  intros i c Hc. simpl in Hc. by apply lookup_singleton_Some in Hc as [<- <-].
Qed.

Lemma pair_db_within_capacity : Db.within_capacity pair_db.
Proof.
  intros i c Hc. simpl in Hc. by apply lookup_singleton_Some in Hc as [<- <-].
Qed.

(** ** The in-memory server: writes through [find] *)

Lemma find_update_first i f l c :
  (forall c, Demo.Course.id (f c) = Demo.Course.id c) ->
  find (Demo.has_id i) l = Some c ->
  find (Demo.has_id i) (Demo.update_first (Demo.has_id i) f l) = Some (f c).
Proof.
  intros Hf. induction l as [|c0 l IH]; simpl; [done|].
  destruct (Demo.has_id i c0) eqn:Hc0.
  - intros [= <-]. simpl. unfold Demo.has_id in *. by rewrite Hf, Hc0.
  - intros Hc. simpl. rewrite Hc0. by apply IH.
Qed.

Lemma update_first_twice i f g l :
  (forall c, Demo.Course.id (f c) = Demo.Course.id c) ->
  Demo.update_first (Demo.has_id i) g (Demo.update_first (Demo.has_id i) f l)
  = Demo.update_first (Demo.has_id i) (fun c => g (f c)) l.
Proof.
  intros Hf. induction l as [|c0 l IH]; simpl; [done|].
  destruct (Demo.has_id i c0) eqn:Hc0; simpl.
  - unfold Demo.has_id in *. by rewrite Hf, Hc0.
  - by rewrite Hc0, IH.
Qed.

Lemma update_first_found p f l c :
  find p l = Some c -> f c = c -> Demo.update_first p f l = l.
Proof.
  intros Hc Hf. induction l as [|c0 l IH]; simpl in *; [done|].
  destruct (p c0).
  - injection Hc as ->. by rewrite Hf.
  - by rewrite IH.
Qed.

Lemma length_update_first p f l :
  length (Demo.update_first p f l) = length l.
Proof.
  induction l as [|c l IH]; simpl; [done|].
  destruct (p c); simpl; by rewrite ?IH.
Qed.

(** The caller a token stands for depends on the users only through the
    entry under the caller's address. *)
Lemma authenticate_insert st authorization email user user' cs :
  Demo.authenticate st authorization = inr (email, user) ->
  Demo.authenticate
    (Demo.mkState (<[email := user']> (Demo.demoUsers st)) cs) authorization
  = inr (email, user').
Proof.
  unfold Demo.authenticate, Demo.validateSimpleToken. simpl.
  destruct (Demo.bearer authorization) as [token|]; [|done].
  destruct (negb _); [done|]. destruct (_ <? _)%nat; [done|].
  destruct (String.eqb _ "1");
    (destruct (Demo.demoUsers st !! _) as [u|] eqn:Hu; simpl; [|done]);
    intros [= <- <-]; by rewrite lookup_insert_eq.
Qed.

Lemma filter_not_included a l :
  includes (VStr a) l = false ->
  List.filter (fun i => negb (strict_eq i (VStr a))) l = l.
Proof.
  induction l as [|x l IH]; simpl; [done|].
  intros [Hx Hl]%orb_false_elim.
  assert (strict_eq x (VStr a) = false) as ->.
  { destruct x; try done. simpl in *. by rewrite String.eqb_sym. }
  simpl. by rewrite IH.
Qed.

Lemma filter_snoc_out a l :
  includes (VStr a) l = false ->
  List.filter (fun i => negb (strict_eq i (VStr a))) (l ++ [VStr a]) = l.
Proof.
  intros H. rewrite List.filter_app, (filter_not_included _ _ H).
  cbn [List.filter]. rewrite strict_eq_VStr_refl. apply app_nil_r.
Qed.








(** * The properties of the specification *)

(** C1 (counterexample).  Two runs against the claim as stated.  A course
    update by an administrator lowers the capacity of a course with two
    students to 1: the roster then exceeds the capacity.  And an Enroll
    request against a course whose roster size equals its capacity is
    answered with Conflict, not CapacityExceeded, when the student is the
    one already on the roster. *)
Lemma capacity_claim_fails :
  (Db.within_capacity pair_db /\
   ~ Db.within_capacity
       (Db.run accept [(Db.UpdateCourse root "c1" shrink_body, [])] pair_db))
  /\
  (Db.courses full_db !! "c1" = Some (sample_course 1 ["alice"]) /\
   Course.enrolledCount (sample_course 1 ["alice"])
   = Course.capacity (sample_course 1 ["alice"]) /\
   error_kind (Db.enroll 5 "alice" "c1" [] full_db).1 = Some Conflict).
Proof.
  split; [split; [apply pair_db_within_capacity|]|by vm_compute].
  intros Hinv.
  specialize (Hinv "c1"
    (Course.mk "CS101" "Introduction to Computer Science" "Dr. Smith" None
       "Computer Science" 1 3 1 ["alice"; "bob"] true 0)).
  vm_compute in Hinv. by specialize (Hinv eq_refl eq_refl).
Qed.

(** C1 (amended).  On the database-backed routers every sequence of
    requests other than course updates (Enroll, Unenroll, course
    soft-delete, user status, role and profile changes, user deletion),
    under any store faults, keeps the size of every roster within the
    capacity of its course, so that no course has a negative number of
    available seats; and an Enroll request against an active course whose
    roster is full, by a student who is not on the roster, is answered
    with CapacityExceeded and leaves both stores unchanged. *)
Theorem capacity_respected :
  (forall vr reqs db,
     Forall (fun rq => Db.is_UpdateCourse rq.1 = false) reqs ->
     Db.within_capacity db ->
     Db.within_capacity (Db.run vr reqs db) /\
     forall id c, Db.courses (Db.run vr reqs db) !! id = Some c ->
                  (0 <= Course.availableSeats c)%Z) /\
  (forall now student course c db,
     Db.courses db !! course = Some c ->
     Course.isActive c = true ->
     student ∉ Course.enrolledStudents c ->
     (Course.capacity c <= Course.enrolledCount c)%Z ->
     Db.enroll now student course [] db = (failure 400 "Course is full", db) /\
     error_kind (Db.enroll now student course [] db).1
     = Some CapacityExceeded).
Proof.
  split.
  - intros vr reqs db Hreqs Hinv.
    pose proof (run_within_capacity vr reqs db Hreqs Hinv) as Hinv'.
    split; [done|]. intros id c Hc. specialize (Hinv' _ _ Hc).
    unfold Course.availableSeats, Course.enrolledCount in *. lia.
  - intros now student course c db Hc Ha Hnew Hfull.
    assert (Db.enroll now student course [] db
            = (failure 400 "Course is full", db)) as ->; [|done].
    rewrite enroll_no_fault, Hc, Ha. simpl.
    rewrite bool_decide_false by done.
    apply Z.leb_le in Hfull. by rewrite Hfull.
Qed.

Lemma capacity_respected_witness :
  Db.within_capacity
    (Db.run accept
       [(Db.Enroll 1 "alice" "c1", []); (Db.Enroll 2 "bob" "c1", [false; true]);
        (Db.Unenroll 3 "alice" "c1", []); (Db.DeleteUser "root" "bob", [])]
       fresh_db) /\
  Db.enroll 5 "bob" "c1" [] full_db = (failure 400 "Course is full", full_db).
Proof.
  split.
  - apply (proj1 capacity_respected accept).
    + repeat constructor.
    + apply fresh_db_within_capacity.
  - apply (proj2 capacity_respected 5%Z "bob" "c1" (sample_course 1 ["alice"])).
    + reflexivity.
    + reflexivity.
    + simpl. by intros [=]%list_elem_of_singleton.
    + by vm_compute.
Defined.

Lemma initial_well_formed : Demo.well_formed Demo.initial.
Proof.
  split; [|split].
  - simpl. compute_done.
  - intros email user Hu. simpl in Hu. unfold Demo.initialUsers in Hu.
    apply lookup_insert_Some in Hu as [[<- <-]|[_ Hu]].
    + split; [by exists "1"|right; by eexists].
    + apply lookup_singleton_Some in Hu as [<- <-].
      split; [by exists "2"|by left].
  - intros e1 e2 u1 u2 H1 H2 Hne. simpl in H1, H2.
    unfold Demo.initialUsers in H1, H2.
    apply lookup_insert_Some in H1 as [[<- <-]|[_ H1]];
      apply lookup_insert_Some in H2 as [[<- <-]|[_ H2]]; try done;
      try (apply lookup_singleton_Some in H1 as [<- <-]);
      try (apply lookup_singleton_Some in H2 as [<- <-]); done.
Qed.

Lemma initial_consistent : Demo.consistent Demo.initial.
Proof.
  intros email user c Hu Hc. simpl in Hu, Hc.
  unfold Demo.initialUsers in Hu. unfold Demo.initialCourses in Hc.
  rewrite !elem_of_cons, elem_of_nil in Hc.
  apply lookup_insert_Some in Hu as [[<- <-]|[_ Hu]];
    [|apply lookup_singleton_Some in Hu as [<- <-]];
    destruct Hc as [->|[->|[->|[->|[->|[]]]]]]; by vm_compute.
Qed.

Lemma consistent_check_spec st :
  Demo.consistent_check st = true <-> Demo.consistent st.
Proof.
  unfold Demo.consistent_check, Demo.consistent.
  rewrite forallb_forall. split.
  - intros H email user c Hu Hc.
    apply elem_of_map_to_list, list_elem_of_In in Hu.
    specialize (H _ Hu). rewrite forallb_forall in H.
    apply list_elem_of_In in Hc. specialize (H _ Hc). simpl in H.
    apply Bool.eqb_prop in H. by rewrite H.
  - intros H [email user] Hu%list_elem_of_In%elem_of_map_to_list.
    rewrite forallb_forall. intros c Hc%list_elem_of_In. simpl.
    specialize (H email user c Hu Hc).
    apply eq_true_iff_eq in H. rewrite H. apply Bool.eqb_reflx.
Qed.

Lemma pair_db_consistent : Db.consistent pair_db.
Proof.
  intros s u c co Hu Hc. simpl in Hu, Hc.
  apply lookup_singleton_Some in Hc as [<- <-].
  apply lookup_insert_Some in Hu as [[<- <-]|[_ Hu]].
  - simpl. rewrite list_elem_of_singleton. split; [done|]. intros _.
    apply list_elem_of_here.
  - apply lookup_singleton_Some in Hu as [<- <-]. simpl.
    rewrite list_elem_of_singleton. split; [done|]. intros _.
    apply list_elem_of_further, list_elem_of_here.
Qed.

(** C2 (counterexample).  Two runs of a request against the claim as
    stated.  On the router the store accepts the look-up of the course and
    the write of the roster of an Unenroll and fails at the update of the
    student: Alice is off the roster and the course is still on her list.
    On the in-memory server the built-in student has taken, by a profile
    update, the id of another student: the tables are consistent, the
    student's Enroll succeeds, and the other student, whose id is on the
    roster now, does not have the course on her list. *)
Lemma consistency_claim_fails :
  (let run := Db.unenroll 1 "alice" "c1" [false; false; true] pair_db in
   Db.consistent pair_db /\
   error_kind run.1 = Some ServerFault /\
   Course.enrolledStudents <$> Db.courses run.2 !! "c1" = Some ["bob"] /\
   User.enrolledCourses <$> Db.users run.2 !! "alice" = Some ["c1"] /\
   ~ Db.consistent run.2) /\
  (let run := Demo.enroll student_header "3" shared_id in
   Demo.consistent shared_id /\
   success run.1 = true /\
   ~ Demo.consistent run.2).
Proof.
  split.
  - split; [apply pair_db_consistent|].
    split; [by vm_compute|split; [by vm_compute|split; [by vm_compute|]]].
    intros Hinv.
    specialize (Hinv "alice" (sample_user "alice" "student" ["c1"]) "c1"
                  (unenrolled_course 1 "alice"
                     (sample_course 2 ["alice"; "bob"]))).
    vm_compute in Hinv. destruct (Hinv eq_refl eq_refl) as [_ H].
    specialize (H (list_elem_of_here _ _)).
    apply list_elem_of_singleton in H. discriminate H.
  - split; [|split].
    + apply consistent_check_spec. vm_compute. reflexivity.
    + vm_compute. reflexivity.
    + intros H%consistent_check_spec. vm_compute in H. discriminate H.
Qed.

(** C2 (amended).  Bidirectional consistency (a student is on the roster
    of a course exactly when the course is on the student's list of
    enrolled courses) is preserved by Enroll and Unenroll on the
    database-backed router in every run without store fault, and more
    generally in every run that does not end in a server error; on the
    in-memory server in every run from well-formed tables (unique course
    ids, users with a string id of their own and an array, or nothing, as
    list of enrolled courses), which the requests keep well formed. *)
Theorem consistency_preserved :
  (forall now student course db,
     Db.consistent db ->
     Db.consistent (Db.enroll now student course [] db).2 /\
     Db.consistent (Db.unenroll now student course [] db).2) /\
  (forall now student course fs db,
     Db.consistent db ->
     (status (Db.enroll now student course fs db).1 <> 500 ->
      Db.consistent (Db.enroll now student course fs db).2) /\
     (status (Db.unenroll now student course fs db).1 <> 500 ->
      Db.consistent (Db.unenroll now student course fs db).2)) /\
  (forall authorization id st,
     Demo.well_formed st -> Demo.consistent st ->
     (Demo.well_formed (Demo.enroll authorization id st).2 /\
      Demo.consistent (Demo.enroll authorization id st).2) /\
     (Demo.well_formed (Demo.unenroll authorization id st).2 /\
      Demo.consistent (Demo.unenroll authorization id st).2)).
Proof.
  split; [|split].
  - intros now student course db Hinv. split.
    + rewrite enroll_no_fault.
      destruct (Db.courses db !! course) as [c|] eqn:Hc; [|done].
      destruct (Course.isActive c) eqn:Ha; [|done]. simpl.
      case_bool_decide; [done|].
      destruct (Z.leb_spec (Course.capacity c) (Course.enrolledCount c));
        [done|].
      by apply consistent_enrolled.
    + rewrite unenroll_no_fault.
      destruct (Db.courses db !! course) as [c|] eqn:Hc; [|done].
      case_bool_decide; [|done]. by apply consistent_unenrolled.
  - intros now student course fs db Hinv. split; intros Hr.
    + by apply enroll_consistent.
    + by apply unenroll_consistent.
  - intros authorization id st Hwf Hinv. split.
    + by apply demo_enroll_preserves.
    + by apply demo_unenroll_preserves.
Qed.

Lemma consistency_preserved_witness :
  Db.consistent (Db.enroll 1 "alice" "c1" [] fresh_db).2 /\
  Db.consistent (Db.unenroll 1 "alice" "c1" [false; true] fresh_db).2 /\
  Demo.consistent (Demo.enroll student_header "3" Demo.initial).2 /\
  Demo.consistent (Demo.unenroll student_header "1" Demo.initial).2.
Proof.
  destruct consistency_preserved as (Hdb & Hfs & Hdemo).
  split; [|split; [|split]].
  - apply Hdb, fresh_db_consistent.
  - apply Hfs; [apply fresh_db_consistent|]. by vm_compute.
  - apply Hdemo; [apply initial_well_formed|apply initial_consistent].
  - apply Hdemo; [apply initial_well_formed|apply initial_consistent].
Defined.
(** C3 (counterexample).  The store accepts the look-up of the course and
    the write of the roster and fails at the update of the student: the
    caller gets a server error, Alice is on the roster of the course and
    the course is not on Alice's list. *)
Lemma atomicity_claim_fails :
  let run := Db.enroll 1 "alice" "c1" [false; false; true] fresh_db in
  error_kind run.1 = Some ServerFault /\
  Course.enrolledStudents <$> Db.courses run.2 !! "c1" = Some ["alice"] /\
  User.enrolledCourses <$> Db.users run.2 !! "alice" = Some [] /\
  ~ Db.consistent run.2.
Proof.
  split; [by vm_compute|split; [by vm_compute|split; [by vm_compute|]]].
  intros Hinv.
  specialize (Hinv "alice" (sample_user "alice" "student" []) "c1"
                (enrolled_course 1 "alice" (sample_course 30 []))).
  vm_compute in Hinv. destruct (Hinv eq_refl eq_refl) as [H _].
  specialize (H (list_elem_of_here _ _)). by apply elem_of_nil in H.
Qed.

Lemma enroll_early_fault now student course fs db :
  (Db.enroll now student course (true :: fs) db).2 = db /\
  (Db.enroll now student course (false :: true :: fs) db).2 = db.
Proof.
  unfold Db.enroll, Db.try_catch, Db.enroll_body, Db.bind, Db.Course_findById,
    Db.Course_save, Db.call, Db.ret, Db.throw.
  find_by_id (Db.courses db) course c Hc; [|done..].
  split; [done|]. simpl.
  destruct (negb _); [done|]. case_bool_decide; [done|].
  by destruct (_ <=? _)%Z.
Qed.

Lemma unenroll_early_fault now student course fs db :
  (Db.unenroll now student course (true :: fs) db).2 = db /\
  (Db.unenroll now student course (false :: true :: fs) db).2 = db.
Proof.
  unfold Db.unenroll, Db.try_catch, Db.unenroll_body, Db.bind,
    Db.Course_findById, Db.Course_save, Db.call, Db.ret, Db.throw.
  find_by_id (Db.courses db) course c Hc; [|done..].
  split; [done|]. simpl.
  by case_bool_decide.
Qed.

(** The store fails at the third call, the update of the student. *)
Lemma enroll_late_fault now student course c fs db :
  can_enroll db student course c ->
  Db.enroll now student course (false :: false :: true :: fs) db
  = (failure 500 "Server error enrolling in course",
     Db.mkDB (<[course := enrolled_course now student c]> (Db.courses db))
             (Db.users db)).
Proof.
  intros (Hc & Ha & Hnew & Hfree).
  unfold Db.enroll, Db.try_catch, Db.enroll_body, Db.bind, Db.Course_findById,
    Db.Course_save, Db.User_addToSet_enrolledCourses, Db.call, Db.ret,
    Db.throw, Course.enrolledCount in *.
  rewrite (castable_found _ _ _ Hc). simpl. rewrite Hc, Ha. simpl.
  rewrite bool_decide_false by done.
  destruct (Z.leb_spec (Course.capacity c)
              (Z.of_nat (length (Course.enrolledStudents c)))); [lia|done].
Qed.

Lemma unenroll_late_fault now student course c fs db :
  can_unenroll db student course c ->
  Db.unenroll now student course (false :: false :: true :: fs) db
  = (failure 500 "Server error unenrolling from course",
     Db.mkDB (<[course := unenrolled_course now student c]> (Db.courses db))
             (Db.users db)).
Proof.
  intros (Hc & Hin).
  unfold Db.unenroll, Db.try_catch, Db.unenroll_body, Db.bind,
    Db.Course_findById, Db.Course_save, Db.User_pull_enrolledCourses, Db.call,
    Db.ret, Db.throw.
  rewrite (castable_found _ _ _ Hc). simpl. rewrite Hc. simpl.
  by rewrite bool_decide_true.
Qed.

(** Without store fault a run ends in a server error exactly when the id
    of the request is neither the id of a course nor an ObjectId. *)
Lemma enroll_no_fault_status now student course db :
  status (Db.enroll now student course [] db).1 = 500 <->
  Db.castable (Db.courses db) course = false.
Proof.
  rewrite enroll_no_fault.
  destruct (Db.courses db !! course) as [c|] eqn:Hc.
  - rewrite (castable_found _ _ _ Hc).
    destruct (negb _); [done|]. case_bool_decide; [done|].
    by destruct (_ <=? _)%Z.
  - rewrite (castable_missing _ _ Hc). by destruct (Db.is_ObjectId course).
Qed.

Lemma unenroll_no_fault_status now student course db :
  status (Db.unenroll now student course [] db).1 = 500 <->
  Db.castable (Db.courses db) course = false.
Proof.
  rewrite unenroll_no_fault.
  destruct (Db.courses db !! course) as [c|] eqn:Hc.
  - rewrite (castable_found _ _ _ Hc). by case_bool_decide.
  - rewrite (castable_missing _ _ Hc). by destruct (Db.is_ObjectId course).
Qed.

Lemma enroll_no_fault_unchanged now student course db :
  success (Db.enroll now student course [] db).1 = false ->
  (Db.enroll now student course [] db).2 = db.
Proof.
  destruct (enroll_cases now student course [] db)
    as [[-> _]|(c & Hc & [[_ Hr]|[_ Hr]])]; [done| |by rewrite Hr].
  intros _. exfalso.
  assert (status (Db.enroll now student course [] db).1 = 500) as Hs
    by by rewrite Hr.
  apply enroll_no_fault_status in Hs.
  by rewrite (castable_found _ _ _ (proj1 Hc)) in Hs.
Qed.

Lemma unenroll_no_fault_unchanged now student course db :
  success (Db.unenroll now student course [] db).1 = false ->
  (Db.unenroll now student course [] db).2 = db.
Proof.
  destruct (unenroll_cases now student course [] db)
    as [[-> _]|(c & Hc & [[_ Hr]|[_ Hr]])]; [done| |by rewrite Hr].
  intros _. exfalso.
  assert (status (Db.unenroll now student course [] db).1 = 500) as Hs
    by by rewrite Hr.
  apply unenroll_no_fault_status in Hs.
  by rewrite (castable_found _ _ _ (proj1 Hc)) in Hs.
Qed.

(** C3 (amended).  Enroll and Unenroll write the course first and the
    student second, without transaction or rollback.  A run that answers
    with success has updated both sides: the student is on (off) the
    stored roster and the course is on (off) the stored list of the
    student, when the student has a document.  A run that answers with a
    rejection other than a server error, and a run in which the store
    fails at the first or second call, has updated neither.  Without
    store faults a run ends in a server error only for an id that is
    neither the id of a course nor an ObjectId, and every run that is not
    a success has updated neither side.  When the store fails at the
    third call, the update of the student, the roster written before
    stays, the student is as before and the answer is a server error. *)
Theorem two_sided_update :
  forall now student course fs db,
    let e := Db.enroll now student course fs db in
    let u := Db.unenroll now student course fs db in
    (success e.1 = true ->
     exists c, can_enroll db student course c /\
       e.2 = Db.mkDB (<[course := enrolled_course now student c]> (Db.courses db))
                     (alter (enrolled_user course) student (Db.users db)) /\
       (exists c', Db.courses e.2 !! course = Some c' /\
                   student ∈ Course.enrolledStudents c') /\
       (forall u0, Db.users db !! student = Some u0 ->
          exists u', Db.users e.2 !! student = Some u' /\
                     course ∈ User.enrolledCourses u')) /\
    (success u.1 = true ->
     exists c, can_unenroll db student course c /\
       u.2 = Db.mkDB (<[course := unenrolled_course now student c]> (Db.courses db))
                     (alter (unenrolled_user course) student (Db.users db)) /\
       (exists c', Db.courses u.2 !! course = Some c' /\
                   student ∉ Course.enrolledStudents c') /\
       (forall u0, Db.users db !! student = Some u0 ->
          exists u', Db.users u.2 !! student = Some u' /\
                     course ∉ User.enrolledCourses u')) /\
    (status e.1 <> 500 -> success e.1 = false -> e.2 = db) /\
    (status u.1 <> 500 -> success u.1 = false -> u.2 = db) /\
    (fs = [] ->
     (status e.1 = 500 <-> Db.castable (Db.courses db) course = false) /\
     (status u.1 = 500 <-> Db.castable (Db.courses db) course = false) /\
     (success e.1 = false -> e.2 = db) /\
     (success u.1 = false -> u.2 = db)) /\
    ((exists fs', fs = true :: fs' \/ fs = false :: true :: fs') ->
     e.2 = db /\ u.2 = db) /\
    (forall c fs',
       fs = false :: false :: true :: fs' ->
       (can_enroll db student course c ->
        e = (failure 500 "Server error enrolling in course",
             Db.mkDB (<[course := enrolled_course now student c]> (Db.courses db))
                     (Db.users db))) /\
       (can_unenroll db student course c ->
        u = (failure 500 "Server error unenrolling from course",
             Db.mkDB (<[course := unenrolled_course now student c]> (Db.courses db))
                     (Db.users db)))).
Proof.
  intros now student course fs db e u.
  pose proof (enroll_cases now student course fs db) as He.
  pose proof (unenroll_cases now student course fs db) as Hu.
  fold e in He. fold u in Hu. simpl in He, Hu.
  split; [|split; [|split; [|split; [|split; [|split]]]]].
  - intros Hs. destruct He as [[_ Hf]|(c & Hc & [[_ Hr]|[Hdb _]])].
    + congruence.
    + by rewrite Hr in Hs.
    + exists c. split; [done|]. split; [done|]. rewrite Hdb. simpl. split.
      * eexists. split; [apply lookup_insert_eq|]. simpl.
        apply elem_of_app. right. by apply list_elem_of_singleton.
      * intros u0 Hu0. exists (enrolled_user course u0).
        rewrite lookup_alter_eq, Hu0. split; [done|]. simpl.
        apply elem_of_addToSet. by left.
  - intros Hs. destruct Hu as [[_ Hf]|(c & Hc & [[_ Hr]|[Hdb _]])].
    + congruence.
    + by rewrite Hr in Hs.
    + exists c. split; [done|]. split; [done|]. rewrite Hdb. simpl. split.
      * eexists. split; [apply lookup_insert_eq|]. simpl.
        rewrite list_elem_of_filter. tauto.
      * intros u0 Hu0. exists (unenrolled_user course u0).
        rewrite lookup_alter_eq, Hu0. split; [done|]. simpl.
        rewrite elem_of_pull. tauto.
  - intros H500 Hs. destruct He as [[Hdb _]|(c & Hc & [[_ Hr]|[_ Hr]])].
    + done.
    + by rewrite Hr in H500.
    + by rewrite Hr in Hs.
  - intros H500 Hs. destruct Hu as [[Hdb _]|(c & Hc & [[_ Hr]|[_ Hr]])].
    + done.
    + by rewrite Hr in H500.
    + by rewrite Hr in Hs.
  - intros ->. subst e u.
    split; [apply enroll_no_fault_status|].
    split; [apply unenroll_no_fault_status|].
    split; [apply enroll_no_fault_unchanged|apply unenroll_no_fault_unchanged].
  - intros [fs' [->| ->]]; subst e u; split;
      first [apply enroll_early_fault|apply unenroll_early_fault].
  - intros c fs' ->. subst e u. split.
    + apply enroll_late_fault.
    + apply unenroll_late_fault.
Qed.

Lemma two_sided_update_witness :
  (Db.enroll 1 "alice" "c1" [] fresh_db).2
  = Db.mkDB (<["c1" := enrolled_course 1 "alice" (sample_course 30 [])]>
               (Db.courses fresh_db))
            (alter (enrolled_user "c1") "alice" (Db.users fresh_db)) /\
  (Db.enroll 1 "alice" "c1" [] full_db).2 = full_db /\
  (Db.unenroll 1 "alice" "c1" [false; true] full_db).2 = full_db /\
  (Db.unenroll 1 "alice" "c1" [false; false; true] full_db).1
  = failure 500 "Server error unenrolling from course".
Proof.
  split; [|split; [|split]].
  - destruct (proj1 (two_sided_update 1 "alice" "c1" [] fresh_db))
      as (c & (Hc & _) & -> & _); [reflexivity|].
    vm_compute in Hc. by injection Hc as <-.
  - destruct (two_sided_update 1 "alice" "c1" [] full_db)
      as (_ & _ & H & _).
    apply H; [by vm_compute|reflexivity].
  - destruct (two_sided_update 1 "alice" "c1" [false; true] full_db)
      as (_ & _ & _ & _ & _ & H & _).
    apply H. exists []. by right.
  - destruct (two_sided_update 1 "alice" "c1" [false; false; true] full_db)
      as (_ & _ & _ & _ & _ & _ & H).
    destruct (H (sample_course 1 ["alice"]) [] eq_refl) as [_ Hu].
    rewrite Hu; [reflexivity|]. split; [reflexivity|].
    apply list_elem_of_here.
Defined.






Lemma demo_unenrolled_user_role course user :
  prop (demo_unenrolled_user course user) "role" = prop user "role".
Proof. unfold prop, demo_unenrolled_user. by rewrite lookup_insert_ne. Qed.




(** C6.  A request of an administrator to toggle the active status or to
    change the role of their own account is rejected as forbidden (status
    400, "Cannot deactivate your own account" and "Cannot change your own
    role") and the database, hence the account, is as before; whatever the
    body and the store faults, such a request never changes the
    database. *)
Theorem self_change_forbidden :
  forall me u db,
    Db.users db !! me = Some u ->
    (Db.toggleStatus me me [] db
     = (failure 400 "Cannot deactivate your own account", db) /\
     error_kind (Db.toggleStatus me me [] db).1 = Some Forbidden) /\
    (forall body r,
       prop body "role" = VStr r -> Db.valid_role r = true ->
       Db.updateRole me me body [] db
       = (failure 400 "Cannot change your own role", db) /\
       error_kind (Db.updateRole me me body [] db).1 = Some Forbidden) /\
    (forall body fs,
       (Db.toggleStatus me me fs db).2 = db /\
       (Db.updateRole me me body fs db).2 = db /\
       success (Db.toggleStatus me me fs db).1 = false /\
       success (Db.updateRole me me body fs db).1 = false).
Proof.
  intros me u db Hu. split; [|split].
  - by rewrite (toggleStatus_self me u db Hu).
  - intros body r Hr Hv. by rewrite (updateRole_self me u body r db Hu Hr Hv).
  - intros body fs.
    split; [apply toggleStatus_self_unchanged|].
    split; [apply updateRole_self_unchanged|]. split.
    + unfold Db.toggleStatus, Db.try_catch, Db.toggleStatus_body, Db.bind,
        Db.User_findById, Db.call, Db.ret.
      rewrite String.eqb_refl, (castable_found _ _ _ Hu).
      destruct fs as [|[] fs]; simpl; by rewrite ?Hu.
    + unfold Db.updateRole, Db.try_catch, Db.updateRole_body, Db.bind,
        Db.User_findById, Db.call, Db.ret.
      rewrite String.eqb_refl. destruct (_ || _); [done|].
      rewrite (castable_found _ _ _ Hu).
      destruct fs as [|[] fs]; simpl; by rewrite ?Hu.
Qed.

Lemma self_change_forbidden_witness :
  Db.toggleStatus "root" "root" [] staff_db
  = (failure 400 "Cannot deactivate your own account", staff_db) /\
  Db.updateRole "root" "root" instructor_body [] staff_db
  = (failure 400 "Cannot change your own role", staff_db) /\
  User.isActive <$> Db.users staff_db !! "root" = Some true.
Proof.
  destruct (self_change_forbidden "root" (sample_user "root" "admin" [])
              staff_db) as ([H1 _] & H2 & _); [reflexivity|].
  split; [exact H1|split; [|reflexivity]].
  apply (H2 instructor_body "instructor"); reflexivity.
Defined.



(** C9.  The role update of an administrator changes the role and nothing
    else: for every user other than the caller and every valid role the
    user is written back with the new role and the same studentId,
    department and semester, also when a student becomes an administrator
    or instructor; the guard of the branch that would reset these fields
    reads the role after the assignment and never holds. *)
Theorem role_update_frame :
  forall me id body r u db,
    Db.users db !! id = Some u -> id <> me ->
    prop body "role" = VStr r -> Db.valid_role r = true ->
    Db.updateRole me id body [] db
    = (ok (String.append "User role updated to " r) (Some (User.set_role r u)),
       Db.mkDB (Db.courses db) (<[id := User.set_role r u]> (Db.users db))) /\
    (forall fs u',
       Db.users (Db.updateRole me id body fs db).2 !! id = Some u' ->
       u' = User.set_role (User.role u') u /\
       User.studentId u' = User.studentId u /\
       User.department u' = User.department u /\
       User.semester u' = User.semester u) /\
    String.eqb (User.role (User.set_role r u)) "student"
    && negb (strict_eq (VStr r) (VStr "student")) = false.
Proof.
  intros me id body r u db Hu Hne Hr Hv. split; [|split].
  - by apply updateRole_run.
  - intros fs u' Hu'.
    pose proof (updateRole_frame me id body fs db u u' Hu Hu') as Heq.
    split; [done|]. by rewrite Heq.
  - apply clear_branch_dead.
Qed.

Lemma role_update_frame_witness :
  Db.users (Db.updateRole "root" "alice" instructor_body [] staff_db).2
    !! "alice"
  = Some (User.mk "alice" "alice@test.com" (Some "hash") "instructor"
            (Some "S123456") "Computer Science" 2 None None None ["c1"] true 0).
Proof.
  destruct (role_update_frame "root" "alice" instructor_body "instructor"
              (sample_user "alice" "student" ["c1"]) staff_db)
    as (-> & _); try reflexivity; done.
Defined.

(** C8 (the code at the failing input).  A student sends the profile
    update [{ "$set": { "role": "admin" } }].  The validator chain has no
    rule for it; the handler deletes the top-level keys email, role,
    password and studentId, of which the body has none, and hands the rest
    to [findByIdAndUpdate], which runs the operator: the stored role of
    the student is "admin" afterwards. *)
Theorem profile_update_operator :
  forall validationResult,
    validationResult promote_body = (promote_body, true) ->
    User.role <$> Db.users fresh_db !! "alice" = Some "student" /\
    success (Db.putProfile validationResult "alice" promote_body [] fresh_db).1
    = true /\
    User.role <$>
      Db.users (Db.putProfile validationResult "alice" promote_body []
                  fresh_db).2 !! "alice"
    = Some "admin".
Proof.
  intros vr Hvr. split; [reflexivity|].
  unfold Db.putProfile, Db.try_catch, Db.putProfile_body. rewrite Hvr.
  split; by vm_compute.
Qed.

Lemma profile_update_operator_witness :
  User.role <$>
    Db.users (Db.putProfile accept "alice" promote_body [] fresh_db).2
      !! "alice"
  = Some "admin".
Proof. apply (profile_update_operator accept). reflexivity. Defined.

(** C10.  Every successful answer of login, registration, current user,
    student profile and user list carries a user object (or a list of
    them) without password field, whatever the stored password: on the
    in-memory server for all five operations, on the database-backed
    routers for the student profile and the user list, under any store
    faults (the user list then is the hard-coded one). *)
Theorem no_password_in_responses :
  (forall body now st,
     success (Demo.login body now st).1 = true ->
     exists s, payload (Demo.login body now st).1 = Some s /\
               Demo.session_user s !! "password" = None) /\
  (forall body now st,
     success (Demo.register body now st).1 = true ->
     exists s, payload (Demo.register body now st).1 = Some s /\
               Demo.session_user s !! "password" = None) /\
  (forall authorization st,
     success (Demo.me authorization st).1 = true ->
     exists user, payload (Demo.me authorization st).1 = Some user /\
                  user !! "password" = None) /\
  (forall authorization st,
     success (Demo.getProfile authorization st).1 = true ->
     exists user, payload (Demo.getProfile authorization st).1 = Some user /\
                  user !! "password" = None) /\
  (forall authorization st,
     success (Demo.listUsers authorization st).1 = true ->
     exists l, payload (Demo.listUsers authorization st).1 = Some l /\
               Forall (fun user : Obj => user !! "password" = None)
                 (Demo.users_of l)) /\
  (forall me fs db,
     success (Db.getProfile me fs db).1 = true ->
     exists p, payload (Db.getProfile me fs db).1 = Some p /\
               User.password (Db.profile_user p) = None) /\
  (forall now fs db,
     success (Db.listUsers now fs db).1 = true /\
     exists l, payload (Db.listUsers now fs db).1 = Some l /\
               Forall (fun x => User.password x.2 = None) (Db.users_of l)).
Proof.
  repeat split.
  - intros body now st Hs.
    destruct (payload (Demo.login body now st).1) as [s|] eqn:Hp.
    + exists s. split; [done|]. by eapply demo_login_no_password.
    + revert Hs Hp. unfold Demo.login. destruct (_ || _); [done|].
      destruct (Demo.demoUsers st !! _); [|done]. by destruct (negb _).
  - intros body now st Hs.
    destruct (payload (Demo.register body now st).1) as [s|] eqn:Hp.
    + exists s. split; [done|]. by eapply demo_register_no_password.
    + revert Hs Hp. unfold Demo.register. destruct (_ || _); [done|].
      by destruct (Demo.demoUsers st !! _).
  - intros authorization st Hs.
    destruct (payload (Demo.me authorization st).1) as [s|] eqn:Hp.
    + exists s. split; [done|]. by eapply demo_me_no_password.
    + revert Hs Hp. unfold Demo.me.
      by destruct (Demo.authenticate _ _) as [msg|[e u]].
  - intros authorization st Hs.
    destruct (payload (Demo.getProfile authorization st).1) as [s|] eqn:Hp.
    + exists s. split; [done|]. by eapply demo_getProfile_no_password.
    + revert Hs Hp. unfold Demo.getProfile.
      destruct (Demo.authenticate _ _) as [msg|[e u]]; [done|].
      by destruct (negb _).
  - intros authorization st Hs.
    destruct (payload (Demo.listUsers authorization st).1) as [s|] eqn:Hp.
    + exists s. split; [done|]. by eapply demo_listUsers_no_password.
    + revert Hs Hp. unfold Demo.listUsers.
      destruct (Demo.bearer _); [|done].
      destruct (Demo.validateSimpleToken _ _) as [[e u]|]; [|done].
      by destruct (negb _).
  - intros me fs db Hs.
    destruct (payload (Db.getProfile me fs db).1) as [s|] eqn:Hp.
    + exists s. split; [done|]. by eapply getProfile_no_password.
    + revert Hs Hp.
      unfold Db.getProfile, Db.try_catch, Db.getProfile_body, Db.bind,
        Db.User_findProfile, Db.call, Db.ret.
      destruct fs as [|[] fs]; simpl; try done;
        by destruct (Db.users db !! me).
  - unfold Db.listUsers, Db.try_catch, Db.listUsers_body, Db.bind,
      Db.User_find_all, Db.call, Db.ret.
    by destruct fs as [|[] fs].
  - destruct (payload (Db.listUsers now fs db).1) as [s|] eqn:Hp.
    + exists s. split; [done|]. by eapply listUsers_no_password.
    + revert Hp.
      unfold Db.listUsers, Db.try_catch, Db.listUsers_body, Db.bind,
        Db.User_find_all, Db.call, Db.ret.
      by destruct fs as [|[] fs].
Qed.

Lemma no_password_in_responses_witness :
  exists s, payload (Demo.login credentials 0 Demo.initial).1 = Some s /\
            Demo.session_user s !! "password" = None /\
            Demo.session_user s !! "email" = Some (VStr "student@test.com").
Proof.
  destruct (proj1 no_password_in_responses credentials 0%Z Demo.initial)
    as (s & Hs & Hp); [by vm_compute|].
  exists s. split; [done|split; [done|]].
  vm_compute in Hs. injection Hs as <-. by vm_compute.
Defined.

(** * Further properties of the handlers *)

(** ** Enroll and Unenroll in sequence *)

Lemma filter_ne_app_last (s : string) (l : list string) :
  s ∉ l -> filter (fun i => i ≠ s) (l ++ [s])%list = l.
Proof.
  intros Hs. rewrite filter_app, filter_cons_False, filter_nil, app_nil_r
    by (by intros ?).
  induction l as [|x l IH]; [done|].
  apply not_elem_of_cons in Hs as [Hx Hl].
  rewrite filter_cons_True by done. by rewrite IH.
Qed.

Lemma pull_addToSet (c : string) (l : list string) :
  c ∉ l -> Db.pull c (Db.addToSet c l) = l.
Proof.
  intros Hc. unfold Db.addToSet. rewrite bool_decide_false by done.
  by apply filter_ne_app_last.
Qed.

(** X1.  On the database-backed router, in consistent collections and
    without store faults, an Unenroll after a successful Enroll of the
    same student in the same course succeeds and puts the database back:
    the users are as before and so is the course, up to the time stamp of
    its last save. *)
Theorem unenroll_undoes_enroll :
  forall now now' student course db,
    Db.consistent db ->
    success (Db.enroll now student course [] db).1 = true ->
    let db1 := (Db.enroll now student course [] db).2 in
    success (Db.unenroll now' student course [] db1).1 = true /\
    Db.users (Db.unenroll now' student course [] db1).2 = Db.users db /\
    exists c, Db.courses db !! course = Some c /\
      Db.courses (Db.unenroll now' student course [] db1).2
      = <[course := Course.pre_save now' c]> (Db.courses db).
Proof.
  intros now now' student course db Hinv Hs db1. subst db1.
  destruct (enroll_cases now student course [] db)
    as [[_ Hf]|(c & (Hc & Ha & Hnew & _) & [[_ Hr]|[Hdb _]])].
  - congruence.
  - by rewrite Hr in Hs.
  - rewrite Hdb, unenroll_no_fault. simpl. rewrite lookup_insert_eq. simpl.
    rewrite bool_decide_true
      by (apply elem_of_app; right; by apply list_elem_of_singleton).
    simpl. split; [done|]. split.
    + rewrite alter_alter_eq. apply alter_id. intros u Hu. simpl.
      unfold unenrolled_user, enrolled_user. simpl.
      rewrite pull_addToSet; [by destruct u|].
      intros Hin. apply Hnew. by apply (Hinv _ _ _ _ Hu Hc).
    + exists c. split; [done|]. rewrite insert_insert_eq. f_equal.
      unfold unenrolled_course, enrolled_course. simpl.
      rewrite filter_ne_app_last by done. by destruct c.
Qed.

Lemma unenroll_undoes_enroll_witness :
  Db.users
    (Db.unenroll 2 "alice" "c1" [] (Db.enroll 1 "alice" "c1" [] fresh_db).2).2
  = Db.users fresh_db.
Proof.
  apply (unenroll_undoes_enroll 1 2 "alice" "c1" fresh_db).
  - apply fresh_db_consistent.
  - reflexivity.
Defined.

(** ** What a request can do to the database *)

Lemma evolves_refl db : evolves db db.
Proof. split; [done|split; [reflexivity|done]]. Qed.

Lemma evolves_trans db1 db2 db3 :
  evolves db1 db2 -> evolves db2 db3 -> evolves db1 db3.
Proof.
  intros (Hc1 & Hu1 & Hb1) (Hc2 & Hu2 & Hb2). split; [|split].
  - congruence.
  - by etrans.
  - auto.
Qed.

Lemma evolves_write db id c c' users' :
  Db.courses db !! id = Some c ->
  (Db.in_bounds c -> Db.in_bounds c') ->
  dom users' ⊆ dom (Db.users db) ->
  evolves db (Db.mkDB (<[id := c']> (Db.courses db)) users').
Proof.
  intros Hc Hb Hu. split; [|split]; simpl; [|done|].
  - apply dom_insert_lookup_L. by rewrite Hc.
  - intros Hall i ci. simpl. rewrite lookup_insert.
    case_decide; [intros [= <-]; apply Hb; by eapply Hall|apply Hall].
Qed.

Lemma evolves_users db users' :
  dom users' ⊆ dom (Db.users db) ->
  evolves db (Db.mkDB (Db.courses db) users').
Proof. intros Hu. by split; [|split]. Qed.

Lemma dom_alter_users (f : User.t -> User.t) i (m : gmap string User.t) :
  dom (alter f i m) ⊆ dom m.
Proof. by rewrite dom_alter_L. Qed.

Lemma dom_insert_users i (u u' : User.t) (m : gmap string User.t) :
  m !! i = Some u -> dom (<[i := u']> m) ⊆ dom m.
Proof. intros Hu. rewrite dom_insert_lookup_L; [done|by rewrite Hu]. Qed.

Lemma deleteCourse_cases now id fs db :
  let r := (Db.deleteCourse now id fs db).1 in
  let db' := (Db.deleteCourse now id fs db).2 in
  (db' = db /\ success r = false) \/
  exists c, Db.courses db !! id = Some c /\
    db' = Db.mkDB
            (<[id := Course.pre_save now (Course.set_isActive false c)]>
               (Db.courses db)) (Db.users db) /\
    r = ok "Course deleted successfully" None.
Proof.
  unfold Db.deleteCourse, Db.try_catch, Db.deleteCourse_body, Db.bind,
    Db.Course_findById, Db.Course_save, Db.call, Db.ret, Db.throw.
  find_by_id' (Db.courses db) id c Hc fs.
  destruct fs as [|[] fs]; simpl; auto.
  - right. by exists c.
  - destruct fs as [|[] fs]; simpl; auto; right; by exists c.
Qed.

Lemma toggleStatus_cases me id fs db :
  let r := (Db.toggleStatus me id fs db).1 in
  let db' := (Db.toggleStatus me id fs db).2 in
  (db' = db /\ success r = false) \/
  exists u, Db.users db !! id = Some u /\ id <> me /\
    db' = Db.mkDB (Db.courses db)
            (<[id := User.set_isActive (negb (User.isActive u)) u]>
               (Db.users db)) /\
    success r = true.
Proof.
  unfold Db.toggleStatus, Db.try_catch, Db.toggleStatus_body, Db.bind,
    Db.User_findById, Db.User_save, Db.call, Db.ret, Db.throw.
  find_by_id' (Db.users db) id u Hu fs.
  destruct fs as [|[] fs]; simpl; auto;
    (destruct (String.eqb_spec id me); simpl; [by auto|]).
  - right. by exists u.
  - destruct fs as [|[] fs]; simpl; auto; right; by exists u.
Qed.

Lemma updateRole_changes me id body fs db :
  let r := (Db.updateRole me id body fs db).1 in
  let db' := (Db.updateRole me id body fs db).2 in
  (db' = db /\ success r = false) \/
  exists u role, Db.users db !! id = Some u /\
    db' = Db.mkDB (Db.courses db)
            (<[id := User.set_role role u]> (Db.users db)) /\
    success r = true.
Proof.
  unfold Db.updateRole, Db.try_catch, Db.updateRole_body, Db.bind,
    Db.User_findById, Db.User_save, Db.call, Db.ret, Db.throw.
  destruct (_ || _); cbv beta iota; [by left|].
  find_by_id' (Db.users db) id u Hu fs.
  destruct fs as [|[] fs]; simpl; try (by left);
    (destruct (String.eqb id me); simpl; [by left|]);
    (destruct (prop body "role") as [| | | |r| |]; simpl; try (by left));
    rewrite andb_negb_r.
  - right. by exists u, r.
  - destruct fs as [|[] fs]; simpl; try (by left); right; by exists u, r.
Qed.

Lemma deleteUser_cases me id fs db :
  let r := (Db.deleteUser me id fs db).1 in
  let db' := (Db.deleteUser me id fs db).2 in
  (db' = db /\ success r = false) \/
  (db' = Db.mkDB (pulled id <$> Db.courses db) (Db.users db) /\
   status r = 500) \/
  (db' = Db.mkDB (pulled id <$> Db.courses db) (delete id (Db.users db)) /\
   success r = true).
Proof.
  unfold Db.deleteUser, Db.try_catch, Db.deleteUser_body, Db.bind,
    Db.User_findById, Db.Course_updateMany_pull, Db.User_deleteOne, Db.call,
    Db.ret, Db.throw.
  find_by_id' (Db.users db) id u Hu fs.
  destruct fs as [|[] fs]; simpl; auto;
    (destruct (String.eqb id me); simpl; [by auto|]); [by auto|].
  destruct fs as [|[] fs]; simpl; auto.
  destruct fs as [|[] fs]; simpl; auto.
Qed.

Lemma updateCourse_cases caller id body fs db :
  let r := (Db.updateCourse caller id body fs db).1 in
  let db' := (Db.updateCourse caller id body fs db).2 in
  (db' = db /\ success r = false) \/
  exists c c', Db.courses db !! id = Some c /\
    Db.Course_applyUpdate body c = Some c' /\
    (Db.caller_role caller = "instructor" ->
     Course.instructorId c = Some (Db.caller_id caller)) /\
    db' = Db.mkDB (<[id := c']> (Db.courses db)) (Db.users db) /\
    r = ok "Course updated successfully" (Some c').
Proof.
  unfold Db.updateCourse, Db.try_catch, Db.updateCourse_body, Db.bind,
    Db.Course_findById, Db.Course_findByIdAndUpdate, Db.call, Db.ret,
    Db.throw.
  find_by_id' (Db.courses db) id c Hc fs.
  destruct fs as [|[] fs]; simpl; auto;
    (destruct (String.eqb_spec (Db.caller_role caller) "instructor")
       as [Hr|Hr]; simpl;
     [destruct (Course.instructorId c) as [i|] eqn:Hi; simpl; [|by auto];
      destruct (String.eqb_spec i (Db.caller_id caller)) as [->|Hne]; simpl;
      [|by auto]|]).
  - rewrite Hc. destruct (Db.Course_applyUpdate body c) as [c'|] eqn:Hc';
      simpl; auto. right. by exists c, c'.
  - rewrite Hc. destruct (Db.Course_applyUpdate body c) as [c'|] eqn:Hc';
      simpl; auto. right. exists c, c'. by repeat split.
  - destruct fs as [|[] fs]; simpl; auto; rewrite Hc;
      (destruct (Db.Course_applyUpdate body c) as [c'|] eqn:Hc';
       simpl; auto); right; by exists c, c'.
  - destruct fs as [|[] fs]; simpl; auto; rewrite Hc;
      (destruct (Db.Course_applyUpdate body c) as [c'|] eqn:Hc';
       simpl; auto); right; exists c, c'; by repeat split.
Qed.

Lemma putProfile_cases vr me body fs db :
  let r := (Db.putProfile vr me body fs db).1 in
  let db' := (Db.putProfile vr me body fs db).2 in
  db' = db \/
  exists u u', Db.users db !! me = Some u /\
    db' = Db.mkDB (Db.courses db) (<[me := u']> (Db.users db)) /\
    success r = true.
Proof.
  unfold Db.putProfile, Db.try_catch, Db.putProfile_body, Db.bind,
    Db.User_findByIdAndUpdate, Db.ret.
  destruct (vr body) as [b []]; simpl; [|by left].
  destruct fs as [|[] fs]; simpl; auto;
    (destruct (Db.users db !! me) as [u|] eqn:Hu; simpl; [|by left]);
    (destruct (Db.User_applyUpdate _ u) as [u'|]; simpl; [|by left]);
    right; by exists u, u'.
Qed.

Lemma pulled_in_bounds id c : Db.in_bounds c -> Db.in_bounds (pulled id c).
Proof. unfold pulled. by case_bool_decide. Qed.

Lemma evolves_pulled db id users' :
  dom users' ⊆ dom (Db.users db) ->
  evolves db (Db.mkDB (pulled id <$> Db.courses db) users').
Proof.
  intros Hu. split; [|split]; simpl; [apply dom_fmap_L|done|].
  intros Hall i c. simpl. rewrite lookup_fmap.
  destruct (Db.courses db !! i) as [c0|] eqn:Hc; [|done].
  intros [= <-]. apply pulled_in_bounds. by eapply Hall.
Qed.

Lemma serve_evolves vr req fs db :
  Db.is_UpdateCourse req = false -> evolves db (Db.serve vr req fs db).
Proof.
  destruct req; simpl; intros Hreq; try done.
  - destruct (enroll_cases now user_id id fs db)
      as [[-> _]|(c & (Hc & _) & [[-> _]|[-> _]])];
      [apply evolves_refl| |]; (eapply evolves_write; [done|done|]);
      [done|apply dom_alter_users].
  - destruct (unenroll_cases now user_id id fs db)
      as [[-> _]|(c & (Hc & _) & [[-> _]|[-> _]])];
      [apply evolves_refl| |]; (eapply evolves_write; [done|done|]);
      [done|apply dom_alter_users].
  - destruct (deleteCourse_cases now id fs db)
      as [[-> _]|(c & Hc & -> & _)]; [apply evolves_refl|].
    by eapply evolves_write.
  - destruct (toggleStatus_cases me id fs db)
      as [[-> _]|(u & Hu & _ & -> & _)]; [apply evolves_refl|].
    apply evolves_users. by eapply dom_insert_users.
  - destruct (updateRole_changes me id body fs db)
      as [[-> _]|(u & r & Hu & -> & _)]; [apply evolves_refl|].
    apply evolves_users. by eapply dom_insert_users.
  - destruct (deleteUser_cases me id fs db) as [[-> _]|[[-> _]|[-> _]]];
      [apply evolves_refl| |]; apply evolves_pulled; [done|].
    rewrite dom_delete_L. by apply subseteq_difference_l.
  - destruct (putProfile_cases vr me body fs db)
      as [->|(u & u' & Hu & -> & _)]; [apply evolves_refl|].
    apply evolves_users. by eapply dom_insert_users.
Qed.

(** A course update writes the course under the id it was found at. *)
Lemma serve_domains vr req fs db :
  dom (Db.courses (Db.serve vr req fs db)) = dom (Db.courses db) /\
  dom (Db.users (Db.serve vr req fs db)) ⊆ dom (Db.users db).
Proof.
  destruct (Db.is_UpdateCourse req) eqn:Hreq.
  - destruct req; try done. simpl.
    destruct (updateCourse_cases caller id body fs db)
      as [[-> _]|(c & c' & Hc & _ & _ & -> & _)]; [done|]. simpl.
    split; [|done]. apply dom_insert_lookup_L. by rewrite Hc.
  - destruct (serve_evolves vr req fs db Hreq) as (Hc & Hu & _). by split.
Qed.

(** X2.  Whatever requests the routers serve (Enroll, Unenroll, course
    update and soft delete, user status, role, profile and deletion) and
    whatever the store faults, the collection keeps exactly the courses
    it had (no course is ever removed) and gains no user; and when no
    request of the sequence is a course update, its courses stay within
    the bounds of the schema (semester 1 to 8, credits 1 to 5, capacity
    at least 1) if they were. *)
Theorem requests_keep_courses :
  forall vr reqs db,
    dom (Db.courses (Db.run vr reqs db)) = dom (Db.courses db) /\
    dom (Db.users (Db.run vr reqs db)) ⊆ dom (Db.users db) /\
    (Forall (fun rq => Db.is_UpdateCourse rq.1 = false) reqs ->
     Db.all_in_bounds db -> Db.all_in_bounds (Db.run vr reqs db)).
Proof.
  intros vr reqs db. unfold Db.run. revert db.
  induction reqs as [|[req fs] reqs IH]; intros db; simpl; [done|].
  destruct (IH (Db.serve vr req fs db)) as (Hc & Hu & Hb).
  destruct (serve_domains vr req fs db) as (Hc1 & Hu1).
  split; [congruence|]. split; [by etrans|].
  intros [Hreq Hreqs]%Forall_cons Hall. apply Hb; [done|].
  by apply (serve_evolves vr req fs db Hreq).
Qed.

Lemma requests_keep_courses_witness :
  Db.all_in_bounds
    (Db.run accept
       [(Db.Enroll 1 "alice" "c1", [false; false; true]);
        (Db.DeleteCourse 3 "c1", []); (Db.DeleteUser "root" "bob", [false])]
       pair_db).
Proof.
  apply (requests_keep_courses accept).
  - repeat constructor.
  - intros id c Hc. simpl in Hc. apply lookup_singleton_Some in Hc as [<- <-].
    unfold Db.in_bounds. simpl. lia.
Defined.

(** X3.  A request that the routers answer with a rejection other than a
    server error has changed nothing in the database, whatever the store
    faults. *)
Theorem rejections_change_nothing :
  forall vr req fs db,
    (Db.answer vr req fs db).2 = false ->
    (Db.answer vr req fs db).1 <> 500 ->
    Db.serve vr req fs db = db.
Proof.
  intros vr req fs db. destruct req; simpl.
  - intros Hs H500. destruct (enroll_cases now user_id id fs db)
      as [[-> _]|(c & _ & [[_ Hr]|[_ Hr]])]; [done| |];
      rewrite Hr in *; done.
  - intros Hs H500. destruct (unenroll_cases now user_id id fs db)
      as [[-> _]|(c & _ & [[_ Hr]|[_ Hr]])]; [done| |];
      rewrite Hr in *; done.
  - intros Hs H500. destruct (updateCourse_cases caller id body fs db)
      as [[-> _]|(c & c' & _ & _ & _ & _ & Hr)]; [done|].
    by rewrite Hr in Hs.
  - intros Hs H500. destruct (deleteCourse_cases now id fs db)
      as [[-> _]|(c & _ & _ & Hr)]; [done|]. by rewrite Hr in Hs.
  - intros Hs H500. destruct (toggleStatus_cases me id fs db)
      as [[-> _]|(u & _ & _ & _ & Hr)]; [done|]. congruence.
  - intros Hs H500. destruct (updateRole_changes me id body fs db)
      as [[-> _]|(u & r & _ & _ & Hr)]; [done|]. congruence.
  - intros Hs H500. destruct (deleteUser_cases me id fs db)
      as [[-> _]|[[_ Hr]|[_ Hr]]]; [done|done|congruence].
  - intros Hs H500. destruct (putProfile_cases vr me body fs db)
      as [->|(u & u' & _ & _ & Hr)]; [done|congruence].
Qed.

Lemma rejections_change_nothing_witness :
  Db.serve accept (Db.Enroll 1 "bob" "c1") [] full_db = full_db /\
  Db.serve accept (Db.ToggleStatus "root" "root") [false] staff_db
  = staff_db.
Proof.
  split; apply rejections_change_nothing; by vm_compute.
Defined.

(** ** Soft delete *)

Lemma deleteCourse_run now id c db :
  Db.courses db !! id = Some c ->
  Db.deleteCourse now id [] db
  = (ok "Course deleted successfully" None,
     Db.mkDB (<[id := Course.pre_save now (Course.set_isActive false c)]>
                (Db.courses db)) (Db.users db)).
Proof.
  intros Hc.
  unfold Db.deleteCourse, Db.try_catch, Db.deleteCourse_body, Db.bind,
    Db.Course_findById, Db.Course_save.
  rewrite (castable_found _ _ _ Hc).
  rewrite call_no_fault; simpl. rewrite Hc. by rewrite call_no_fault.
Qed.

(** X4.  Deleting a course keeps the document and its roster and clears
    the active flag; deleting it again succeeds again.  Afterwards an
    Enroll request for the course is answered with Inactive and changes
    nothing, while an Unenroll of a student on its roster still succeeds,
    and the look-up of the course still finds it. *)
Theorem soft_delete :
  forall now id c db,
    Db.courses db !! id = Some c ->
    let db' := (Db.deleteCourse now id [] db).2 in
    success (Db.deleteCourse now id [] db).1 = true /\
    Db.courses db' !! id
    = Some (Course.pre_save now (Course.set_isActive false c)) /\
    Db.users db' = Db.users db /\
    (forall now', success (Db.deleteCourse now' id [] db').1 = true) /\
    (forall now' student,
       error_kind (Db.enroll now' student id [] db').1 = Some Inactive /\
       (Db.enroll now' student id [] db').2 = db') /\
    (forall now' student,
       student ∈ Course.enrolledStudents c ->
       success (Db.unenroll now' student id [] db').1 = true) /\
    (status (Db.getCourse id [] db').1 = 200).
Proof.
  intros now id c db Hc db'. subst db'.
  rewrite (deleteCourse_run now id c db Hc). simpl.
  split; [done|]. split; [apply lookup_insert_eq|]. split; [done|].
  split; [|split; [|split]].
  - intros now'. erewrite deleteCourse_run; [done|]. simpl.
    apply lookup_insert_eq.
  - intros now' student. rewrite enroll_no_fault. simpl.
    by rewrite lookup_insert_eq.
  - intros now' student Hin. rewrite unenroll_no_fault. simpl.
    rewrite lookup_insert_eq. simpl. by rewrite bool_decide_true.
  - unfold Db.getCourse, Db.try_catch, Db.getCourse_body, Db.bind,
      Db.Course_findById_populated. cbn [Db.courses].
    rewrite (castable_found _ _ _
               (lookup_insert_eq (Db.courses db) id
                  (Course.pre_save now (Course.set_isActive false c)))).
    rewrite call_no_fault; simpl. by rewrite lookup_insert_eq.
Qed.

Lemma soft_delete_witness :
  error_kind
    (Db.enroll 2 "bob" "c1" [] (Db.deleteCourse 1 "c1" [] staff_db).2).1
  = Some Inactive /\
  success
    (Db.unenroll 2 "alice" "c1" [] (Db.deleteCourse 1 "c1" [] staff_db).2).1
  = true.
Proof.
  destruct (soft_delete 1 "c1" (sample_course 30 ["alice"]) staff_db)
    as (_ & _ & _ & _ & He & Hu & _); [reflexivity|].
  split; [apply He|]. apply Hu. simpl. apply list_elem_of_here.
Defined.

(** ** The administrator's handlers, continued *)

Lemma toggleStatus_run me id u db :
  Db.users db !! id = Some u -> id <> me ->
  Db.toggleStatus me id [] db
  = (ok (String.append "User "
           (String.append
              (if negb (User.isActive u) then "activated" else "deactivated")
              " successfully"))
        (Some (User.set_isActive (negb (User.isActive u)) u)),
     Db.mkDB (Db.courses db)
       (<[id := User.set_isActive (negb (User.isActive u)) u]> (Db.users db))).
Proof.
  intros Hu Hne.
  unfold Db.toggleStatus, Db.try_catch, Db.toggleStatus_body, Db.bind,
    Db.User_findById, Db.User_save.
  rewrite (castable_found _ _ _ Hu).
  rewrite call_no_fault; simpl.
  rewrite Hu. apply String.eqb_neq in Hne. rewrite Hne.
  by rewrite call_no_fault.
Qed.

(** X5.  The status handler toggles: for a user other than the caller it
    flips the active flag and nothing else, the message names the new
    state, and a second request puts the database back as it was. *)
Theorem toggleStatus_twice :
  forall me id u db,
    Db.users db !! id = Some u -> id <> me ->
    let first := Db.toggleStatus me id [] db in
    Db.users first.2 !! id
    = Some (User.set_isActive (negb (User.isActive u)) u) /\
    message first.1
    = Some (if User.isActive u then "User deactivated successfully"
            else "User activated successfully") /\
    (Db.toggleStatus me id [] first.2).2 = db.
Proof.
  intros me id u db Hu Hne first. subst first.
  rewrite (toggleStatus_run me id u db Hu Hne). simpl.
  split; [apply lookup_insert_eq|]. split; [by destruct (User.isActive u)|].
  erewrite toggleStatus_run; [|apply lookup_insert_eq|done]. simpl.
  rewrite insert_insert_eq, negb_involutive.
  destruct db as [cs us]. simpl in *. f_equal.
  apply insert_id. rewrite Hu. by destruct u.
Qed.

Lemma toggleStatus_twice_witness :
  (Db.toggleStatus "root" "alice" []
     (Db.toggleStatus "root" "alice" [] staff_db).2).2 = staff_db /\
  message (Db.toggleStatus "root" "alice" [] staff_db).1
  = Some "User deactivated successfully".
Proof.
  destruct (toggleStatus_twice "root" "alice"
              (sample_user "alice" "student" ["c1"]) staff_db)
    as (_ & Hm & Hback); [reflexivity|done|].
  split; [exact Hback|exact Hm].
Defined.

(** X6.  A role update whose body has no role, or a role other than the
    strings student, admin and instructor, is answered with "Valid role is
    required" before the store is asked anything: whatever the store
    faults, the database is unchanged, also when the user does not exist
    or is the caller. *)
Theorem invalid_role_rejected :
  forall me id body fs db,
    (forall r, prop body "role" = VStr r -> Db.valid_role r = false) ->
    Db.updateRole me id body fs db
    = (failure 400 "Valid role is required", db).
Proof.
  intros me id body fs db Hbad.
  unfold Db.updateRole, Db.try_catch, Db.updateRole_body.
  assert (negb (truthy (prop body "role"))
          || negb (includes (prop body "role")
                     [VStr "student"; VStr "admin"; VStr "instructor"])
          = true) as ->; [|done].
  destruct (prop body "role") as [| | b | n | r | l | kvs] eqn:Hr; simpl;
    rewrite ?orb_true_r; try done.
  specialize (Hbad r eq_refl). unfold Db.valid_role in Hbad.
  apply bool_decide_eq_false in Hbad.
  rewrite !elem_of_cons, elem_of_nil in Hbad.
  destruct (String.eqb_spec r "student"); [tauto|].
  destruct (String.eqb_spec r "admin"); [tauto|].
  destruct (String.eqb_spec r "instructor"); [tauto|].
  by rewrite orb_true_r.
Qed.

Lemma invalid_role_rejected_witness :
  Db.updateRole "root" "alice" {[ "role" := VStr "superuser" ]} [true] staff_db
  = (failure 400 "Valid role is required", staff_db) /\
  Db.updateRole "root" "alice" ∅ [] staff_db
  = (failure 400 "Valid role is required", staff_db).
Proof.
  split; apply invalid_role_rejected.
  - intros r Hr. vm_compute in Hr. by injection Hr as <-.
  - intros r Hr. vm_compute in Hr. discriminate.
Defined.

Lemma elem_of_pulled id s c :
  s <> id -> s ∈ Course.enrolledStudents (pulled id c)
             <-> s ∈ Course.enrolledStudents c.
Proof.
  intros Hne. unfold pulled. case_bool_decide; [|done].
  simpl. rewrite elem_of_pull. tauto.
Qed.

(** X7.  The deletion of a user keeps rosters and enrolled lists
    consistent: in every run that does not end in a server error the
    remaining users are on exactly the rosters of the courses on their
    lists, and no user but the deleted one is touched. *)
Theorem deleteUser_consistent :
  forall me id fs db,
    Db.consistent db ->
    status (Db.deleteUser me id fs db).1 <> 500 ->
    Db.consistent (Db.deleteUser me id fs db).2 /\
    forall s, s <> id ->
      Db.users (Db.deleteUser me id fs db).2 !! s = Db.users db !! s.
Proof.
  intros me id fs db Hinv H500.
  destruct (deleteUser_cases me id fs db) as [[-> _]|[[_ Hr]|[-> _]]];
    [done|done|]. split.
  - intros s u c co. simpl. rewrite lookup_fmap.
    destruct (decide (s = id)) as [->|Hs]; [by rewrite lookup_delete_eq|].
    rewrite lookup_delete_ne by done. intros Hu.
    destruct (Db.courses db !! c) as [co0|] eqn:Hc; [|done].
    intros [= <-]. rewrite elem_of_pulled by done. by apply Hinv.
  - intros s Hs. simpl. by rewrite lookup_delete_ne.
Qed.

Lemma staff_db_consistent : Db.consistent staff_db.
Proof.
  intros s u c co Hu Hc. simpl in Hu, Hc.
  apply lookup_singleton_Some in Hc as [<- <-].
  apply lookup_insert_Some in Hu as [[<- <-]|[_ Hu]].
  - simpl. rewrite elem_of_nil, list_elem_of_singleton. split; [done|tauto].
  - apply lookup_singleton_Some in Hu as [<- <-]. simpl.
    by rewrite !list_elem_of_singleton.
Qed.

Lemma deleteUser_consistent_witness :
  Db.consistent (Db.deleteUser "root" "alice" [] staff_db).2.
Proof.
  apply (deleteUser_consistent "root" "alice" [] staff_db).
  - apply staff_db_consistent.
  - by vm_compute.
Defined.

(** X8.  Only the instructor of a course, or a caller who is not an
    instructor at all (the route lets administrators in as well), gets a
    course update through: an instructor who is not the one of the course
    is answered with 403, an instructor updating a course without
    instructor reference with a server error, and in both cases, as after
    every update that is not answered with success, the database is
    unchanged. *)
Theorem updateCourse_ownership :
  forall caller id body c db,
    Db.courses db !! id = Some c ->
    Db.caller_role caller = "instructor" ->
    (forall other,
       Course.instructorId c = Some other -> other <> Db.caller_id caller ->
       Db.updateCourse caller id body [] db
       = (failure 403 "Not authorized to update this course", db)) /\
    (Course.instructorId c = None ->
     Db.updateCourse caller id body [] db
     = (failure 500 "Server error updating course", db)) /\
    (forall fs,
       success (Db.updateCourse caller id body fs db).1 = true ->
       Course.instructorId c = Some (Db.caller_id caller)) /\
    (forall fs,
       success (Db.updateCourse caller id body fs db).1 = false ->
       (Db.updateCourse caller id body fs db).2 = db).
Proof.
  intros caller id body c db Hc Hrole. split; [|split; [|split]].
  - intros other Hi Hne.
    unfold Db.updateCourse, Db.try_catch, Db.updateCourse_body, Db.bind,
      Db.Course_findById.
    rewrite (castable_found _ _ _ Hc).
    rewrite call_no_fault; simpl. rewrite Hc, Hrole, Hi. simpl.
    apply String.eqb_neq in Hne. by rewrite Hne.
  - intros Hi.
    unfold Db.updateCourse, Db.try_catch, Db.updateCourse_body, Db.bind,
      Db.Course_findById.
    rewrite (castable_found _ _ _ Hc).
    rewrite call_no_fault; simpl. by rewrite Hc, Hrole, Hi.
  - intros fs Hs. destruct (updateCourse_cases caller id body fs db)
      as [[_ Hf]|(c0 & c' & Hc0 & _ & Ho & _)]; [congruence|].
    rewrite Hc in Hc0. injection Hc0 as <-. by apply Ho.
  - intros fs Hs. destruct (updateCourse_cases caller id body fs db)
      as [[-> _]|(c0 & c' & _ & _ & _ & _ & Hr)]; [done|].
    by rewrite Hr in Hs.
Qed.

Lemma updateCourse_ownership_witness :
  Db.updateCourse (Db.mkCaller "bob" "instructor") "c1" shrink_body [] pair_db
  = (failure 500 "Server error updating course", pair_db).
Proof.
  apply (updateCourse_ownership (Db.mkCaller "bob" "instructor") "c1"
           shrink_body (sample_course 2 ["alice"; "bob"]) pair_db);
    reflexivity.
Defined.

(** ** The course lists *)

Lemma course_order_total : Total Db.course_order.
Proof.
  intros [i c] [j d]. unfold Db.course_order. simpl.
  destruct (Z.lt_total (Course.semester c) (Course.semester d))
    as [H|[H|H]]; [by left; left| |by right; left].
  destruct (String.leb_total (Course.courseCode c) (Course.courseCode d));
    [left|right]; right; by split.
Qed.

Lemma sorted_ids (P : string * Course.t -> Prop) `{!forall x, Decision (P x)}
    (f : string * Course.t -> Db.CourseEntry) (cs : gmap string Course.t) :
  (forall ic, Db.entry_id (f ic) = ic.1) ->
  let l := f <$> merge_sort Db.course_order (filter P (map_to_list cs)) in
  (forall i, i ∈ Db.entry_id <$> l <-> exists c, cs !! i = Some c /\ P (i, c)) /\
  NoDup (Db.entry_id <$> l).
Proof.
  intros Hf l. subst l.
  assert (Db.entry_id <$> (f <$> merge_sort Db.course_order
                                   (filter P (map_to_list cs)))
          = (merge_sort Db.course_order (filter P (map_to_list cs))).*1)
    as ->.
  { rewrite <- list_fmap_compose. apply list_fmap_ext. intros _ ic _.
    apply Hf. }
  split.
  - intros i. rewrite merge_sort_Permutation, list_elem_of_fmap. split.
    + intros ([i' c] & -> & [HP Hin%elem_of_map_to_list]%list_elem_of_filter).
      by exists c.
    + intros (c & Hc & HP). exists (i, c). split; [done|].
      apply list_elem_of_filter. split; [done|].
      by apply elem_of_map_to_list.
  - rewrite merge_sort_Permutation.
    eapply sublist_NoDup; [apply (NoDup_fst_map_to_list cs)|].
    apply fmap_sublist, sublist_filter.
Qed.

(** X9.  The public list of courses never fails.  When the store answers
    it holds every active course and no other, each once, in the order of
    semester and then course code, and the count is the length of the
    list; a deactivated course is not on it.  When the store fails the
    answer is still a success: the three hard-coded courses, marked as
    demo data. *)
Theorem listCourses_active :
  forall fs db,
    success (Db.listCourses fs db).1 = true /\
    (Db.listCourses fs db).2 = db /\
    exists l, payload (Db.listCourses fs db).1 = Some l /\
      Db.list_count l = length (Db.list_courses l) /\
      (head fs = Some true ->
       Db.list_courses l = Db.fallback_courses /\
       Db.list_source l = Some "demo") /\
      (head fs <> Some true ->
       Db.list_source l = None /\
       (forall i, i ∈ Db.entry_id <$> Db.list_courses l <->
                  exists c, Db.courses db !! i = Some c /\
                            Course.isActive c = true) /\
       NoDup (Db.entry_id <$> Db.list_courses l) /\
       Sorted entry_order (Db.list_courses l)).
Proof.
  intros fs db.
  unfold Db.listCourses, Db.try_catch, Db.listCourses_body, Db.bind,
    Db.Course_find_active, Db.call, Db.ret.
  assert (Hreal : forall l,
    l = (fun ic : string * Course.t =>
           Db.Document ic.1 ic.2
             (Db.populate_students false (Db.users db)
                (Course.enrolledStudents ic.2)) None)
        <$> merge_sort Db.course_order
              (filter (fun ic : string * Course.t => Course.isActive ic.2 = true)
                 (map_to_list (Db.courses db))) ->
    (forall i, i ∈ Db.entry_id <$> l <->
               exists c, Db.courses db !! i = Some c /\
                         Course.isActive c = true) /\
    NoDup (Db.entry_id <$> l) /\ Sorted entry_order l).
  { intros l ->. split; [|split].
    - apply (sorted_ids (fun ic => Course.isActive ic.2 = true)). done.
    - apply (sorted_ids (fun ic => Course.isActive ic.2 = true)). done.
    - apply (Sorted_fmap _ Db.course_order); [by intros [] []|].
      apply (@Sorted_merge_sort _ _ _ course_order_total). }
  destruct fs as [|[] fs]; simpl; (split; [done|]); (split; [done|]);
    eexists; (split; [done|]); simpl; (split; [done|]); split;
    try done; intros _; (split; [done|]); by apply Hreal.
Qed.

(** X10.  The administrator's list holds every course of the collection,
    active or not, each once and in the same order; it has the courses of
    the public list and those that were deleted.  A store fault gives a
    server error here, not demo data. *)
Theorem adminCourses_all :
  forall fs db,
    (Db.adminCourses fs db).2 = db /\
    (head fs = Some true ->
     (Db.adminCourses fs db).1 = failure 500 "Server error getting courses") /\
    (head fs <> Some true ->
     exists l, (Db.adminCourses fs db).1
               = mkResponse 200 true None (Some l) /\
       Db.list_count l = length (Db.list_courses l) /\
       (forall i, i ∈ Db.entry_id <$> Db.list_courses l <->
                  i ∈ dom (Db.courses db)) /\
       NoDup (Db.entry_id <$> Db.list_courses l) /\
       Sorted entry_order (Db.list_courses l) /\
       length (Db.list_courses l) = size (Db.courses db)).
Proof.
  intros fs db.
  unfold Db.adminCourses, Db.try_catch, Db.adminCourses_body, Db.bind,
    Db.Course_find_all, Db.call, Db.ret.
  set (f := fun ic : string * Course.t =>
           Db.Document ic.1 ic.2
             (Db.populate_students false (Db.users db)
                (Course.enrolledStudents ic.2))
             (Db.populate_instructor (Db.users db) ic.2)).
  assert (Hreal :
    let l := f <$> merge_sort Db.course_order (map_to_list (Db.courses db)) in
    (forall i, i ∈ Db.entry_id <$> l <-> i ∈ dom (Db.courses db)) /\
    NoDup (Db.entry_id <$> l) /\ Sorted entry_order l /\
    length l = size (Db.courses db)).
  { simpl.
    pose proof (sorted_ids (fun _ => True) f (Db.courses db)
                  (fun ic => eq_refl)) as [Hids Hnd].
    assert (filter (fun _ : string * Course.t => True)
              (map_to_list (Db.courses db)) = map_to_list (Db.courses db))
      as Hall.
    { generalize (map_to_list (Db.courses db)).
      intros l. induction l as [|x l' IH]; [done|].
      rewrite filter_cons_True by done. f_equal. exact IH. }
    simpl in Hids, Hnd. rewrite Hall in Hids, Hnd.
    split; [|split; [done|split]].
    - intros i. rewrite Hids, elem_of_dom. unfold is_Some. split.
      + intros (c & Hc & _). by exists c.
      + intros (c & Hc). by exists c.
    - apply (Sorted_fmap _ Db.course_order); [by intros [] []|].
      apply (@Sorted_merge_sort _ _ _ course_order_total).
    - rewrite length_fmap, merge_sort_Permutation. apply length_map_to_list. }
  destruct fs as [|[] fs]; simpl; (split; [done|]); split; try done;
    intros _; eexists; (split; [done|]); simpl; (split; [done|]);
    apply Hreal.
Qed.

Lemma listCourses_active_witness :
  exists l, payload (Db.listCourses [] staff_db).1 = Some l /\
            Db.entry_id <$> Db.list_courses l = ["c1"] /\
  exists l', payload (Db.listCourses []
                        (Db.deleteCourse 1 "c1" [] staff_db).2).1 = Some l' /\
             "c1" ∉ Db.entry_id <$> Db.list_courses l'.
Proof.
  destruct (listCourses_active [] (Db.deleteCourse 1 "c1" [] staff_db).2)
    as (_ & _ & l' & Hl' & _ & _ & Hreal).
  destruct (Hreal ltac:(done)) as (_ & Hids & _).
  eexists. split; [reflexivity|]. split; [by vm_compute|].
  exists l'. split; [done|]. rewrite Hids. intros (c & Hc & Ha).
  vm_compute in Hc. injection Hc as <-. discriminate.
Defined.

Lemma adminCourses_all_witness :
  exists l, (Db.adminCourses [] (Db.deleteCourse 1 "c1" [] staff_db).2).1
            = mkResponse 200 true None (Some l) /\
            "c1" ∈ Db.entry_id <$> Db.list_courses l.
Proof.
  destruct (adminCourses_all [] (Db.deleteCourse 1 "c1" [] staff_db).2)
    as (_ & _ & Hreal).
  destruct (Hreal ltac:(done)) as (l & Hl & _ & Hids & _).
  exists l. split; [done|]. apply Hids. by vm_compute.
Defined.

(** ** Statistics *)

Lemma size_disjoint_filters {A} (P Q : string * A -> Prop)
    `{!forall x, Decision (P x)} `{!forall x, Decision (Q x)}
    (m : gmap string A) :
  (forall x, P x -> Q x -> False) ->
  size (filter P m) + size (filter Q m) <= size m.
Proof.
  intros Hdisj. rewrite <- map_size_disj_union.
  - apply map_subseteq_size, map_union_least; apply map_filter_subseteq.
  - apply map_disjoint_spec. intros i x y.
    rewrite !map_lookup_filter_Some. intros [Hx HP] [Hy HQ].
    simplify_eq. by eapply Hdisj.
Qed.

(** X11.  The statistics of the administrator never write and are always
    answered with success.  When the store answers the six counts, the
    numbers are those of the collections: all users, the users with role
    student and with role admin, all courses, the active courses and the
    users created since the given date; students and administrators
    together are then at most the users, the active courses at most the
    courses and the recent registrations at most the users.  When the
    store fails at one of the six counts, the answer is the hard-coded
    numbers, marked as demo data. *)
Theorem statistics_coherent :
  forall sevenDaysAgo fs db,
    let r := Db.statistics sevenDaysAgo fs db in
    r.2 = db /\
    (true ∉ take 6 fs ->
     exists s,
       r.1 = mkResponse 200 true None (Some (s, None)) /\
       Db.totalUsers s = size (Db.users db) /\
       Db.totalStudents s
       = size (filter (fun iu : string * User.t =>
                         String.eqb (User.role iu.2) "student" = true)
                      (Db.users db)) /\
       Db.totalAdmins s
       = size (filter (fun iu : string * User.t =>
                         String.eqb (User.role iu.2) "admin" = true)
                      (Db.users db)) /\
       Db.totalCourses s = size (Db.courses db) /\
       Db.activeCourses s
       = size (filter (fun ic : string * Course.t =>
                         Course.isActive ic.2 = true) (Db.courses db)) /\
       Db.recentRegistrations s
       = size (filter (fun iu : string * User.t =>
                         (sevenDaysAgo <=? User.createdAt iu.2)%Z = true)
                      (Db.users db)) /\
       Db.totalStudents s + Db.totalAdmins s <= Db.totalUsers s /\
       Db.activeCourses s <= Db.totalCourses s /\
       Db.recentRegistrations s <= Db.totalUsers s) /\
    (true ∈ take 6 fs ->
     r.1 = mkResponse 200 true None
             (Some (Db.mkStatistics 150 145 5 25 20 12, Some "demo"))).
Proof.
  intros ago fs db r. subst r.
  assert (Hu : filter (fun iu : string * User.t => true = true) (Db.users db)
               = Db.users db) by (by apply map_filter_id).
  assert (Hc : filter (fun ic : string * Course.t => true = true)
                 (Db.courses db) = Db.courses db) by (by apply map_filter_id).
  assert (Hroles :
    size (filter (fun iu : string * User.t =>
            String.eqb (User.role iu.2) "student" = true) (Db.users db))
    + size (filter (fun iu : string * User.t =>
              String.eqb (User.role iu.2) "admin" = true) (Db.users db))
    <= size (Db.users db)).
  { apply size_disjoint_filters. intros [i u]. simpl.
    intros ->%String.eqb_eq. done. }
  assert (Hactive :
    size (filter (fun ic : string * Course.t => Course.isActive ic.2 = true)
            (Db.courses db)) <= size (Db.courses db))
    by apply map_size_filter.
  assert (Hrecent :
    size (filter (fun iu : string * User.t =>
            (ago <=? User.createdAt iu.2)%Z = true) (Db.users db))
    <= size (Db.users db)) by apply map_size_filter.
  unfold Db.statistics, Db.try_catch, Db.statistics_body, Db.bind,
    Db.User_countDocuments, Db.Course_countDocuments, Db.call, Db.ret.
  do 6 (try (destruct fs as [|[] fs]; simpl)); rewrite ?Hu, ?Hc;
    (split; [done|]); split.
  all: try solve
    [intros Hnot; exfalso; apply Hnot;
     repeat first [apply list_elem_of_here|apply list_elem_of_further]].
  all: try solve
    [intros Hin; exfalso; revert Hin;
     rewrite ?elem_of_cons, ?elem_of_nil; intuition discriminate].
  all: try solve [intros _; reflexivity].
  all: intros _; eexists; (split; [reflexivity|]); simpl;
    repeat split; try done; lia.
Qed.

Lemma statistics_coherent_witness :
  (Db.statistics 0 [false; false; true] staff_db).1
  = mkResponse 200 true None
      (Some (Db.mkStatistics 150 145 5 25 20 12, Some "demo")) /\
  exists s, (Db.statistics 0 [] staff_db).1
            = mkResponse 200 true None (Some (s, None)) /\
            Db.totalUsers s = 2.
Proof.
  split.
  - apply (statistics_coherent 0 [false; false; true] staff_db). simpl.
    repeat first [apply list_elem_of_here|apply list_elem_of_further].
  - destruct (statistics_coherent 0 [] staff_db) as (_ & H & _).
    destruct H as (s & Hr & Hn & _); [by intros ?%elem_of_nil|].
    exists s. split; [exact Hr|]. rewrite Hn. reflexivity.
Defined.

(** ** The courses of a student *)

Lemma omap_length_le {A B} (f : A -> option B) (l : list A) :
  length (omap f l) <= length l.
Proof.
  induction l as [|x l IH]; [done|]. csimpl.
  destruct (f x); simpl; lia.
Qed.

Lemma elem_of_populate_active cs ids info :
  info ∈ Db.populate_active cs ids ->
  Db.info_id info ∈ ids /\
  exists c, cs !! Db.info_id info = Some c /\ Course.isActive c = true.
Proof.
  unfold Db.populate_active. rewrite list_elem_of_omap.
  intros (i & Hi & Hinfo).
  destruct (cs !! i) as [c|] eqn:Hc; simpl in Hinfo; [|done].
  destruct (Course.isActive c) eqn:Ha; [|done].
  injection Hinfo as <-. simpl. split; [done|]. by exists c.
Qed.

(** X12.  The list of a student's courses holds, when the store answers,
    only courses that are on the student's list of enrolled courses and
    are active, at most as many as that list has entries, and with
    consistent collections the student is on the roster of each; a
    student without document gets NotFound.  When the store fails the
    answer is the hard-coded pair of courses and still a success. *)
Theorem studentCourses_active :
  forall me fs db,
    (Db.studentCourses me fs db).2 = db /\
    (head fs = Some true ->
     (Db.studentCourses me fs db).1
     = mkResponse 200 true None
         (Some (2, Db.fallback_student_courses, Some "demo"))) /\
    (head fs <> Some true ->
     match Db.users db !! me with
     | None => (Db.studentCourses me fs db).1 = failure 404 "User not found"
     | Some u =>
       exists l, (Db.studentCourses me fs db).1
                 = mkResponse 200 true None (Some (length l, l, None)) /\
         length l <= length (User.enrolledCourses u) /\
         forall info, info ∈ l ->
           Db.info_id info ∈ User.enrolledCourses u /\
           exists c, Db.courses db !! Db.info_id info = Some c /\
                     Course.isActive c = true /\
                     (Db.consistent db -> me ∈ Course.enrolledStudents c)
     end).
Proof.
  intros me fs db.
  unfold Db.studentCourses, Db.try_catch, Db.studentCourses_body, Db.bind,
    Db.User_findById_courses, Db.call, Db.ret.
  assert (Hreal : forall u, Db.users db !! me = Some u ->
    let l := Db.populate_active (Db.courses db) (User.enrolledCourses u) in
    length l <= length (User.enrolledCourses u) /\
    forall info, info ∈ l ->
      Db.info_id info ∈ User.enrolledCourses u /\
      exists c, Db.courses db !! Db.info_id info = Some c /\
                Course.isActive c = true /\
                (Db.consistent db -> me ∈ Course.enrolledStudents c)).
  { intros u Hu l. split; [apply omap_length_le|].
    intros info (Hin & c & Hc & Ha)%elem_of_populate_active.
    split; [done|]. exists c. split; [done|]. split; [done|].
    intros Hinv. by apply (Hinv _ _ _ _ Hu Hc). }
  destruct (Db.users db !! me) as [u|] eqn:Hu;
    destruct fs as [|[] fs]; simpl; (split; [done|]); split; try done.
  all: try (intros Hh; by destruct Hh).
  all: intros _; eexists; (split; [reflexivity|]); by apply Hreal.
Qed.

Lemma studentCourses_active_witness :
  exists l, (Db.studentCourses "alice" [] staff_db).1
            = mkResponse 200 true None (Some (length l, l, None)) /\
            length l <= 1 /\ Db.info_id <$> l = ["c1"].
Proof.
  pose proof (studentCourses_active "alice" [] staff_db) as (_ & _ & H).
  specialize (H ltac:(done)).
  change (Db.users staff_db !! "alice")
    with (Some (sample_user "alice" "student" ["c1"])) in H.
  destruct H as (l & Hl & Hlen & _). exists l.
  split; [exact Hl|]. split; [exact Hlen|].
  vm_compute in Hl. injection Hl as _ <-. reflexivity.
Defined.

(** ** The profile update of the student router, continued *)

(** X13.  A profile update whose (sanitised) body carries no update
    operator, that is no key that starts with [$], leaves e-mail address,
    role, password and student id of the stored user as they were,
    whatever else the body holds and whatever the store faults, and never
    touches a course. *)
Theorem profile_update_plain :
  forall validationResult me body fs db u u',
    Db.plain (validationResult body).1 = true ->
    Db.users db !! me = Some u ->
    Db.users (Db.putProfile validationResult me body fs db).2 !! me
    = Some u' ->
    User.email u' = User.email u /\ User.role u' = User.role u /\
    User.password u' = User.password u /\
    User.studentId u' = User.studentId u /\
    Db.courses (Db.putProfile validationResult me body fs db).2
    = Db.courses db.
Proof.
  intros vr me body fs db u u' Hplain Hu Hu'.
  destruct (putProfile_plain_body vr me body fs db u u' Hplain Hu Hu')
    as (He & Hr & Hp).
  apply (plain_no_operator _ "$set") in Hplain; [|done].
  repeat split; try done; [|apply putProfile_courses].
  revert Hu'.
  unfold Db.putProfile, Db.try_catch, Db.putProfile_body, Db.bind,
    Db.User_findByIdAndUpdate, Db.ret.
  destruct (vr body) as [b []]; simpl in *; [|rewrite Hu; by intros [= <-]].
  set (updates := delete "studentId" _).
  assert (Db.castUpdate updates !! "studentId" = None) as Hsid.
  { apply castUpdate_absent; unfold updates.
    - by do 4 (rewrite lookup_delete_ne by done).
    - apply lookup_delete_eq. }
  assert (forall u0, Db.User_applyUpdate updates u = Some u0 ->
                     User.studentId u0 = User.studentId u) as Happ.
  { intros u0. unfold Db.User_applyUpdate.
    rewrite (set_path_absent _ "studentId") by done.
    intros H. by simplify_option_eq. }
  destruct fs as [|[] fs]; simpl; rewrite ?Hu; try (by intros [= <-]);
    (destruct (Db.User_applyUpdate updates u) as [u0|] eqn:Hu0; simpl;
       rewrite ?Hu; [|by intros [= <-]]);
    rewrite lookup_insert_eq; intros [= <-]; by apply Happ.
Qed.

Lemma profile_update_plain_witness :
  exists u', Db.users (Db.putProfile accept "alice" rename_body [] staff_db).2
               !! "alice" = Some u' /\
             User.name u' = "Alice" /\ User.role u' = "student" /\
             User.studentId u' = Some "S123456".
Proof.
  eexists. split; [by vm_compute|]. split; [reflexivity|].
  edestruct (profile_update_plain accept "alice" rename_body [] staff_db
               (sample_user "alice" "student" ["c1"]))
    as (_ & Hr & _ & Hs & _);
    [reflexivity|reflexivity|by vm_compute|].
  split; [exact Hr|exact Hs].
Defined.

(** ** The in-memory server: profile update *)

Lemma assign_lookup key v user k :
  Demo.assign key v user !! k
  = if negb (protected key) && String.eqb key k then Some v else user !! k.
Proof.
  unfold Demo.assign, protected. rewrite !negb_orb.
  destruct (negb (String.eqb key "email") && negb (String.eqb key "password")
            && negb (String.eqb key "role")); simpl; [|done].
  destruct (String.eqb_spec key k) as [->|Hne].
  - apply lookup_insert_eq.
  - by apply lookup_insert_ne.
Qed.

Lemma forEach_assign_lookup (updates user : Obj) k :
  map_fold Demo.assign user updates !! k
  = if protected k then user !! k
    else match updates !! k with Some v => Some v | None => user !! k end.
Proof.
  revert k.
  apply (map_fold_weak_ind (fun r (m : Obj) => forall k,
    r !! k = if protected k then user !! k
             else match m !! k with Some v => Some v | None => user !! k end)).
  - intros k. rewrite lookup_empty. by destruct (protected k).
  - intros i x m r Hi IH k. rewrite assign_lookup, IH.
    destruct (String.eqb_spec i k) as [->|Hne].
    + rewrite lookup_insert_eq, andb_true_r. by destruct (protected k).
    + rewrite lookup_insert_ne by done. by rewrite andb_false_r.
Qed.

(** X14.  The profile update of the in-memory server, for a caller with a
    valid token, always succeeds and writes every property of the body on
    the caller's object except email, password and role, which keep their
    values; the properties the body does not name are kept as well.  The
    caller's id and list of enrolled courses are among the properties a
    body can replace.  The answer is the object so updated, without its
    password; no other user and no course changes.  The body has no
    property named ["__proto__"]: assigning to that name replaces the
    prototype of an object instead of writing a property. *)
Theorem demo_profile_update :
  forall authorization body st email user,
    body !! "__proto__" = None ->
    Demo.authenticate st authorization = inr (email, user) ->
    let r := Demo.putProfile authorization body st in
    exists user',
      Demo.demoUsers r.2 !! email = Some user' /\
      (forall k, user' !! k
                 = if protected k then user !! k
                   else match body !! k with
                        | Some v => Some v
                        | None => user !! k
                        end) /\
      r.1 = ok "Profile updated successfully" (Some (delete "password" user')) /\
      (forall e, e <> email -> Demo.demoUsers r.2 !! e = Demo.demoUsers st !! e) /\
      Demo.demoCourses r.2 = Demo.demoCourses st.
Proof.
  intros authorization body st email user _ Ha r. subst r.
  unfold Demo.putProfile. rewrite Ha. simpl.
  exists (map_fold Demo.assign user body).
  split; [apply lookup_insert_eq|]. split; [apply forEach_assign_lookup|].
  split; [done|]. split; [|done].
  intros e He. by rewrite lookup_insert_ne.
Qed.

Lemma demo_profile_update_witness :
  exists user',
    Demo.demoUsers (Demo.putProfile student_header relabel_body Demo.initial).2
      !! "student@test.com" = Some user' /\
    user' !! "id" = Some (VStr "7") /\
    user' !! "role" = Some (VStr "student") /\
    user' !! "phone" = Some (VStr "555") /\
    user' !! "name" = Some (VStr "John Student").
Proof.
  destruct (demo_profile_update student_header relabel_body Demo.initial
              "student@test.com"
              (default ∅ (Demo.initialUsers !! "student@test.com")))
    as (user' & Hu & Hk & _); [reflexivity|reflexivity|].
  exists user'. split; [exact Hu|].
  rewrite (Hk "id"), (Hk "role"), (Hk "phone"), (Hk "name").
  repeat split; reflexivity.
Defined.


(** ** The in-memory server: tokens *)

Lemma split_dash_free a r :
  dash_free a = true ->
  split "-" (String.append a (String "-" r)) = a :: split "-" r.
Proof.
  induction a as [|c a IH]; simpl; [done|].
  intros [Hc Ha]%andb_prop. apply negb_true_iff in Hc. rewrite Hc.
  by rewrite (IH Ha).
Qed.

Lemma prefix_append a s : String.prefix a (String.append a s) = true.
Proof.
  induction a as [|c a IH]; simpl; [by destruct s|].
  by destruct (ascii_dec c c).
Qed.

(** A token with the id [i] in its third part. *)
Lemma validate_token_of_id users i rest :
  dash_free i = true ->
  Demo.validateSimpleToken users
    (String.append "demo-token-" (String.append i (String "-" rest)))
  = let email := if String.eqb i "1" then "student@test.com"
                 else "admin@test.com" in
    (fun u => (email, u)) <$> users !! email.
Proof.
  intros Hdash. unfold Demo.validateSimpleToken.
  rewrite prefix_append. simpl negb. cbv iota.
  change (split "-" (String.append "demo-token-"
            (String.append i (String "-" rest))))
    with ("demo" :: "token"
          :: split "-" (String.append i (String "-" rest))).
  by rewrite (split_dash_free _ _ Hdash).
Qed.

(** X15.  Reading back a generated token: for a user whose id is a string
    without dash, the token [generateSimpleToken] makes is accepted by
    [validateSimpleToken], which resolves it to the account of
    student@test.com when the id is "1" and to the account of
    admin@test.com for every other id; the token of a user with another
    id than "1" therefore resolves to that user only if the user is the
    one stored under admin@test.com. *)
Theorem token_round_trip :
  forall users user now i,
    prop user "id" = VStr i -> dash_free i = true ->
    Demo.validateSimpleToken users (Demo.generateSimpleToken user now)
    = let email := if String.eqb i "1" then "student@test.com"
                   else "admin@test.com" in
      (fun u => (email, u)) <$> users !! email.
Proof.
  intros users user now i Hi Hdash. unfold Demo.generateSimpleToken.
  rewrite Hi. simpl to_string.
  change (String.append "-" (pretty now)) with (String "-" (pretty now)).
  by apply validate_token_of_id.
Qed.

Lemma token_round_trip_witness :
  Demo.validateSimpleToken Demo.initialUsers
    (Demo.generateSimpleToken
       (default ∅ (Demo.initialUsers !! "admin@test.com")) 42)
  = (fun u => ("admin@test.com", u)) <$> Demo.initialUsers !! "admin@test.com".
Proof.
  apply (token_round_trip Demo.initialUsers
           (default ∅ (Demo.initialUsers !! "admin@test.com")) 42 "2");
    reflexivity.
Defined.

Lemma pretty_N_go_dash_free x s :
  dash_free s = true -> dash_free (pretty_N_go x s) = true.
Proof.
  revert s. induction (N.lt_wf_0 x) as [x _ IH]; intros s Hs.
  assert (x = 0 \/ 0 < x)%N as [->|Hx] by lia.
  - by rewrite pretty_N_go_0.
  - rewrite pretty_N_go_step by done. apply IH.
    + by apply N.div_lt.
    + simpl. rewrite Hs, andb_true_r.
      unfold pretty_N_char. by repeat case_match.
Qed.

Lemma pretty_dash_free (z : Z) : (0 <= z)%Z -> dash_free (pretty z) = true.
Proof.
  destruct z as [|p|p]; [done| |lia]. intros _.
  unfold pretty, pretty_Z, pretty, pretty_positive, pretty, pretty_N.
  case_decide; [done|]. by apply pretty_N_go_dash_free.
Qed.

Lemma register_run body now st :
  success (Demo.register body now st).1 = true ->
  Demo.demoUsers st !! to_string (prop body "email") = None /\
  truthy (prop body "email") = true /\
  truthy (prop body "password") = true /\
  Demo.register body now st
  = (mkResponse 201 true (Some "Registration successful")
       (Some (Demo.mkSession
                (Demo.generateSimpleToken (registered body now st) now)
                (Demo.userResponse (registered body now st)))),
     Demo.mkState
       (<[to_string (prop body "email") := registered body now st]>
          (Demo.demoUsers st))
       (Demo.demoCourses st)).
Proof.
  unfold Demo.register.
  destruct (truthy (prop body "name")); simpl; [|done].
  destruct (truthy (prop body "email")); simpl; [|done].
  destruct (truthy (prop body "password")); simpl; [|done].
  by destruct (Demo.demoUsers st !! to_string (prop body "email")).
Qed.

(** X16.  A registration that succeeds, with a string that is not the
    name of an inherited property as e-mail address, stores a new user
    under that address and touches no other user and no course; the new
    user has the role of the body, student when the body names none, an
    empty list of enrolled courses and the number of users, counted with
    the new one, as id.  A second registration with the same address is
    rejected, and a login with the same body succeeds when the password
    is a string. *)
Theorem register_then_login :
  forall body now st key,
    prop body "email" = VStr key ->
    inherited key = false ->
    success (Demo.register body now st).1 = true ->
    let st' := (Demo.register body now st).2 in
    Demo.demoUsers st !! key = None /\
    Demo.demoUsers st' = <[key := registered body now st]> (Demo.demoUsers st) /\
    Demo.demoCourses st' = Demo.demoCourses st /\
    size (Demo.demoUsers st') = S (size (Demo.demoUsers st)) /\
    (forall now',
       Demo.register body now' st'
       = (failure 400 "User already exists with this email", st')) /\
    (forall now' p,
       prop body "password" = VStr p ->
       success (Demo.login body now' st').1 = true /\
       (Demo.login body now' st').2 = st').
Proof.
  intros body now st key Hkey _ Hs st'. subst st'.
  destruct (register_run body now st Hs) as (Hnew & He & Hp & ->).
  rewrite Hkey in Hnew |- *. cbn [to_string] in Hnew |- *. simpl.
  split; [done|]. split; [done|]. split; [done|].
  split; [by apply map_size_insert_None|].
  assert (truthy (prop body "name") = true) as Hn.
  { revert Hs. unfold Demo.register.
    by destruct (truthy (prop body "name")). }
  split.
  - intros now'. unfold Demo.register. cbn [Demo.demoUsers].
    rewrite Hn, He, Hp, Hkey. cbn [to_string negb orb].
    by rewrite lookup_insert_eq.
  - intros now' p Hpw. unfold Demo.login. cbn [Demo.demoUsers].
    rewrite He, Hp, Hkey. cbn [to_string negb orb].
    rewrite lookup_insert_eq.
    assert (prop (registered body now st) "password" = prop body "password")
      as -> by done.
    rewrite Hpw. simpl. by rewrite String.eqb_refl.
Qed.

Lemma register_then_login_witness :
  success (Demo.login eve_body 2 (Demo.register eve_body 1 Demo.initial).2).1
  = true /\
  (Demo.register eve_body 3 (Demo.register eve_body 1 Demo.initial).2).1
  = failure 400 "User already exists with this email".
Proof.
  destruct (register_then_login eve_body 1 Demo.initial "eve@test.com")
    as (_ & _ & _ & _ & Hdup & Hlogin); [reflexivity..|].
  split; [by apply (Hlogin 2%Z "pw")|]. by rewrite Hdup.
Defined.

(** X17.  The token a registration hands out does not stand for the new
    user: whenever the table already has a user, the new id is not "1"
    and the token resolves to the account stored under admin@test.com,
    so that the new user's requests run as that account (and are refused
    as without valid token when there is none).  The address of the body
    is not the name of an inherited property. *)
Theorem registration_token_is_admin :
  forall body now st s,
    inherited (to_string (prop body "email")) = false ->
    success (Demo.register body now st).1 = true ->
    payload (Demo.register body now st).1 = Some s ->
    size (Demo.demoUsers st) <> 0 ->
    let st' := (Demo.register body now st).2 in
    Demo.validateSimpleToken (Demo.demoUsers st') (Demo.token s)
    = (fun u => ("admin@test.com", u))
        <$> Demo.demoUsers st' !! "admin@test.com".
Proof.
  intros body now st s _ Hs Hp Hsize st'. subst st'.
  destruct (register_run body now st Hs) as (_ & _ & _ & Hrun).
  rewrite Hrun in Hp |- *. simpl in Hp |- *. injection Hp as <-. simpl.
  unfold Demo.generateSimpleToken.
  change (to_string (prop (registered body now st) "id"))
    with (pretty (Z.of_nat (size (Demo.demoUsers st)) + 1)%Z).
  change (String.append "-" (pretty now)) with (String "-" (pretty now)).
  rewrite validate_token_of_id by (apply pretty_dash_free; lia).
  destruct (String.eqb_spec
              (pretty (Z.of_nat (size (Demo.demoUsers st)) + 1)%Z) "1")
    as [Heq|Hne]; [|done].
  change "1" with (pretty 1%Z) in Heq. apply (inj pretty) in Heq. lia.
Qed.

Lemma registration_token_is_admin_witness :
  exists s, payload (Demo.register eve_body 1 Demo.initial).1 = Some s /\
    fst <$> Demo.validateSimpleToken
              (Demo.demoUsers (Demo.register eve_body 1 Demo.initial).2)
              (Demo.token s)
    = Some "admin@test.com".
Proof.
  eexists. split; [by vm_compute|].
  rewrite (registration_token_is_admin eve_body 1 Demo.initial);
    [reflexivity|reflexivity|reflexivity|reflexivity|by vm_compute].
Defined.

(** ** The in-memory server: enrolment and the reading routes *)

Lemma demo_unenrolled_enrolled_course user user' uid c :
  prop user "id" = VStr uid -> prop user' "id" = VStr uid ->
  includes (VStr uid) (Demo.Course.enrolledStudents c) = false ->
  demo_unenrolled_course user' (demo_enrolled_course user c) = c.
Proof.
  intros Hu Hu' Hin. destruct c as [i cc cn ins dep sem cr es].
  unfold demo_unenrolled_course, demo_enrolled_course,
    Demo.Course.set_enrolledStudents. rewrite Hu, Hu'.
  cbn [Demo.Course.id Demo.Course.courseCode Demo.Course.courseName
       Demo.Course.instructor Demo.Course.department Demo.Course.semester
       Demo.Course.credits Demo.Course.enrolledStudents] in *.
  f_equal. by apply filter_snoc_out.
Qed.

(** What a successful enrolment has done. *)
Lemma demo_enroll_success authorization id st :
  success (Demo.enroll authorization id st).1 = true ->
  exists email user c user',
    Demo.authenticate st authorization = inr (email, user) /\
    prop user "role" = VStr "student" /\
    find (Demo.has_id id) (Demo.demoCourses st) = Some c /\
    includes (prop user "id") (Demo.Course.enrolledStudents c) = false /\
    Demo.enroll authorization id st
    = (ok "Successfully enrolled in course"
          (Some (demo_enrolled_course user c)),
       Demo.mkState (<[email := user']> (Demo.demoUsers st))
         (Demo.update_first (Demo.has_id id) (demo_enrolled_course user)
            (Demo.demoCourses st))).
Proof.
  unfold Demo.enroll.
  destruct (Demo.authenticate st authorization) as [msg|[email user]] eqn:Ha;
    [done|].
  destruct (strict_eq (prop user "role") (VStr "student")) eqn:Hrole;
    [|done].
  apply strict_eq_VStr_r in Hrole.
  destruct (find (Demo.has_id id) (Demo.demoCourses st)) as [c|] eqn:Hc;
    [|done].
  destruct (includes (prop user "id") (Demo.Course.enrolledStudents c))
    eqn:Hin; [done|].
  cbn [negb].
  destruct (prop (if negb (truthy (prop user "enrolledCourses"))
                  then <["enrolledCourses" := VArr []]> user else user)
              "enrolledCourses") as [| | | | |l|] eqn:Hl; try done.
  intros _. by eexists email, user, c, _.
Qed.

(** X18.  After a successful enrolment the course list has the same
    length, [GET /api/courses/:id] for the same id shows the course the
    enrolment answered with, and the caller's id is the last entry of its
    roster. *)
Theorem demo_enroll_then_getCourse :
  forall authorization id st,
    success (Demo.enroll authorization id st).1 = true ->
    let st' := (Demo.enroll authorization id st).2 in
    exists email user c,
      Demo.authenticate st authorization = inr (email, user) /\
      payload (Demo.enroll authorization id st).1 = Some c /\
      Demo.getCourse id st' = (mkResponse 200 true None (Some c), st') /\
      Demo.Course.id c = id /\
      last (Demo.Course.enrolledStudents c) = Some (prop user "id") /\
      length (Demo.demoCourses st') = length (Demo.demoCourses st).
Proof.
  intros authorization id st Hs st'. subst st'.
  destruct (demo_enroll_success _ _ _ Hs)
    as (email & user & c & user' & Ha & _ & Hc & _ & ->).
  exists email, user, (demo_enrolled_course user c). simpl.
  split; [done|]. split; [done|]. split; [|split; [|split]].
  - unfold Demo.getCourse. simpl. by rewrite (find_update_first _ _ _ c).
  - by apply find_has_id in Hc as [_ ?].
  - destruct c. simpl. apply last_snoc.
  - apply length_update_first.
Qed.

Lemma demo_enroll_then_getCourse_witness :
  exists c,
    payload (Demo.getCourse "3" (Demo.enroll student_header "3" Demo.initial).2).1
    = Some c /\
    Demo.Course.enrolledStudents c = [VStr "1"].
Proof.
  destruct (demo_enroll_then_getCourse student_header "3" Demo.initial)
    as (email & user & c & Ha & Hp & Hg & _); [reflexivity|].
  exists c. rewrite Hg. split; [reflexivity|].
  vm_compute in Hp. by injection Hp as <-.
Defined.

(** X19.  Enrolling and then unenrolling with the same token, on tables
    that are well formed and consistent: the unenrolment succeeds, the
    courses are as before the enrolment, and so is every user, property
    by property and in the list of enrolled courses (a caller without
    such a list is left with an empty one). *)
Theorem demo_unenroll_undoes_enroll :
  forall authorization id st,
    Demo.well_formed st -> Demo.consistent st ->
    success (Demo.enroll authorization id st).1 = true ->
    let st1 := (Demo.enroll authorization id st).2 in
    let st2 := (Demo.unenroll authorization id st1).2 in
    (Demo.unenroll authorization id st1).1
    = ok "Successfully unenrolled from course" None /\
    Demo.demoCourses st2 = Demo.demoCourses st /\
    (forall e, Demo.demoUsers st !! e = None -> Demo.demoUsers st2 !! e = None) /\
    (forall e u,
       Demo.demoUsers st !! e = Some u ->
       exists u',
         Demo.demoUsers st2 !! e = Some u' /\
         Demo.enrolled u' = Demo.enrolled u /\
         forall k, k <> "enrolledCourses" -> u' !! k = u !! k).
Proof.
  intros authorization id st Hwf Hcons Hs st1 st2. subst st2 st1.
  destruct (demo_enroll_success _ _ _ Hs)
    as (email & user & c & _ & Ha & Hrole & Hc & Hin & _).
  pose proof (authenticate_lookup _ _ _ _ Ha) as Hu.
  pose proof Hwf as (Hnd & Hwfu & _).
  pose proof (Hwfu _ _ Hu) as Hwu.
  destruct Hwu as [[uid Huid%prop_lookup] Hlist].
  destruct (find_has_id _ _ _ Hc) as [Hcin Hcid].
  rewrite (demo_enroll_run _ _ _ _ _ _ Ha Hrole (Hwfu _ _ Hu) Hc Hin).
  cbn [snd].
  set (u1 := demo_enrolled_user (Demo.Course.id c) user).
  set (c1 := demo_enrolled_course user c).
  assert (Demo.Course.id c1 = Demo.Course.id c) as Hc1 by by destruct c.
  assert (prop u1 "id" = VStr uid) as Hu1
    by (by unfold u1; rewrite demo_enrolled_user_id).
  rewrite (demo_unenroll_run _ _ _ email u1 c1
             (Demo.enrolled user ++ [VStr (Demo.Course.id c)])).
  2: exact (authenticate_insert st authorization email user u1 _ Ha).
  2: apply lookup_insert_eq.
  2: { apply find_update_first; [by intros []|done]. }
  2: { rewrite Hu1. unfold c1, demo_enrolled_course. destruct c. simpl.
       rewrite includes_app, Huid. simpl. rewrite String.eqb_refl.
       by rewrite orb_true_r. }
  cbn [fst snd Demo.demoCourses Demo.demoUsers].
  assert (includes (VStr (Demo.Course.id c)) (Demo.enrolled user) = false)
    as Hnot.
  { destruct (includes (VStr (Demo.Course.id c)) (Demo.enrolled user))
      eqn:Hx; [|done].
    apply (Hcons _ _ _ Hu Hcin) in Hx. congruence. }
  split; [done|]. split; [|split].
  - rewrite update_first_twice by by intros [].
    apply (update_first_found _ _ _ c Hc).
    apply (demo_unenrolled_enrolled_course _ _ uid); [done|done|].
    by rewrite <- Huid.
  - intros e He. rewrite insert_insert_eq.
    rewrite lookup_insert_ne; [done|]. intros <-. congruence.
  - intros e u He. rewrite insert_insert_eq.
    destruct (decide (e = email)) as [->|Hne].
    + rewrite lookup_insert_eq. eexists. split; [done|].
      assert (u = user) as -> by congruence.
      rewrite Hc1. split.
      * rewrite demo_unenrolled_user_list. unfold u1.
        rewrite demo_enrolled_user_list. by apply filter_snoc_out.
      * intros k Hk. unfold demo_unenrolled_user, u1, demo_enrolled_user.
        by rewrite !lookup_insert_ne.
    + rewrite lookup_insert_ne by done. by exists u.
Qed.

Lemma demo_unenroll_undoes_enroll_witness :
  Demo.demoCourses
    (Demo.unenroll student_header "3"
       (Demo.enroll student_header "3" Demo.initial).2).2
  = Demo.initialCourses.
Proof.
  apply (demo_unenroll_undoes_enroll student_header "3" Demo.initial).
  - apply initial_well_formed.
  - apply initial_consistent.
  - reflexivity.
Defined.

(** ** The in-memory server: dashboard and statistics *)

Lemma filter_courses_enrolled user cs :
  Demo.well_formed_user user ->
  Demo.filter_courses user cs
  = Some (List.filter
            (fun c => includes (VStr (Demo.Course.id c)) (Demo.enrolled user))
            cs).
Proof.
  intros [_ Hl]. unfold Demo.enrolled.
  induction cs as [|c cs IH]; [done|].
  cbn [Demo.filter_courses List.filter]. rewrite IH.
  unfold Demo.on_list, prop.
  destruct Hl as [->|[l ->]]; simpl; [done|].
  by destruct (includes _ l).
Qed.

(** X20.  The dashboard of the in-memory server, on tables that are well
    formed and consistent: the request is answered for the caller of the
    token, or for the built-in student when there is no valid token, and
    never changes a table.  The number of enrolled courses is the number
    of courses that have the user on their roster, the number of upcoming
    classes is twice that, and at most three courses are listed as
    recent. *)
Theorem demo_dashboard_counts :
  forall authorization now st user,
    Demo.well_formed st -> Demo.consistent st ->
    match Demo.authenticate st authorization with
    | inr (_, u) => Some u
    | inl _ => Demo.demoUsers st !! "student@test.com"
    end = Some user ->
    exists d,
      Demo.dashboard authorization now st
      = (mkResponse 200 true None (Some d), st) /\
      Demo.enrolledCourses d
      = length (List.filter
                  (fun c => includes (prop user "id")
                              (Demo.Course.enrolledStudents c))
                  (Demo.demoCourses st)) /\
      Demo.upcomingClasses d = Demo.enrolledCourses d * 2 /\
      length (Demo.recentCourses d) = Demo.enrolledCourses d `min` 3 /\
      Demo.dashboard_user d !! "email" = Some (prop user "email").
Proof.
  intros authorization now st user Hwf Hcons Hres.
  assert (exists email, Demo.demoUsers st !! email = Some user) as [email Hu].
  { destruct (Demo.authenticate st authorization) as [msg|[e u]] eqn:Ha.
    - by exists "student@test.com".
    - injection Hres as ->. exists e. by apply authenticate_lookup in Ha. }
  pose proof (proj1 (proj2 Hwf) _ _ Hu) as Hwu.
  assert (List.filter
            (fun c => includes (VStr (Demo.Course.id c)) (Demo.enrolled user))
            (Demo.demoCourses st)
          = List.filter
              (fun c => includes (prop user "id")
                          (Demo.Course.enrolledStudents c))
              (Demo.demoCourses st)) as Hfilter.
  { apply List.filter_ext_in. intros c Hc%list_elem_of_In.
    apply eq_true_iff_eq. symmetry. by apply (Hcons _ _ _ Hu Hc). }
  unfold Demo.dashboard. unfold Demo.authenticate in Hres.
  assert (match
            match Demo.bearer authorization with
            | Some token =>
                snd <$> Demo.validateSimpleToken (Demo.demoUsers st) token
            | None => None
            end
          with
          | Some user => Some user
          | None => Demo.demoUsers st !! "student@test.com"
          end = Some user) as ->.
  { destruct (Demo.bearer authorization) as [token|]; [|done].
    by destruct (Demo.validateSimpleToken _ token) as [[e u]|]. }
  rewrite (filter_courses_enrolled _ _ Hwu), Hfilter.
  eexists. split; [reflexivity|]. cbn [Demo.enrolledCourses
    Demo.upcomingClasses Demo.recentCourses Demo.dashboard_user].
  split; [done|]. split; [done|]. split.
  - by rewrite length_fmap, length_take, Nat.min_comm.
  - done.
Qed.

Lemma demo_dashboard_counts_witness :
  exists d,
    payload (Demo.dashboard None 0 Demo.initial).1 = Some d /\
    Demo.enrolledCourses d = 2 /\ Demo.upcomingClasses d = 4.
Proof.
  destruct (demo_dashboard_counts None 0 Demo.initial
              (default ∅ (Demo.initialUsers !! "student@test.com")))
    as (d & Hd & Hn & Hc & _).
  - apply initial_well_formed.
  - apply initial_consistent.
  - reflexivity.
  - exists d. rewrite Hd. split; [reflexivity|].
    rewrite Hc, Hn. split; reflexivity.
Defined.

(** X21.  The statistics of the in-memory server never change a table.
    A request without token is answered with 401; one whose token does
    not resolve to a user, or resolves to a user whose role is not admin,
    is answered with 403.  A caller whose role is admin is answered with
    the statistics: the number of users, the number of those whose role
    is student, their difference as the number of administrators (so that
    every user that is not a student counts as administrator and the two
    add up to the users), the number of courses, also as the number of
    active ones, and no recent registration. *)
Theorem demo_statistics_coherent :
  forall authorization st,
    let r := Demo.statistics authorization st in
    r.2 = st /\
    (Demo.authenticate st authorization = inl "No token provided" ->
     r.1 = failure 401 "No token provided") /\
    (Demo.authenticate st authorization = inl "Invalid token" ->
     r.1 = failure 403 "Access denied. Admin only.") /\
    (forall email user,
       Demo.authenticate st authorization = inr (email, user) ->
       if strict_eq (prop user "role") (VStr "admin") then
         exists s,
           r.1 = mkResponse 200 true None (Some s) /\
           Demo.totalUsers s = size (Demo.demoUsers st) /\
           Demo.totalStudents s
           = length (List.filter Demo.is_student
                       (map_to_list (Demo.demoUsers st)).*2) /\
           Demo.totalStudents s + Demo.totalAdmins s = Demo.totalUsers s /\
           Demo.totalCourses s = length (Demo.demoCourses st) /\
           Demo.activeCourses s = length (Demo.demoCourses st) /\
           Demo.recentRegistrations s = 0
       else r.1 = failure 403 "Access denied. Admin only.").
Proof.
  intros authorization st r. subst r.
  unfold Demo.statistics, Demo.authenticate.
  destruct (Demo.bearer authorization) as [token|];
    [|by repeat split].
  destruct (Demo.validateSimpleToken _ token) as [[email user]|];
    [|by repeat split].
  split; [by destruct (negb _)|]. split; [done|]. split; [done|].
  intros e u [= <- <-].
  destruct (strict_eq (prop user "role") (VStr "admin")); [|done].
  cbn [negb]. eexists. split; [reflexivity|]. cbn.
  split; [done|]. split; [done|].
  assert (length (List.filter Demo.is_student
                    (map_to_list (Demo.demoUsers st)).*2)
          <= size (Demo.demoUsers st)) as Hle.
  { rewrite <- (length_map_to_list (Demo.demoUsers st)),
      <- (length_fmap snd (map_to_list (Demo.demoUsers st))).
    apply List.filter_length_le. }
  split; [lia|]. done.
Qed.

Lemma demo_statistics_coherent_witness :
  exists s,
    (Demo.statistics admin_header Demo.initial).1
    = mkResponse 200 true None (Some s) /\
    Demo.totalUsers s = 2 /\ Demo.totalStudents s = 1 /\
    Demo.totalAdmins s = 1.
Proof.
  destruct (demo_statistics_coherent admin_header Demo.initial)
    as (_ & _ & _ & H).
  specialize (H "admin@test.com"
                (default ∅ (Demo.initialUsers !! "admin@test.com")) eq_refl).
  destruct H as (s & Hr & Hn & Hst & Hsum & _).
  assert (Demo.totalUsers s = 2) as Hn' by (rewrite Hn; reflexivity).
  assert (Demo.totalStudents s = 1) as Hst' by (rewrite Hst; reflexivity).
  exists s. split; [exact Hr|]. split; [exact Hn'|]. split; [exact Hst'|].
  rewrite Hn', Hst' in Hsum. lia.
Defined.

(** ** The dashboard of the student router *)

Lemma length_populate cs ids :
  length (Db.populate cs ids)
  = length (List.filter (fun i => bool_decide (is_Some (cs !! i))) ids).
Proof.
  unfold Db.populate. induction ids as [|i ids IH]; [done|]. csimpl.
  destruct (cs !! i) as [c|]; simpl; by rewrite IH.
Qed.

Lemma populate_active_le cs ids :
  length (Db.populate_active cs ids) <= length (Db.populate cs ids).
Proof.
  unfold Db.populate_active, Db.populate.
  induction ids as [|i ids IH]; [done|]. csimpl.
  destruct (cs !! i) as [c|]; simpl; [|done].
  destruct (Course.isActive c); simpl; lia.
Qed.

(** X22.  The dashboard of the student router never writes.  When the
    store answers, a caller without document gets NotFound, and otherwise
    the number of enrolled courses is the number of entries of the
    student's list whose course document exists, active or not; the
    upcoming classes are twice that number, at most three courses are
    listed as recent, and the count of [GET /api/students/courses], which
    drops the deactivated courses, never exceeds it.  When the store
    fails the answer is a success made of the built-in data. *)
Theorem dashboard_counts :
  forall me name email today fs db,
    let r := Db.dashboard me name email today fs db in
    r.2 = db /\
    (head fs = Some true ->
     r.1 = mkResponse 200 true None (Some (Db.fallback_dashboard name email)))
    /\
    (head fs <> Some true ->
     match Db.users db !! me with
     | None => r.1 = failure 404 "User not found"
     | Some u =>
       exists d,
         r.1 = mkResponse 200 true None (Some d) /\
         Db.dash_source d = None /\
         Db.dash_enrolledCourses d
         = length (List.filter
                     (fun i => bool_decide (is_Some (Db.courses db !! i)))
                     (User.enrolledCourses u)) /\
         Db.dash_upcomingClasses d = Db.dash_enrolledCourses d * 2 /\
         length (Db.dash_recentCourses d) = Db.dash_enrolledCourses d `min` 3
         /\
         forall fs' n l,
           payload (Db.studentCourses me fs' db).1 = Some (n, l, None) ->
           n <= Db.dash_enrolledCourses d
     end).
Proof.
  intros me name email today fs db r. subst r.
  unfold Db.dashboard, Db.try_catch, Db.dashboard_body, Db.bind,
    Db.User_findProfile, Db.call, Db.ret.
  destruct (Db.users db !! me) as [u|] eqn:Hu;
    destruct fs as [|[] fs]; simpl; (split; [done|]); split; try done.
  all: try (intros Hh; by destruct Hh).
  all: intros _; eexists; (split; [reflexivity|]); simpl.
  all: split; [done|]; split; [apply length_populate|]; split; [done|].
  all: split; [by rewrite length_fmap, length_take, Nat.min_comm|].
  all: intros fs' n l;
    unfold Db.studentCourses, Db.try_catch, Db.studentCourses_body, Db.bind,
      Db.User_findById_courses, Db.call, Db.ret; rewrite Hu;
    destruct fs' as [|[] fs']; simpl; try done;
    intros [= <- <-]; apply populate_active_le.
Qed.

Lemma dashboard_counts_witness :
  exists d,
    (Db.dashboard "alice" None None 0 [] staff_db).1
    = mkResponse 200 true None (Some d) /\
    Db.dash_enrolledCourses d = 1 /\ Db.dash_upcomingClasses d = 2.
Proof.
  pose proof (dashboard_counts "alice" None None 0 [] staff_db) as (_ & _ & H).
  specialize (H ltac:(done)).
  change (Db.users staff_db !! "alice")
    with (Some (sample_user "alice" "student" ["c1"])) in H.
  destruct H as (d & Hd & _ & Hn & Hc & _). exists d.
  split; [exact Hd|]. rewrite Hc, Hn. split; reflexivity.
Defined.

(** ** The in-memory server: rejections *)

(** X23.  On tables that are well formed and consistent the enrolment
    handlers of the in-memory server never throw: no request is answered
    with a server error, and a request that is not answered with success
    has changed neither table. *)
Theorem demo_enrolment_never_throws :
  forall authorization id st,
    Demo.well_formed st -> Demo.consistent st ->
    let e := Demo.enroll authorization id st in
    let u := Demo.unenroll authorization id st in
    status e.1 <> 500 /\ status u.1 <> 500 /\
    (success e.1 = false -> e.2 = st) /\
    (success u.1 = false -> u.2 = st).
Proof.
  intros authorization id st Hwf Hcons e u. subst e u.
  destruct (Demo.authenticate st authorization) as [msg|[email user]] eqn:Ha;
    [by unfold Demo.enroll, Demo.unenroll; rewrite Ha|].
  pose proof (authenticate_lookup _ _ _ _ Ha) as Hu.
  pose proof (proj1 (proj2 Hwf) _ _ Hu) as Hwu.
  destruct (find (Demo.has_id id) (Demo.demoCourses st)) as [c|] eqn:Hc.
  2: { unfold Demo.enroll, Demo.unenroll. rewrite Ha, Hc.
       by destruct (negb _). }
  destruct (find_has_id _ _ _ Hc) as [Hcin _].
  destruct (includes (prop user "id") (Demo.Course.enrolledStudents c))
    eqn:Hin.
  - destruct (enrolled_is_array _ _ _ _ Hwf Hcons Hu Hcin Hin) as [l Hl].
    rewrite (demo_unenroll_run _ _ _ _ _ _ _ Ha Hl Hc Hin).
    unfold Demo.enroll. rewrite Ha, Hc, Hin. by destruct (negb _).
  - assert (Demo.unenroll authorization id st
            = (failure 400 "Not enrolled in this course", st)) as ->
      by by unfold Demo.unenroll; rewrite Ha, Hc, Hin.
    destruct (strict_eq (prop user "role") (VStr "student")) eqn:Hrole.
    + apply strict_eq_VStr_r in Hrole.
      by rewrite (demo_enroll_run _ _ _ _ _ _ Ha Hrole Hwu Hc Hin).
    + unfold Demo.enroll. by rewrite Ha, Hrole.
Qed.

Lemma demo_enrolment_never_throws_witness :
  (Demo.enroll admin_header "1" Demo.initial).2 = Demo.initial /\
  (Demo.unenroll student_header "3" Demo.initial).2 = Demo.initial.
Proof.
  destruct (demo_enrolment_never_throws admin_header "1" Demo.initial)
    as (_ & _ & He & _);
    [apply initial_well_formed|apply initial_consistent|].
  destruct (demo_enrolment_never_throws student_header "3" Demo.initial)
    as (_ & _ & _ & Hu);
    [apply initial_well_formed|apply initial_consistent|].
  split; [apply He|apply Hu]; reflexivity.
Defined.
